(** * Gana-Vithi: the database schema, its row-level-security policies and
    its triggers, as a shallow embedding.

    The program is the SQL migration that creates the eight public tables,
    enables row level security on them, declares the policies, and installs
    the two trigger functions [handle_new_user] and [handle_updated_at].
    Tables are lists of rows in physical order; every constraint the
    migration declares (PRIMARY KEY, UNIQUE, REFERENCES ... ON DELETE
    CASCADE, NOT NULL through the column types) is checked by the operations,
    not built into the representation. *)

From Stdlib Require Import ZArith QArith Ascii String List Bool Lia.
From stdpp Require Import base decidable option list strings numbers.

#[local] Set Warnings "-register-all".
Local Open Scope string_scope.
Local Open Scope list_scope.

(** ** Column types *)

(** UUID: a 128-bit value. *)
Definition UUID := N.
(** TIMESTAMPTZ: microseconds since the epoch. *)
Definition timestamptz := Z.
(** NUMERIC *)
Definition numeric := Q.
Bind Scope N_scope with UUID.
Bind Scope Z_scope with timestamptz.
(** DATE *)
Record date := Date { year : Z; month : Z; day : Z }.

(** JSONB (the [Json] type of the generated client). A number keeps its
    text; an object keeps its fields as the database stores them. *)
Inductive jsonb :=
| JNull
| JBool (b : bool)
| JNumber (text : string)
| JString (s : string)
| JArray (items : list jsonb)
| JObject (fields : list (string * jsonb)).

Definition hex_digit (n : N) : ascii :=
  if (n <? 10)%N then ascii_of_N (48 + n) else ascii_of_N (87 + n).

(** The escaping of the JSON text output: the quote, the backslash and the
    control characters. *)
Definition escape_char (c : ascii) : string :=
  let n := N_of_ascii c in
  if (n =? 34)%N then String "\" (String c EmptyString)
  else if (n =? 92)%N then "\\"
  else if (n =? 8)%N then "\b"
  else if (n =? 12)%N then "\f"
  else if (n =? 10)%N then "\n"
  else if (n =? 13)%N then "\r"
  else if (n =? 9)%N then "\t"
  else if (n <? 32)%N then
    "\u00" +:+ String (hex_digit (n / 16)) (String (hex_digit (n mod 16)) EmptyString)
  else String c EmptyString.

Fixpoint escape_json (s : string) : string :=
  match s with
  | EmptyString => EmptyString
  | String c rest => escape_char c +:+ escape_json rest
  end.

Definition dquote : string := String (ascii_of_N 34) EmptyString.
Definition json_quote (s : string) : string := dquote +:+ escape_json s +:+ dquote.

Fixpoint join (sep : string) (l : list string) : string :=
  match l with
  | [] => EmptyString
  | [x] => x
  | x :: rest => x +:+ sep +:+ join sep rest
  end.

(** The text form of a jsonb value. *)
Fixpoint jsonb_out (j : jsonb) : string :=
  match j with
  | JNull => "null"
  | JBool true => "true"
  | JBool false => "false"
  | JNumber t => t
  | JString s => json_quote s
  | JArray items => "[" +:+ join ", " (List.map jsonb_out items) +:+ "]"
  | JObject fields =>
      "{" +:+ join ", " (List.map (fun kv => json_quote (fst kv) +:+ ": " +:+ jsonb_out (snd kv)) fields) +:+ "}"
  end.

Fixpoint jsonb_field (key : string) (fields : list (string * jsonb)) : option jsonb :=
  match fields with
  | [] => None
  | (k, v) :: rest => if bool_decide (k = key) then Some v else jsonb_field key rest
  end.

(** The operator [->>]: the field of an object as text. NULL when the value
    is NULL or not an object, when the key is absent, and when the field
    holds the JSON null. *)
Definition jsonb_get_text (j : option jsonb) (key : string) : option string :=
  match j with
  | Some (JObject fields) =>
      match jsonb_field key fields with
      | Some JNull => None
      | Some (JString s) => Some s
      | Some v => Some (jsonb_out v)
      | None => None
      end
  | _ => None
  end.

(** COALESCE of two arguments, the second one not NULL. *)
Definition COALESCE {A} (x : option A) (d : A) : A :=
  match x with Some v => v | None => d end.

(** ** SQL's three-valued logic: NULL is [None] *)

Definition sql_eq {A} `{EqDecision A} (x y : option A) : option bool :=
  match x, y with
  | Some a, Some b => Some (bool_decide (a = b))
  | _, _ => None
  end.

Definition sql_and (x y : option bool) : option bool :=
  match x, y with
  | Some false, _ | _, Some false => Some false
  | Some true, Some true => Some true
  | _, _ => None
  end.

(** A row passes a WHERE, USING or WITH CHECK expression only when the
    expression is true: false and NULL both reject. *)
Definition sql_true (x : option bool) : bool :=
  match x with Some true => true | _ => false end.

(** A column of an insert that the statement may leave out: the column
    default applies when it is omitted. *)
Inductive optional (A : Type) := Omitted | Given (v : A).
Arguments Omitted {A}.
Arguments Given {A} v.

Definition or_default {A} (o : optional A) (d : A) : A :=
  match o with Omitted => d | Given v => v end.

(** What the database supplies to a statement: NOW() and the values
    gen_random_uuid() draws. *)
Record env := Env { NOW : timestamptz; gen_random_uuid : UUID }.

(** ** The tables

    One module per table: [row] follows the CREATE TABLE statement column by
    column (a nullable column is an [option]), [Insert.t] is the shape of an
    INSERT, where a column with a default or a nullable column may be left
    out. *)

(** auth.users belongs to the authentication service. The migration reads
    two of its columns: [id], which the foreign keys reference, and
    [raw_user_meta_data], which [handle_new_user] reads. *)
Module Users.
Record row := Row {
  id : UUID;
  raw_user_meta_data : option jsonb
}.
End Users.

Module Profiles.
Record row := Row {
  id : UUID;
  full_name : option string;
  phone : option string;
  preferred_language : option string;
  education_level : option string;
  interests : option (list string);
  location : option string;
  created_at : option timestamptz;
  updated_at : option timestamptz
}.

Module Insert.
Record t := Make {
  id : UUID;
  full_name : optional (option string);
  phone : optional (option string);
  preferred_language : optional (option string);
  education_level : optional (option string);
  interests : optional (option (list string));
  location : optional (option string);
  created_at : optional (option timestamptz);
  updated_at : optional (option timestamptz)
}.
End Insert.

Definition defaults (e : env) (i : Insert.t) : row :=
  {| id := Insert.id i;
     full_name := or_default (Insert.full_name i) None;
     phone := or_default (Insert.phone i) None;
     preferred_language := or_default (Insert.preferred_language i) (Some "en");
     education_level := or_default (Insert.education_level i) None;
     interests := or_default (Insert.interests i) None;
     location := or_default (Insert.location i) None;
     created_at := or_default (Insert.created_at i) (Some (NOW e));
     updated_at := or_default (Insert.updated_at i) (Some (NOW e)) |}.

Definition with_updated_at (r : row) (t : option timestamptz) : row :=
  {| id := id r; full_name := full_name r; phone := phone r;
     preferred_language := preferred_language r;
     education_level := education_level r; interests := interests r;
     location := location r; created_at := created_at r; updated_at := t |}.
End Profiles.

Module Colleges.
Record row := Row {
  id : UUID;
  name : string;
  type : string;
  location : string;
  state : string;
  fees_per_year : option numeric;
  ranking : option Z;
  admission_criteria : option string;
  contact_info : option jsonb;
  created_at : option timestamptz
}.

Module Insert.
Record t := Make {
  id : optional UUID;
  name : string;
  type : string;
  location : string;
  state : string;
  fees_per_year : optional (option numeric);
  ranking : optional (option Z);
  admission_criteria : optional (option string);
  contact_info : optional (option jsonb);
  created_at : optional (option timestamptz)
}.
End Insert.

Definition defaults (e : env) (i : Insert.t) : row :=
  {| id := or_default (Insert.id i) (gen_random_uuid e);
     name := Insert.name i;
     type := Insert.type i;
     location := Insert.location i;
     state := Insert.state i;
     fees_per_year := or_default (Insert.fees_per_year i) None;
     ranking := or_default (Insert.ranking i) None;
     admission_criteria := or_default (Insert.admission_criteria i) None;
     contact_info := or_default (Insert.contact_info i) None;
     created_at := or_default (Insert.created_at i) (Some (NOW e)) |}.
End Colleges.

Module Scholarships.
Record row := Row {
  id : UUID;
  title : string;
  description : string;
  amount : numeric;
  eligibility_criteria : string;
  deadline : date;
  application_link : option string;
  category : string;
  is_active : option bool;
  created_at : option timestamptz
}.

Module Insert.
Record t := Make {
  id : optional UUID;
  title : string;
  description : string;
  amount : numeric;
  eligibility_criteria : string;
  deadline : date;
  application_link : optional (option string);
  category : string;
  is_active : optional (option bool);
  created_at : optional (option timestamptz)
}.
End Insert.

Definition defaults (e : env) (i : Insert.t) : row :=
  {| id := or_default (Insert.id i) (gen_random_uuid e);
     title := Insert.title i;
     description := Insert.description i;
     amount := Insert.amount i;
     eligibility_criteria := Insert.eligibility_criteria i;
     deadline := Insert.deadline i;
     application_link := or_default (Insert.application_link i) None;
     category := Insert.category i;
     is_active := or_default (Insert.is_active i) (Some true);
     created_at := or_default (Insert.created_at i) (Some (NOW e)) |}.
End Scholarships.

Module CareerPaths.
Record row := Row {
  id : UUID;
  title : string;
  description : string;
  required_education : string;
  average_salary : option numeric;
  job_outlook : option string;
  skills_required : option (list string);
  related_courses : option (list string);
  created_at : option timestamptz
}.

Module Insert.
Record t := Make {
  id : optional UUID;
  title : string;
  description : string;
  required_education : string;
  average_salary : optional (option numeric);
  job_outlook : optional (option string);
  skills_required : optional (option (list string));
  related_courses : optional (option (list string));
  created_at : optional (option timestamptz)
}.
End Insert.

Definition defaults (e : env) (i : Insert.t) : row :=
  {| id := or_default (Insert.id i) (gen_random_uuid e);
     title := Insert.title i;
     description := Insert.description i;
     required_education := Insert.required_education i;
     average_salary := or_default (Insert.average_salary i) None;
     job_outlook := or_default (Insert.job_outlook i) None;
     skills_required := or_default (Insert.skills_required i) None;
     related_courses := or_default (Insert.related_courses i) None;
     created_at := or_default (Insert.created_at i) (Some (NOW e)) |}.
End CareerPaths.

Module ChatConversations.
Record row := Row {
  id : UUID;
  user_id : UUID;
  title : option string;
  language : option string;
  created_at : option timestamptz;
  updated_at : option timestamptz
}.

Module Insert.
Record t := Make {
  id : optional UUID;
  user_id : UUID;
  title : optional (option string);
  language : optional (option string);
  created_at : optional (option timestamptz);
  updated_at : optional (option timestamptz)
}.
End Insert.

Definition defaults (e : env) (i : Insert.t) : row :=
  {| id := or_default (Insert.id i) (gen_random_uuid e);
     user_id := Insert.user_id i;
     title := or_default (Insert.title i) None;
     language := or_default (Insert.language i) (Some "en");
     created_at := or_default (Insert.created_at i) (Some (NOW e));
     updated_at := or_default (Insert.updated_at i) (Some (NOW e)) |}.

Definition with_updated_at (r : row) (t : option timestamptz) : row :=
  {| id := id r; user_id := user_id r; title := title r;
     language := language r; created_at := created_at r; updated_at := t |}.
End ChatConversations.

Module ChatMessages.
Record row := Row {
  id : UUID;
  conversation_id : UUID;
  content : string;
  is_user : bool;
  created_at : option timestamptz
}.

Module Insert.
Record t := Make {
  id : optional UUID;
  conversation_id : UUID;
  content : string;
  is_user : bool;
  created_at : optional (option timestamptz)
}.
End Insert.

Definition defaults (e : env) (i : Insert.t) : row :=
  {| id := or_default (Insert.id i) (gen_random_uuid e);
     conversation_id := Insert.conversation_id i;
     content := Insert.content i;
     is_user := Insert.is_user i;
     created_at := or_default (Insert.created_at i) (Some (NOW e)) |}.
End ChatMessages.

Module UserProgress.
Record row := Row {
  id : UUID;
  user_id : UUID;
  quest_type : string;
  status : option string;
  points : option Z;
  metadata : option jsonb;
  completed_at : option timestamptz;
  created_at : option timestamptz;
  updated_at : option timestamptz
}.

Module Insert.
Record t := Make {
  id : optional UUID;
  user_id : UUID;
  quest_type : string;
  status : optional (option string);
  points : optional (option Z);
  metadata : optional (option jsonb);
  completed_at : optional (option timestamptz);
  created_at : optional (option timestamptz);
  updated_at : optional (option timestamptz)
}.
End Insert.

Definition defaults (e : env) (i : Insert.t) : row :=
  {| id := or_default (Insert.id i) (gen_random_uuid e);
     user_id := Insert.user_id i;
     quest_type := Insert.quest_type i;
     status := or_default (Insert.status i) (Some "pending");
     points := or_default (Insert.points i) (Some 0%Z);
     metadata := or_default (Insert.metadata i) None;
     completed_at := or_default (Insert.completed_at i) None;
     created_at := or_default (Insert.created_at i) (Some (NOW e));
     updated_at := or_default (Insert.updated_at i) (Some (NOW e)) |}.

Definition with_updated_at (r : row) (t : option timestamptz) : row :=
  {| id := id r; user_id := user_id r; quest_type := quest_type r;
     status := status r; points := points r; metadata := metadata r;
     completed_at := completed_at r; created_at := created_at r;
     updated_at := t |}.

(** The columns of UNIQUE(user_id, quest_type). *)
Definition unique_key (r : row) : UUID * string := (user_id r, quest_type r).
End UserProgress.

Module UserSavedItems.
Record row := Row {
  id : UUID;
  user_id : UUID;
  item_type : string;
  item_id : UUID;
  notes : option string;
  created_at : option timestamptz
}.

Module Insert.
Record t := Make {
  id : optional UUID;
  user_id : UUID;
  item_type : string;
  item_id : UUID;
  notes : optional (option string);
  created_at : optional (option timestamptz)
}.
End Insert.

Definition defaults (e : env) (i : Insert.t) : row :=
  {| id := or_default (Insert.id i) (gen_random_uuid e);
     user_id := Insert.user_id i;
     item_type := Insert.item_type i;
     item_id := Insert.item_id i;
     notes := or_default (Insert.notes i) None;
     created_at := or_default (Insert.created_at i) (Some (NOW e)) |}.

(** The columns of UNIQUE(user_id, item_type, item_id). *)
Definition unique_key (r : row) : UUID * string * UUID :=
  (user_id r, item_type r, item_id r).
End UserSavedItems.

(** ** The database state *)

Record DB := MkDB {
  auth_users : list Users.row;
  profiles : list Profiles.row;
  colleges : list Colleges.row;
  scholarships : list Scholarships.row;
  career_paths : list CareerPaths.row;
  chat_conversations : list ChatConversations.row;
  chat_messages : list ChatMessages.row;
  user_progress : list UserProgress.row;
  user_saved_items : list UserSavedItems.row
}.

Definition set_auth_users (db : DB) (t : list Users.row) : DB :=
  MkDB t (profiles db) (colleges db) (scholarships db) (career_paths db)
    (chat_conversations db) (chat_messages db) (user_progress db) (user_saved_items db).
Definition set_profiles (db : DB) (t : list Profiles.row) : DB :=
  MkDB (auth_users db) t (colleges db) (scholarships db) (career_paths db)
    (chat_conversations db) (chat_messages db) (user_progress db) (user_saved_items db).
Definition set_colleges (db : DB) (t : list Colleges.row) : DB :=
  MkDB (auth_users db) (profiles db) t (scholarships db) (career_paths db)
    (chat_conversations db) (chat_messages db) (user_progress db) (user_saved_items db).
Definition set_scholarships (db : DB) (t : list Scholarships.row) : DB :=
  MkDB (auth_users db) (profiles db) (colleges db) t (career_paths db)
    (chat_conversations db) (chat_messages db) (user_progress db) (user_saved_items db).
Definition set_career_paths (db : DB) (t : list CareerPaths.row) : DB :=
  MkDB (auth_users db) (profiles db) (colleges db) (scholarships db) t
    (chat_conversations db) (chat_messages db) (user_progress db) (user_saved_items db).
Definition set_chat_conversations (db : DB) (t : list ChatConversations.row) : DB :=
  MkDB (auth_users db) (profiles db) (colleges db) (scholarships db) (career_paths db)
    t (chat_messages db) (user_progress db) (user_saved_items db).
Definition set_chat_messages (db : DB) (t : list ChatMessages.row) : DB :=
  MkDB (auth_users db) (profiles db) (colleges db) (scholarships db) (career_paths db)
    (chat_conversations db) t (user_progress db) (user_saved_items db).
Definition set_user_progress (db : DB) (t : list UserProgress.row) : DB :=
  MkDB (auth_users db) (profiles db) (colleges db) (scholarships db) (career_paths db)
    (chat_conversations db) (chat_messages db) t (user_saved_items db).
Definition set_user_saved_items (db : DB) (t : list UserSavedItems.row) : DB :=
  MkDB (auth_users db) (profiles db) (colleges db) (scholarships db) (career_paths db)
    (chat_conversations db) (chat_messages db) (user_progress db) t.

(** ** Errors and results *)

Inductive error :=
| AuthorizationDenied    (* new row violates row-level security policy *)
| UniquenessViolation    (* duplicate key value violates unique constraint *)
| ForeignKeyViolation.   (* violates foreign key constraint *)

Inductive result (A : Type) :=
| Ok (a : A)
| Err (e : error).
Arguments Ok {A} a.
Arguments Err {A} e.

Definition bind {A B} (r : result A) (k : A -> result B) : result B :=
  match r with Ok a => k a | Err e => Err e end.

(** [require b e]: the statement goes on when [b] holds and is aborted with
    [e] otherwise. *)
Definition require (b : bool) (e : error) : result unit :=
  if b then Ok tt else Err e.

Notation "'ensure' b 'otherwise' e ;; k" := (bind (require b e) (fun _ => k))
  (at level 10, b at level 99, e at level 99, k at level 200).

(** A statement is atomic: when it is aborted the database is as it was. *)
Definition commit (db : DB) (r : result DB) : DB :=
  match r with Ok db' => db' | Err _ => db end.

(** ** Sessions and policies *)

Inductive command := SELECT | INSERT | UPDATE | DELETE.

(** The roles a statement runs as. [authenticated] is the role the policies
    name; [anon] is a session without a principal; [table_owner] is the role
    that owns the tables: row level security is ENABLEd, not FORCEd, so it
    does not apply to the owner, and the SECURITY DEFINER function
    [handle_new_user] runs as the owner. *)
Inductive role := anon | authenticated | table_owner.

Record session := Session {
  current_role : role;
  auth_uid : option UUID      (* auth.uid(): NULL without a principal *)
}.

Definition bypasses_rls (s : session) : bool :=
  match current_role s with table_owner => true | _ => false end.

(** The TO clause of a policy; PUBLIC when the policy has none. *)
Inductive to_roles := PUBLIC | TO (r : role).

Definition command_eqb (a b : command) : bool :=
  match a, b with
  | SELECT, SELECT | INSERT, INSERT | UPDATE, UPDATE | DELETE, DELETE => true
  | _, _ => false
  end.

Definition role_eqb (a b : role) : bool :=
  match a, b with
  | anon, anon | authenticated, authenticated | table_owner, table_owner => true
  | _, _ => false
  end.

(** A USING or WITH CHECK expression: a boolean SQL expression over the
    session, the database (for subqueries) and the row. *)
Definition qual (R : Type) := session -> DB -> R -> option bool.

Record policy (R : Type) := Policy {
  polname : string;
  polcmd : command;
  polroles : to_roles;
  polqual : option (qual R);        (* USING *)
  polwithcheck : option (qual R)    (* WITH CHECK *)
}.
Arguments Policy {R}.
Arguments polname {R}.
Arguments polcmd {R}.
Arguments polroles {R}.
Arguments polqual {R}.
Arguments polwithcheck {R}.

(** What a statement does to one row: the row a SELECT returns or a DELETE
    removes, the new row of an INSERT, the row an UPDATE meets and the row
    it puts in its place. *)
Inductive row_operation (R : Type) :=
| Selecting (r : R)
| Inserting (new : R)
| Updating (old new : R)
| Deleting (old : R).
Arguments Selecting {R} r.
Arguments Inserting {R} new.
Arguments Updating {R} old new.
Arguments Deleting {R} old.

Definition command_of {R} (o : row_operation R) : command :=
  match o with
  | Selecting _ => SELECT
  | Inserting _ => INSERT
  | Updating _ _ => UPDATE
  | Deleting _ => DELETE
  end.

Section RowSecurity.
Context {R : Type}.
Variable pols : list (policy R).

Definition applies (s : session) (c : command) (p : policy R) : bool :=
  command_eqb (polcmd p) c &&
  match polroles p with
  | PUBLIC => true
  | TO r => role_eqb r (current_role s)
  end.

(** The policies are permissive: a row passes when the USING expression of
    one applicable policy is true. With no applicable policy nothing passes
    (default deny). *)
Definition rls_using (s : session) (db : DB) (c : command) (r : R) : bool :=
  existsb (fun p =>
             match polqual p with
             | Some q => sql_true (q s db r)
             | None => false
             end)
          (List.filter (applies s c) pols).

(** The check of a new row: WITH CHECK, and USING where a policy has no
    WITH CHECK. *)
Definition rls_check (s : session) (db : DB) (c : command) (r : R) : bool :=
  existsb (fun p =>
             match polwithcheck p with
             | Some q => sql_true (q s db r)
             | None =>
                 match polqual p with
                 | Some q => sql_true (q s db r)
                 | None => false
                 end
             end)
          (List.filter (applies s c) pols).

Definition has_policy (c : command) : bool :=
  existsb (fun p => command_eqb (polcmd p) c) pols.

(** The rows of [t] a statement of the session sees for command [c]. *)
Definition visible (s : session) (db : DB) (c : command) (r : R) : bool :=
  bypasses_rls s || rls_using s db c r.

Definition admissible (s : session) (db : DB) (c : command) (r : R) : bool :=
  bypasses_rls s || rls_check s db c r.

(** Whether the access-control layer lets a row operation of the session
    through: a SELECT or DELETE must see the row, the new row of an INSERT
    must pass the check, and an UPDATE must see the row and its new row
    must pass the check. These are the tests the statements below make. *)
Definition rls_permits (s : session) (db : DB) (o : row_operation R) : bool :=
  match o with
  | Selecting r => visible s db SELECT r
  | Inserting new => admissible s db INSERT new
  | Updating old new => visible s db UPDATE old && admissible s db UPDATE new
  | Deleting old => visible s db DELETE old
  end.
End RowSecurity.

(** *** The policies of the migration, in its order *)

Definition profiles_policies : list (policy Profiles.row) :=
  [ Policy "Users can view their own profile" SELECT PUBLIC
      (Some (fun s _ r => sql_eq (auth_uid s) (Some (Profiles.id r)))) None;
    Policy "Users can update their own profile" UPDATE PUBLIC
      (Some (fun s _ r => sql_eq (auth_uid s) (Some (Profiles.id r)))) None;
    Policy "Users can insert their own profile" INSERT PUBLIC
      None (Some (fun s _ r => sql_eq (auth_uid s) (Some (Profiles.id r)))) ].

Definition colleges_policies : list (policy Colleges.row) :=
  [ Policy "Anyone can view colleges" SELECT (TO authenticated)
      (Some (fun _ _ _ => Some true)) None ].

Definition scholarships_policies : list (policy Scholarships.row) :=
  [ Policy "Anyone can view active scholarships" SELECT (TO authenticated)
      (Some (fun _ _ r => sql_eq (Scholarships.is_active r) (Some true))) None ].

Definition career_paths_policies : list (policy CareerPaths.row) :=
  [ Policy "Anyone can view career paths" SELECT (TO authenticated)
      (Some (fun _ _ _ => Some true)) None ].

Definition chat_conversations_policies : list (policy ChatConversations.row) :=
  [ Policy "Users can view their own conversations" SELECT PUBLIC
      (Some (fun s _ r => sql_eq (auth_uid s) (Some (ChatConversations.user_id r)))) None;
    Policy "Users can create their own conversations" INSERT PUBLIC
      None (Some (fun s _ r => sql_eq (auth_uid s) (Some (ChatConversations.user_id r))));
    Policy "Users can update their own conversations" UPDATE PUBLIC
      (Some (fun s _ r => sql_eq (auth_uid s) (Some (ChatConversations.user_id r)))) None;
    Policy "Users can delete their own conversations" DELETE PUBLIC
      (Some (fun s _ r => sql_eq (auth_uid s) (Some (ChatConversations.user_id r)))) None ].

(** SELECT over chat_conversations as the session sees it. *)
Definition select_chat_conversations (s : session) (db : DB) : list ChatConversations.row :=
  List.filter (visible chat_conversations_policies s db SELECT) (chat_conversations db).

(** EXISTS (SELECT 1 FROM public.chat_conversations
            WHERE id = chat_messages.conversation_id AND user_id = auth.uid()).
    The subquery runs as the session, under the policies of
    chat_conversations. *)
Definition owns_parent_conversation : qual ChatMessages.row :=
  fun s db m =>
    Some (existsb (fun c =>
                     sql_true (sql_and
                       (sql_eq (Some (ChatConversations.id c))
                               (Some (ChatMessages.conversation_id m)))
                       (sql_eq (Some (ChatConversations.user_id c)) (auth_uid s))))
                  (select_chat_conversations s db)).

Definition chat_messages_policies : list (policy ChatMessages.row) :=
  [ Policy "Users can view messages in their conversations" SELECT PUBLIC
      (Some owns_parent_conversation) None;
    Policy "Users can insert messages in their conversations" INSERT PUBLIC
      None (Some owns_parent_conversation) ].

Definition user_progress_policies : list (policy UserProgress.row) :=
  [ Policy "Users can view their own progress" SELECT PUBLIC
      (Some (fun s _ r => sql_eq (auth_uid s) (Some (UserProgress.user_id r)))) None;
    Policy "Users can insert their own progress" INSERT PUBLIC
      None (Some (fun s _ r => sql_eq (auth_uid s) (Some (UserProgress.user_id r))));
    Policy "Users can update their own progress" UPDATE PUBLIC
      (Some (fun s _ r => sql_eq (auth_uid s) (Some (UserProgress.user_id r)))) None ].

Definition user_saved_items_policies : list (policy UserSavedItems.row) :=
  [ Policy "Users can view their own saved items" SELECT PUBLIC
      (Some (fun s _ r => sql_eq (auth_uid s) (Some (UserSavedItems.user_id r)))) None;
    Policy "Users can insert their own saved items" INSERT PUBLIC
      None (Some (fun s _ r => sql_eq (auth_uid s) (Some (UserSavedItems.user_id r))));
    Policy "Users can delete their own saved items" DELETE PUBLIC
      (Some (fun s _ r => sql_eq (auth_uid s) (Some (UserSavedItems.user_id r)))) None ].

(** ** Constraint checks *)

Definition fresh {K} `{EqDecision K} (k : K) (keys : list K) : bool :=
  bool_decide (k ∉ keys).

Definition distinct {K} `{EqDecision K} (keys : list K) : bool :=
  bool_decide (NoDup keys).

Definition references {K} `{EqDecision K} (k : K) (keys : list K) : bool :=
  bool_decide (k ∈ keys).

(** ** Trigger functions *)

(** handle_updated_at: NEW.updated_at = NOW(); RETURN NEW. The three
    BEFORE UPDATE triggers instantiate it at their table. *)
Definition handle_updated_at {R} (with_updated_at : R -> option timestamptz -> R)
    (e : env) (new : R) : R :=
  with_updated_at new (Some (NOW e)).

(** ** Row operations

    A statement of session [s]. SELECT, UPDATE and DELETE act on the rows
    that pass the USING expressions (the others are silently left out); an
    INSERT or UPDATE whose new row fails the check is aborted. Checks come
    in the order of the executor: BEFORE ROW triggers, row security,
    unique indexes, foreign keys.

    An UPDATE or DELETE is given by its WHERE condition [cond] and, for
    UPDATE, its SET clause [assign] (any function of the old row; the
    Update shapes of the generated client are the constant cases). Where a
    table has an UPDATE or DELETE policy its SELECT policy has the same
    USING expression, so that reading the rows in WHERE adds no further
    restriction. The unique indexes are checked on the table an UPDATE
    leaves; every update that passes the row-by-row check of the database
    passes this one, with the same result. The database runs the checks
    row by row, so that an UPDATE of several rows, one failing row
    security and another a unique index, reports the error of the row it
    visits first; here the row security error is the one reported. The
    facts below therefore speak of the error code of an UPDATE only where
    it does not depend on this order: an UPDATE that reports
    AuthorizationDenied has met a row failing row security, and an UPDATE
    whose only target fails it reports AuthorizationDenied. *)

Section Statements.
Context {R : Type}.
Variable pols : list (policy R).

Definition select_rows (s : session) (db : DB) (t : list R) : list R :=
  List.filter (visible pols s db SELECT) t.

Definition targets (c : command) (s : session) (db : DB) (cond : R -> bool) (r : R) : bool :=
  cond r && visible pols s db c r.

Definition apply_update (target : R -> bool) (new : R -> R) (t : list R) : list R :=
  List.map (fun r => if target r then new r else r) t.

Definition update_admissible (s : session) (db : DB) (target : R -> bool)
    (new : R -> R) (t : list R) : bool :=
  forallb (fun r => negb (target r) || admissible pols s db UPDATE (new r)) t.

Definition remaining (target : R -> bool) (t : list R) : list R :=
  List.filter (fun r => negb (target r)) t.
End Statements.

(** *** profiles *)

Definition select_profiles (s : session) (db : DB) : list Profiles.row :=
  select_rows profiles_policies s db (profiles db).

Definition insert_profiles (s : session) (e : env) (db : DB) (i : Profiles.Insert.t)
  : result DB :=
  let new := Profiles.defaults e i in
  ensure admissible profiles_policies s db INSERT new otherwise AuthorizationDenied ;;
  ensure fresh (Profiles.id new) (List.map Profiles.id (profiles db))
    otherwise UniquenessViolation ;;
  ensure references (Profiles.id new) (List.map Users.id (auth_users db))
    otherwise ForeignKeyViolation ;;
  Ok (set_profiles db (profiles db ++ [new])).

Definition update_profiles (s : session) (e : env) (db : DB)
    (cond : Profiles.row -> bool) (assign : Profiles.row -> Profiles.row) : result DB :=
  let target := targets profiles_policies UPDATE s db cond in
  let new r := handle_updated_at Profiles.with_updated_at e (assign r) in
  ensure update_admissible profiles_policies s db target new (profiles db)
    otherwise AuthorizationDenied ;;
  let t' := apply_update target new (profiles db) in
  ensure distinct (List.map Profiles.id t') otherwise UniquenessViolation ;;
  ensure forallb (fun r => negb (target r) ||
                    references (Profiles.id (new r)) (List.map Users.id (auth_users db)))
           (profiles db)
    otherwise ForeignKeyViolation ;;
  Ok (set_profiles db t').

Definition delete_profiles (s : session) (db : DB) (cond : Profiles.row -> bool)
  : result DB :=
  let target := targets profiles_policies DELETE s db cond in
  Ok (set_profiles db (remaining target (profiles db))).

(** handle_new_user: INSERT INTO public.profiles (id, full_name) VALUES
    (NEW.id, COALESCE(NEW.raw_user_meta_data->>'full_name', '')). SECURITY
    DEFINER: the insert runs as the owner of the table. *)
Definition definer : session := Session table_owner None.

Definition handle_new_user (e : env) (db : DB) (new : Users.row) : result DB :=
  insert_profiles definer e db
    {| Profiles.Insert.id := Users.id new;
       Profiles.Insert.full_name :=
         Given (Some (COALESCE (jsonb_get_text (Users.raw_user_meta_data new) "full_name") ""));
       Profiles.Insert.phone := Omitted;
       Profiles.Insert.preferred_language := Omitted;
       Profiles.Insert.education_level := Omitted;
       Profiles.Insert.interests := Omitted;
       Profiles.Insert.location := Omitted;
       Profiles.Insert.created_at := Omitted;
       Profiles.Insert.updated_at := Omitted |}.

(** *** auth.users: the authentication service creates and deletes
    principals *)

(** INSERT INTO auth.users, then the AFTER INSERT trigger
    on_auth_user_created; an error in the trigger aborts the insert. *)
Definition create_auth_user (e : env) (db : DB) (u : Users.row) : result DB :=
  ensure fresh (Users.id u) (List.map Users.id (auth_users db))
    otherwise UniquenessViolation ;;
  handle_new_user e (set_auth_users db (auth_users db ++ [u])) u.

(** *** reference tables: no INSERT, UPDATE or DELETE policy *)

Definition select_colleges (s : session) (db : DB) : list Colleges.row :=
  select_rows colleges_policies s db (colleges db).

Definition insert_colleges (s : session) (e : env) (db : DB) (i : Colleges.Insert.t)
  : result DB :=
  let new := Colleges.defaults e i in
  ensure admissible colleges_policies s db INSERT new otherwise AuthorizationDenied ;;
  ensure fresh (Colleges.id new) (List.map Colleges.id (colleges db))
    otherwise UniquenessViolation ;;
  Ok (set_colleges db (colleges db ++ [new])).

Definition update_colleges (s : session) (db : DB)
    (cond : Colleges.row -> bool) (assign : Colleges.row -> Colleges.row) : result DB :=
  let target := targets colleges_policies UPDATE s db cond in
  ensure update_admissible colleges_policies s db target assign (colleges db)
    otherwise AuthorizationDenied ;;
  let t' := apply_update target assign (colleges db) in
  ensure distinct (List.map Colleges.id t') otherwise UniquenessViolation ;;
  Ok (set_colleges db t').

Definition delete_colleges (s : session) (db : DB) (cond : Colleges.row -> bool)
  : result DB :=
  Ok (set_colleges db (remaining (targets colleges_policies DELETE s db cond) (colleges db))).

Definition select_scholarships (s : session) (db : DB) : list Scholarships.row :=
  select_rows scholarships_policies s db (scholarships db).

Definition insert_scholarships (s : session) (e : env) (db : DB) (i : Scholarships.Insert.t)
  : result DB :=
  let new := Scholarships.defaults e i in
  ensure admissible scholarships_policies s db INSERT new otherwise AuthorizationDenied ;;
  ensure fresh (Scholarships.id new) (List.map Scholarships.id (scholarships db))
    otherwise UniquenessViolation ;;
  Ok (set_scholarships db (scholarships db ++ [new])).

Definition update_scholarships (s : session) (db : DB)
    (cond : Scholarships.row -> bool) (assign : Scholarships.row -> Scholarships.row)
  : result DB :=
  let target := targets scholarships_policies UPDATE s db cond in
  ensure update_admissible scholarships_policies s db target assign (scholarships db)
    otherwise AuthorizationDenied ;;
  let t' := apply_update target assign (scholarships db) in
  ensure distinct (List.map Scholarships.id t') otherwise UniquenessViolation ;;
  Ok (set_scholarships db t').

Definition delete_scholarships (s : session) (db : DB) (cond : Scholarships.row -> bool)
  : result DB :=
  Ok (set_scholarships db
        (remaining (targets scholarships_policies DELETE s db cond) (scholarships db))).

Definition select_career_paths (s : session) (db : DB) : list CareerPaths.row :=
  select_rows career_paths_policies s db (career_paths db).

Definition insert_career_paths (s : session) (e : env) (db : DB) (i : CareerPaths.Insert.t)
  : result DB :=
  let new := CareerPaths.defaults e i in
  ensure admissible career_paths_policies s db INSERT new otherwise AuthorizationDenied ;;
  ensure fresh (CareerPaths.id new) (List.map CareerPaths.id (career_paths db))
    otherwise UniquenessViolation ;;
  Ok (set_career_paths db (career_paths db ++ [new])).

Definition update_career_paths (s : session) (db : DB)
    (cond : CareerPaths.row -> bool) (assign : CareerPaths.row -> CareerPaths.row)
  : result DB :=
  let target := targets career_paths_policies UPDATE s db cond in
  ensure update_admissible career_paths_policies s db target assign (career_paths db)
    otherwise AuthorizationDenied ;;
  let t' := apply_update target assign (career_paths db) in
  ensure distinct (List.map CareerPaths.id t') otherwise UniquenessViolation ;;
  Ok (set_career_paths db t').

Definition delete_career_paths (s : session) (db : DB) (cond : CareerPaths.row -> bool)
  : result DB :=
  Ok (set_career_paths db
        (remaining (targets career_paths_policies DELETE s db cond) (career_paths db))).

(** *** chat_conversations *)

Definition insert_chat_conversations (s : session) (e : env) (db : DB)
    (i : ChatConversations.Insert.t) : result DB :=
  let new := ChatConversations.defaults e i in
  ensure admissible chat_conversations_policies s db INSERT new
    otherwise AuthorizationDenied ;;
  ensure fresh (ChatConversations.id new)
           (List.map ChatConversations.id (chat_conversations db))
    otherwise UniquenessViolation ;;
  ensure references (ChatConversations.user_id new) (List.map Users.id (auth_users db))
    otherwise ForeignKeyViolation ;;
  Ok (set_chat_conversations db (chat_conversations db ++ [new])).

(** chat_messages.conversation_id references chat_conversations(id) with
    no ON UPDATE action: an update that takes away a key some message still
    references is aborted. *)
Definition update_chat_conversations (s : session) (e : env) (db : DB)
    (cond : ChatConversations.row -> bool)
    (assign : ChatConversations.row -> ChatConversations.row) : result DB :=
  let target := targets chat_conversations_policies UPDATE s db cond in
  let new r := handle_updated_at ChatConversations.with_updated_at e (assign r) in
  ensure update_admissible chat_conversations_policies s db target new (chat_conversations db)
    otherwise AuthorizationDenied ;;
  let t' := apply_update target new (chat_conversations db) in
  ensure distinct (List.map ChatConversations.id t') otherwise UniquenessViolation ;;
  ensure forallb (fun r => negb (target r) ||
                    references (ChatConversations.user_id (new r))
                      (List.map Users.id (auth_users db)))
           (chat_conversations db)
    otherwise ForeignKeyViolation ;;
  ensure forallb (fun r => negb (target r) ||
                    negb (references (ChatConversations.id r)
                            (List.map ChatMessages.conversation_id (chat_messages db))) ||
                    references (ChatConversations.id r) (List.map ChatConversations.id t'))
           (chat_conversations db)
    otherwise ForeignKeyViolation ;;
  Ok (set_chat_conversations db t').

(** ON DELETE CASCADE: the messages of a deleted conversation go with it.
    The cascade is the database's own action; no policy of chat_messages
    applies to it. *)
Definition cascade_chat_messages (deleted : list ChatConversations.row)
    (t : list ChatMessages.row) : list ChatMessages.row :=
  List.filter (fun m => negb (references (ChatMessages.conversation_id m)
                                (List.map ChatConversations.id deleted))) t.

Definition delete_chat_conversations (s : session) (db : DB)
    (cond : ChatConversations.row -> bool) : result DB :=
  let target := targets chat_conversations_policies DELETE s db cond in
  let deleted := List.filter target (chat_conversations db) in
  Ok (set_chat_messages
        (set_chat_conversations db (remaining target (chat_conversations db)))
        (cascade_chat_messages deleted (chat_messages db))).

(** *** chat_messages *)

Definition select_chat_messages (s : session) (db : DB) : list ChatMessages.row :=
  select_rows chat_messages_policies s db (chat_messages db).

Definition insert_chat_messages (s : session) (e : env) (db : DB)
    (i : ChatMessages.Insert.t) : result DB :=
  let new := ChatMessages.defaults e i in
  ensure admissible chat_messages_policies s db INSERT new otherwise AuthorizationDenied ;;
  ensure fresh (ChatMessages.id new) (List.map ChatMessages.id (chat_messages db))
    otherwise UniquenessViolation ;;
  ensure references (ChatMessages.conversation_id new)
           (List.map ChatConversations.id (chat_conversations db))
    otherwise ForeignKeyViolation ;;
  Ok (set_chat_messages db (chat_messages db ++ [new])).

Definition update_chat_messages (s : session) (db : DB)
    (cond : ChatMessages.row -> bool) (assign : ChatMessages.row -> ChatMessages.row)
  : result DB :=
  let target := targets chat_messages_policies UPDATE s db cond in
  ensure update_admissible chat_messages_policies s db target assign (chat_messages db)
    otherwise AuthorizationDenied ;;
  let t' := apply_update target assign (chat_messages db) in
  ensure distinct (List.map ChatMessages.id t') otherwise UniquenessViolation ;;
  ensure forallb (fun r => negb (target r) ||
                    references (ChatMessages.conversation_id (assign r))
                      (List.map ChatConversations.id (chat_conversations db)))
           (chat_messages db)
    otherwise ForeignKeyViolation ;;
  Ok (set_chat_messages db t').

Definition delete_chat_messages (s : session) (db : DB) (cond : ChatMessages.row -> bool)
  : result DB :=
  Ok (set_chat_messages db
        (remaining (targets chat_messages_policies DELETE s db cond) (chat_messages db))).

(** *** user_progress *)

Definition select_user_progress (s : session) (db : DB) : list UserProgress.row :=
  select_rows user_progress_policies s db (user_progress db).

Definition insert_user_progress (s : session) (e : env) (db : DB)
    (i : UserProgress.Insert.t) : result DB :=
  let new := UserProgress.defaults e i in
  ensure admissible user_progress_policies s db INSERT new otherwise AuthorizationDenied ;;
  ensure fresh (UserProgress.id new) (List.map UserProgress.id (user_progress db))
    otherwise UniquenessViolation ;;
  ensure fresh (UserProgress.unique_key new)
           (List.map UserProgress.unique_key (user_progress db))
    otherwise UniquenessViolation ;;
  ensure references (UserProgress.user_id new) (List.map Users.id (auth_users db))
    otherwise ForeignKeyViolation ;;
  Ok (set_user_progress db (user_progress db ++ [new])).

Definition update_user_progress (s : session) (e : env) (db : DB)
    (cond : UserProgress.row -> bool) (assign : UserProgress.row -> UserProgress.row)
  : result DB :=
  let target := targets user_progress_policies UPDATE s db cond in
  let new r := handle_updated_at UserProgress.with_updated_at e (assign r) in
  ensure update_admissible user_progress_policies s db target new (user_progress db)
    otherwise AuthorizationDenied ;;
  let t' := apply_update target new (user_progress db) in
  ensure distinct (List.map UserProgress.id t') otherwise UniquenessViolation ;;
  ensure distinct (List.map UserProgress.unique_key t') otherwise UniquenessViolation ;;
  ensure forallb (fun r => negb (target r) ||
                    references (UserProgress.user_id (new r))
                      (List.map Users.id (auth_users db)))
           (user_progress db)
    otherwise ForeignKeyViolation ;;
  Ok (set_user_progress db t').

Definition delete_user_progress (s : session) (db : DB) (cond : UserProgress.row -> bool)
  : result DB :=
  Ok (set_user_progress db
        (remaining (targets user_progress_policies DELETE s db cond) (user_progress db))).

(** *** user_saved_items: item_id is a plain UUID column, with no
    REFERENCES clause *)

Definition select_user_saved_items (s : session) (db : DB) : list UserSavedItems.row :=
  select_rows user_saved_items_policies s db (user_saved_items db).

Definition insert_user_saved_items (s : session) (e : env) (db : DB)
    (i : UserSavedItems.Insert.t) : result DB :=
  let new := UserSavedItems.defaults e i in
  ensure admissible user_saved_items_policies s db INSERT new
    otherwise AuthorizationDenied ;;
  ensure fresh (UserSavedItems.id new) (List.map UserSavedItems.id (user_saved_items db))
    otherwise UniquenessViolation ;;
  ensure fresh (UserSavedItems.unique_key new)
           (List.map UserSavedItems.unique_key (user_saved_items db))
    otherwise UniquenessViolation ;;
  ensure references (UserSavedItems.user_id new) (List.map Users.id (auth_users db))
    otherwise ForeignKeyViolation ;;
  Ok (set_user_saved_items db (user_saved_items db ++ [new])).

Definition update_user_saved_items (s : session) (db : DB)
    (cond : UserSavedItems.row -> bool) (assign : UserSavedItems.row -> UserSavedItems.row)
  : result DB :=
  let target := targets user_saved_items_policies UPDATE s db cond in
  ensure update_admissible user_saved_items_policies s db target assign (user_saved_items db)
    otherwise AuthorizationDenied ;;
  let t' := apply_update target assign (user_saved_items db) in
  ensure distinct (List.map UserSavedItems.id t') otherwise UniquenessViolation ;;
  ensure distinct (List.map UserSavedItems.unique_key t') otherwise UniquenessViolation ;;
  ensure forallb (fun r => negb (target r) ||
                    references (UserSavedItems.user_id (assign r))
                      (List.map Users.id (auth_users db)))
           (user_saved_items db)
    otherwise ForeignKeyViolation ;;
  Ok (set_user_saved_items db t').

Definition delete_user_saved_items (s : session) (db : DB)
    (cond : UserSavedItems.row -> bool) : result DB :=
  Ok (set_user_saved_items db
        (remaining (targets user_saved_items_policies DELETE s db cond)
           (user_saved_items db))).

(** *** Deleting principals: every REFERENCES auth.users(id) is ON DELETE
    CASCADE, and the conversations deleted that way take their messages
    along. *)
Definition delete_auth_users (db : DB) (cond : Users.row -> bool) : DB :=
  let gone := List.map Users.id (List.filter cond (auth_users db)) in
  let deleted_conversations :=
    List.filter (fun c => references (ChatConversations.user_id c) gone)
      (chat_conversations db) in
  {| auth_users := remaining cond (auth_users db);
     profiles := remaining (fun r => references (Profiles.id r) gone) (profiles db);
     colleges := colleges db;
     scholarships := scholarships db;
     career_paths := career_paths db;
     chat_conversations :=
       remaining (fun c => references (ChatConversations.user_id c) gone)
         (chat_conversations db);
     chat_messages := cascade_chat_messages deleted_conversations (chat_messages db);
     user_progress :=
       remaining (fun r => references (UserProgress.user_id r) gone) (user_progress db);
     user_saved_items :=
       remaining (fun r => references (UserSavedItems.user_id r) gone)
         (user_saved_items db) |}.

(** ** The state the migration leaves

    The tables are created empty; the three INSERT statements at the end of
    the migration run as the owner and fill the reference tables. Each row
    draws its id from gen_random_uuid(), given here as [uuid]. *)

Definition empty_db : DB := MkDB [] [] [] [] [] [] [] [] [].

Definition migrator : session := Session table_owner None.

Fixpoint insert_values {I} (ins : session -> env -> DB -> I -> result DB)
    (now : timestamptz) (uuid : nat -> UUID) (n : nat) (rows : list I) (db : DB)
  : result DB :=
  match rows with
  | [] => Ok db
  | i :: rest =>
      bind (ins migrator (Env now (uuid n)) db i)
           (insert_values ins now uuid (S n) rest)
  end.

(** INSERT INTO public.colleges (name, type, location, state, fees_per_year,
    ranking, admission_criteria) *)
Definition college (name type location state : string) (fees_per_year ranking : Z)
    (admission_criteria : string) : Colleges.Insert.t :=
  {| Colleges.Insert.id := Omitted;
     Colleges.Insert.name := name;
     Colleges.Insert.type := type;
     Colleges.Insert.location := location;
     Colleges.Insert.state := state;
     Colleges.Insert.fees_per_year := Given (Some (inject_Z fees_per_year));
     Colleges.Insert.ranking := Given (Some ranking);
     Colleges.Insert.admission_criteria := Given (Some admission_criteria);
     Colleges.Insert.contact_info := Omitted;
     Colleges.Insert.created_at := Omitted |}.

Definition sample_colleges : list Colleges.Insert.t :=
  [ college "IIT Delhi" "engineering" "New Delhi" "Delhi" 200000 1
      "JEE Advanced, rank-based admission";
    college "AIIMS Delhi" "medical" "New Delhi" "Delhi" 25000 1
      "NEET score 650+, counseling-based";
    college "NIT Trichy" "engineering" "Tiruchirappalli" "Tamil Nadu" 150000 2
      "JEE Main rank-based admission";
    college "JIPMER Puducherry" "medical" "Puducherry" "Puducherry" 30000 2
      "NEET score 640+, merit-based";
    college "IIT Bombay" "engineering" "Mumbai" "Maharashtra" 200000 1
      "JEE Advanced, top ranks only" ].

(** INSERT INTO public.scholarships (title, description, amount,
    eligibility_criteria, deadline, category, application_link): is_active
    is left to its default. *)
Definition scholarship (title description : string) (amount : Z)
    (eligibility_criteria : string) (deadline : date) (category application_link : string)
  : Scholarships.Insert.t :=
  {| Scholarships.Insert.id := Omitted;
     Scholarships.Insert.title := title;
     Scholarships.Insert.description := description;
     Scholarships.Insert.amount := inject_Z amount;
     Scholarships.Insert.eligibility_criteria := eligibility_criteria;
     Scholarships.Insert.deadline := deadline;
     Scholarships.Insert.application_link := Given (Some application_link);
     Scholarships.Insert.category := category;
     Scholarships.Insert.is_active := Omitted;
     Scholarships.Insert.created_at := Omitted |}.

Definition sample_scholarships : list Scholarships.Insert.t :=
  [ scholarship "National Merit Scholarship"
      "Merit-based scholarship for students with exceptional academic performance"
      50000 "90%+ marks in 12th grade, family income less than ₹8 lakh"
      (Date 2026 3 31) "merit" "https://scholarships.gov.in";
    scholarship "SC/ST Pre-Matric Scholarship"
      "Financial assistance for SC/ST students"
      25000 "SC/ST category, family income less than ₹2.5 lakh"
      (Date 2025 12 31) "minority" "https://scholarships.gov.in";
    scholarship "Central Sector Scholarship Scheme"
      "Need-based scholarship for economically weaker students"
      100000 "Family income less than ₹4.5 lakh, 80%+ in 12th"
      (Date 2026 3 15) "need-based" "https://scholarships.gov.in";
    scholarship "Begum Hazrat Mahal Scholarship"
      "Scholarship for minority girl students"
      60000 "Minority community, girl students, 50%+ marks"
      (Date 2026 2 28) "minority" "https://scholarships.gov.in" ].

(** INSERT INTO public.career_paths (title, description, required_education,
    average_salary, job_outlook, skills_required, related_courses) *)
Definition career_path (title description required_education : string)
    (average_salary : Z) (job_outlook : string) (skills_required related_courses : list string)
  : CareerPaths.Insert.t :=
  {| CareerPaths.Insert.id := Omitted;
     CareerPaths.Insert.title := title;
     CareerPaths.Insert.description := description;
     CareerPaths.Insert.required_education := required_education;
     CareerPaths.Insert.average_salary := Given (Some (inject_Z average_salary));
     CareerPaths.Insert.job_outlook := Given (Some job_outlook);
     CareerPaths.Insert.skills_required := Given (Some skills_required);
     CareerPaths.Insert.related_courses := Given (Some related_courses);
     CareerPaths.Insert.created_at := Omitted |}.

Definition sample_career_paths : list CareerPaths.Insert.t :=
  [ career_path "Software Engineer"
      "Design and develop software applications and systems"
      "B.Tech/B.E. in Computer Science or related field" 800000
      "Excellent growth, high demand in tech industry"
      ["Programming"; "Problem Solving"; "Data Structures"; "Algorithms"]
      ["Computer Science"; "Information Technology"];
    career_path "Doctor"
      "Diagnose and treat patients in various medical specialties"
      "MBBS + MD/MS specialization" 1200000
      "Stable demand, respect in society"
      ["Medical Knowledge"; "Empathy"; "Decision Making"; "Communication"]
      ["Medicine"; "Surgery"; "Pediatrics"];
    career_path "Civil Services Officer"
      "Administrative roles in government at various levels"
      "Any bachelor degree + UPSC exam" 900000
      "Prestigious, job security, opportunity to serve nation"
      ["Leadership"; "Policy Making"; "Communication"; "Problem Solving"]
      ["Public Administration"; "Political Science"; "Economics"];
    career_path "Data Scientist"
      "Analyze complex data to help organizations make decisions"
      "B.Tech/M.Tech in CS/Stats or related field" 1000000
      "Rapidly growing field with high demand"
      ["Statistics"; "Machine Learning"; "Programming"; "Data Visualization"]
      ["Computer Science"; "Statistics"; "Mathematics"] ].

Definition migration (now : timestamptz) (uuid : nat -> UUID) : result DB :=
  bind (insert_values insert_colleges now uuid 0 sample_colleges empty_db) (fun db1 =>
  bind (insert_values insert_scholarships now uuid 5 sample_scholarships db1) (fun db2 =>
  insert_values insert_career_paths now uuid 9 sample_career_paths db2)).

(** ** Operations and runs *)

(** The statements that change the database: the row operations of a
    session, and the creation and deletion of principals by the
    authentication service. *)
Inductive op :=
| CreateAuthUser (u : Users.row)
| DeleteAuthUsers (cond : Users.row -> bool)
| InsertProfiles (i : Profiles.Insert.t)
| UpdateProfiles (cond : Profiles.row -> bool) (assign : Profiles.row -> Profiles.row)
| DeleteProfiles (cond : Profiles.row -> bool)
| InsertColleges (i : Colleges.Insert.t)
| UpdateColleges (cond : Colleges.row -> bool) (assign : Colleges.row -> Colleges.row)
| DeleteColleges (cond : Colleges.row -> bool)
| InsertScholarships (i : Scholarships.Insert.t)
| UpdateScholarships (cond : Scholarships.row -> bool)
    (assign : Scholarships.row -> Scholarships.row)
| DeleteScholarships (cond : Scholarships.row -> bool)
| InsertCareerPaths (i : CareerPaths.Insert.t)
| UpdateCareerPaths (cond : CareerPaths.row -> bool)
    (assign : CareerPaths.row -> CareerPaths.row)
| DeleteCareerPaths (cond : CareerPaths.row -> bool)
| InsertChatConversations (i : ChatConversations.Insert.t)
| UpdateChatConversations (cond : ChatConversations.row -> bool)
    (assign : ChatConversations.row -> ChatConversations.row)
| DeleteChatConversations (cond : ChatConversations.row -> bool)
| InsertChatMessages (i : ChatMessages.Insert.t)
| UpdateChatMessages (cond : ChatMessages.row -> bool)
    (assign : ChatMessages.row -> ChatMessages.row)
| DeleteChatMessages (cond : ChatMessages.row -> bool)
| InsertUserProgress (i : UserProgress.Insert.t)
| UpdateUserProgress (cond : UserProgress.row -> bool)
    (assign : UserProgress.row -> UserProgress.row)
| DeleteUserProgress (cond : UserProgress.row -> bool)
| InsertUserSavedItems (i : UserSavedItems.Insert.t)
| UpdateUserSavedItems (cond : UserSavedItems.row -> bool)
    (assign : UserSavedItems.row -> UserSavedItems.row)
| DeleteUserSavedItems (cond : UserSavedItems.row -> bool).

Definition exec (s : session) (e : env) (o : op) (db : DB) : result DB :=
  match o with
  | CreateAuthUser u => create_auth_user e db u
  | DeleteAuthUsers cond => Ok (delete_auth_users db cond)
  | InsertProfiles i => insert_profiles s e db i
  | UpdateProfiles cond assign => update_profiles s e db cond assign
  | DeleteProfiles cond => delete_profiles s db cond
  | InsertColleges i => insert_colleges s e db i
  | UpdateColleges cond assign => update_colleges s db cond assign
  | DeleteColleges cond => delete_colleges s db cond
  | InsertScholarships i => insert_scholarships s e db i
  | UpdateScholarships cond assign => update_scholarships s db cond assign
  | DeleteScholarships cond => delete_scholarships s db cond
  | InsertCareerPaths i => insert_career_paths s e db i
  | UpdateCareerPaths cond assign => update_career_paths s db cond assign
  | DeleteCareerPaths cond => delete_career_paths s db cond
  | InsertChatConversations i => insert_chat_conversations s e db i
  | UpdateChatConversations cond assign => update_chat_conversations s e db cond assign
  | DeleteChatConversations cond => delete_chat_conversations s db cond
  | InsertChatMessages i => insert_chat_messages s e db i
  | UpdateChatMessages cond assign => update_chat_messages s db cond assign
  | DeleteChatMessages cond => delete_chat_messages s db cond
  | InsertUserProgress i => insert_user_progress s e db i
  | UpdateUserProgress cond assign => update_user_progress s e db cond assign
  | DeleteUserProgress cond => delete_user_progress s db cond
  | InsertUserSavedItems i => insert_user_saved_items s e db i
  | UpdateUserSavedItems cond assign => update_user_saved_items s db cond assign
  | DeleteUserSavedItems cond => delete_user_saved_items s db cond
  end.

(** A run: statements one after the other, each by its own session; an
    aborted statement leaves the database as it was. *)
Fixpoint run (stmts : list (session * env * op)) (db : DB) : DB :=
  match stmts with
  | [] => db
  | (s, e, o) :: rest => run rest (commit db (exec s e o db))
  end.

(** ** Ownership, as the specification speaks of it *)

Definition requester_is (s : session) (u : UUID) : bool :=
  bool_decide (auth_uid s = Some u).

(** The message has a parent conversation owned by [u]. *)
Definition parent_owned_by (db : DB) (u : UUID) (m : ChatMessages.row) : bool :=
  existsb (fun c => bool_decide (ChatConversations.id c = ChatMessages.conversation_id m) &&
                    bool_decide (ChatConversations.user_id c = u))
          (chat_conversations db).

Definition requester_owns_parent (s : session) (db : DB) (m : ChatMessages.row) : bool :=
  match auth_uid s with
  | Some u => parent_owned_by db u m
  | None => false
  end.

(** The requester is the owner of the rows of the operation, [own] being
    the owning-principal column of the table (id for profiles, user_id
    elsewhere): of the one row, and for an UPDATE of the row before and of
    the row after. *)
Definition requester_owns {R} (own : R -> UUID) (s : session) (o : row_operation R) : bool :=
  match o with
  | Selecting r | Inserting r | Deleting r => requester_is s (own r)
  | Updating old new => requester_is s (own old) && requester_is s (own new)
  end.

(** The same for a message, whose owner is the owner of its parent
    conversation. *)
Definition requester_owns_parents (s : session) (db : DB)
    (o : row_operation ChatMessages.row) : bool :=
  match o with
  | Selecting m | Inserting m | Deleting m => requester_owns_parent s db m
  | Updating old new => requester_owns_parent s db old && requester_owns_parent s db new
  end.

(** The rows of the five user-scoped tables that belong to [u]. *)
Record owned := Owned {
  own_profiles : list Profiles.row;
  own_chat_conversations : list ChatConversations.row;
  own_chat_messages : list ChatMessages.row;
  own_user_progress : list UserProgress.row;
  own_user_saved_items : list UserSavedItems.row
}.

Definition rows_of (u : UUID) (db : DB) : owned :=
  {| own_profiles :=
       List.filter (fun r => bool_decide (Profiles.id r = u)) (profiles db);
     own_chat_conversations :=
       List.filter (fun r => bool_decide (ChatConversations.user_id r = u))
         (chat_conversations db);
     own_chat_messages := List.filter (parent_owned_by db u) (chat_messages db);
     own_user_progress :=
       List.filter (fun r => bool_decide (UserProgress.user_id r = u)) (user_progress db);
     own_user_saved_items :=
       List.filter (fun r => bool_decide (UserSavedItems.user_id r = u))
         (user_saved_items db) |}.

(** The UPDATE and DELETE statements on the five user-scoped tables. *)
Definition updates_or_deletes_user_rows (o : op) : bool :=
  match o with
  | UpdateProfiles _ _ | DeleteProfiles _
  | UpdateChatConversations _ _ | DeleteChatConversations _
  | UpdateChatMessages _ _ | DeleteChatMessages _
  | UpdateUserProgress _ _ | DeleteUserProgress _
  | UpdateUserSavedItems _ _ | DeleteUserSavedItems _ => true
  | _ => false
  end.

(** ** The constraints of the schema as a state invariant *)

(** Every row of [t] references, through [g], a key in [keys]. *)
Definition refers {A K} (g : A -> K) (t : list A) (keys : list K) : Prop :=
  Forall (fun r => g r ∈ keys) t.

Record consistent (db : DB) : Prop := Consistent {
  auth_users_pkey : NoDup (List.map Users.id (auth_users db));
  profiles_pkey : NoDup (List.map Profiles.id (profiles db));
  colleges_pkey : NoDup (List.map Colleges.id (colleges db));
  scholarships_pkey : NoDup (List.map Scholarships.id (scholarships db));
  career_paths_pkey : NoDup (List.map CareerPaths.id (career_paths db));
  chat_conversations_pkey : NoDup (List.map ChatConversations.id (chat_conversations db));
  chat_messages_pkey : NoDup (List.map ChatMessages.id (chat_messages db));
  user_progress_pkey : NoDup (List.map UserProgress.id (user_progress db));
  user_saved_items_pkey : NoDup (List.map UserSavedItems.id (user_saved_items db));
  user_progress_user_id_quest_type_key :
    NoDup (List.map UserProgress.unique_key (user_progress db));
  user_saved_items_user_id_item_type_item_id_key :
    NoDup (List.map UserSavedItems.unique_key (user_saved_items db));
  profiles_id_fkey :
    refers Profiles.id (profiles db) (List.map Users.id (auth_users db));
  chat_conversations_user_id_fkey :
    refers ChatConversations.user_id (chat_conversations db)
      (List.map Users.id (auth_users db));
  chat_messages_conversation_id_fkey :
    refers ChatMessages.conversation_id (chat_messages db)
      (List.map ChatConversations.id (chat_conversations db));
  user_progress_user_id_fkey :
    refers UserProgress.user_id (user_progress db) (List.map Users.id (auth_users db));
  user_saved_items_user_id_fkey :
    refers UserSavedItems.user_id (user_saved_items db)
      (List.map Users.id (auth_users db))
}.

(** ** Example principals and states *)

Definition alice : UUID := 1001.
Definition bob : UUID := 1002.

Definition as_alice : session := Session authenticated (Some alice).
Definition as_bob : session := Session authenticated (Some bob).
Definition auth_service : session := Session table_owner None.

Definition alice_signup : Users.row :=
  Users.Row alice (Some (JObject [("full_name", JString "Alice")])).
Definition bob_signup : Users.row := Users.Row bob None.

(** The migrated database after Alice and Bob have signed up. *)
Definition two_users : DB :=
  run [ (auth_service, Env 10 0, CreateAuthUser alice_signup);
        (auth_service, Env 20 0, CreateAuthUser bob_signup) ]
      (commit empty_db (migration 0 N.of_nat)).

Definition alice_conversation : ChatConversations.Insert.t :=
  ChatConversations.Insert.Make (Given 2001%N) alice (Given (Some "Engineering colleges"))
    Omitted Omitted Omitted.
Definition bob_conversation : ChatConversations.Insert.t :=
  ChatConversations.Insert.Make (Given 2002%N) bob (Given (Some "Scholarships"))
    Omitted Omitted Omitted.
Definition alice_message : ChatMessages.Insert.t :=
  ChatMessages.Insert.Make (Given 3001%N) 2001 "Which colleges take JEE Main?" true Omitted.
Definition bob_message : ChatMessages.Insert.t :=
  ChatMessages.Insert.Make (Given 3002%N) 2002 "Am I eligible?" true Omitted.
Definition alice_progress : UserProgress.Insert.t :=
  UserProgress.Insert.Make Omitted alice "profile" Omitted Omitted Omitted Omitted Omitted
    Omitted.
Definition bob_progress : UserProgress.Insert.t :=
  UserProgress.Insert.Make Omitted bob "profile" Omitted Omitted Omitted Omitted Omitted
    Omitted.
Definition alice_saved_item : UserSavedItems.Insert.t :=
  UserSavedItems.Insert.Make Omitted alice "college" 0 Omitted Omitted.
Definition bob_saved_item : UserSavedItems.Insert.t :=
  UserSavedItems.Insert.Make Omitted bob "scholarship" 5 Omitted Omitted.

(** Both have a conversation with one message, a quest and a bookmark. *)
Definition busy : DB :=
  run [ (as_alice, Env 30 0, InsertChatConversations alice_conversation);
        (as_bob, Env 31 0, InsertChatConversations bob_conversation);
        (as_alice, Env 32 0, InsertChatMessages alice_message);
        (as_bob, Env 33 0, InsertChatMessages bob_message);
        (as_alice, Env 34 4001, InsertUserProgress alice_progress);
        (as_bob, Env 35 4002, InsertUserProgress bob_progress);
        (as_alice, Env 36 5001, InsertUserSavedItems alice_saved_item);
        (as_bob, Env 37 5002, InsertUserSavedItems bob_saved_item) ]
      two_users.

(** The profile the signup trigger made for Alice. *)
Definition alice_profile : Profiles.row :=
  Profiles.Row alice (Some "Alice") None (Some "en") None None None (Some 10%Z) (Some 10%Z).

Definition closed_scholarship : Scholarships.Insert.t :=
  Scholarships.Insert.Make Omitted "Closed Scheme" "No longer offered" (inject_Z 1000)
    "None" (Date 2024 1 31) Omitted "merit" (Given (Some false)) Omitted.
Definition undecided_scholarship : Scholarships.Insert.t :=
  Scholarships.Insert.Make Omitted "Draft Scheme" "Not yet announced" (inject_Z 2000)
    "None" (Date 2027 1 31) Omitted "merit" (Given None) Omitted.

(** The four sample scholarships, one that is not active and one whose
    is_active is NULL. *)
Definition with_inactive : DB :=
  run [ (auth_service, Env 40 6001, InsertScholarships closed_scholarship);
        (auth_service, Env 41 6002, InsertScholarships undecided_scholarship) ]
      two_users.

(** The database after a statement has been executed on it: the statement
    is atomic, an aborted one leaves the database as it was. *)
Definition executed (stmt : DB -> result DB) (db : DB) : DB := commit db (stmt db).

(** The four statements of a table follow the decisions of the
    access-control layer. [table] reads the table, [trigger] is what its
    BEFORE UPDATE trigger makes of the row the statement assigned.
    - SELECT returns the rows whose selection is permitted;
    - INSERT is aborted with AuthorizationDenied exactly when the insertion
      of the new row is not permitted;
    - an UPDATE that goes through has rewritten exactly the rows of its
      condition whose update is permitted; one that meets a row it sees and
      whose update is not permitted is aborted; one that is aborted with
      AuthorizationDenied has met such a row;
    - DELETE goes through and removes exactly the rows of its condition
      whose deletion is permitted. *)
Definition statements_follow {R I : Type} (pols : list (policy R))
    (table : DB -> list R)
    (select : session -> DB -> list R)
    (insert : session -> env -> DB -> I -> result DB) (defaults : env -> I -> R)
    (update : session -> env -> DB -> (R -> bool) -> (R -> R) -> result DB)
    (trigger : env -> R -> R)
    (delete : session -> DB -> (R -> bool) -> result DB)
    (s : session) (e : env) (db : DB) : Prop :=
  select s db = List.filter (fun r => rls_permits pols s db (Selecting r)) (table db) /\
  (forall i, insert s e db i = Err AuthorizationDenied <->
             rls_permits pols s db (Inserting (defaults e i)) = false) /\
  (forall cond assign db',
     update s e db cond assign = Ok db' ->
     table db' =
       apply_update
         (fun r => cond r && rls_permits pols s db (Updating r (trigger e (assign r))))
         (fun r => trigger e (assign r)) (table db)) /\
  (forall cond assign r,
     r ∈ table db -> targets pols UPDATE s db cond r = true ->
     rls_permits pols s db (Updating r (trigger e (assign r))) = false ->
     (exists err, update s e db cond assign = Err err) /\
     executed (fun d => update s e d cond assign) db = db) /\
  (forall cond assign,
     update s e db cond assign = Err AuthorizationDenied ->
     exists r, r ∈ table db /\ targets pols UPDATE s db cond r = true /\
               rls_permits pols s db (Updating r (trigger e (assign r))) = false) /\
  (forall cond,
     exists db', delete s db cond = Ok db' /\
                 table db' =
                   List.filter (fun r => negb (cond r && rls_permits pols s db (Deleting r)))
                     (table db)).

(** The requester owns a conversation whose id is [cid]. *)
Definition conversation_of_requester (s : session) (db : DB) (cid : UUID) : Prop :=
  exists v, v ∈ chat_conversations db /\ ChatConversations.id v = cid /\
            auth_uid s = Some (ChatConversations.user_id v).

(** Some row of the table has the pair, or the triple, of the UNIQUE
    constraint. *)
Definition progress_exists (db : DB) (u : UUID) (q : string) : Prop :=
  exists r, r ∈ user_progress db /\ UserProgress.user_id r = u /\
            UserProgress.quest_type r = q.

Definition saved_item_exists (db : DB) (u : UUID) (ty : string) (item : UUID) : Prop :=
  exists r, r ∈ user_saved_items db /\ UserSavedItems.user_id r = u /\
            UserSavedItems.item_type r = ty /\ UserSavedItems.item_id r = item.

(** The session passes the INSERT policy of a table whose rows name their
    owner [u]: it is [u], or row security does not apply to it. *)
Definition may_insert_for (s : session) (u : UUID) : Prop :=
  bypasses_rls s = true \/ auth_uid s = Some u.

(** [new] is [old] with the rows in [changed] rewritten so that [P] holds
    and the others as they were, row by row. *)
Definition rewritten {R} (changed : R -> bool) (P : R -> R -> Prop) (old new : list R)
  : Prop :=
  Forall2 (fun r r' => if changed r then P r r' else r' = r) old new.

(** The number of profiles of principal [u]. *)
Definition profiles_of (u : UUID) (db : DB) : nat :=
  length (List.filter (fun r => bool_decide (Profiles.id r = u)) (profiles db)).

(** The migrated database with Alice's auth.users row in, her trigger not
    yet run. *)
Definition alice_registered : DB :=
  set_auth_users (commit empty_db (migration 0 N.of_nat)) [alice_signup].

(** A bookmark of a college that does not exist. *)
Definition dangling_item : UserSavedItems.Insert.t :=
  UserSavedItems.Insert.Make Omitted alice "college" 9999 Omitted Omitted.

(** An update that tries to set updated_at itself. *)
Definition backdate_profile (r : Profiles.row) : Profiles.row :=
  Profiles.with_updated_at r (Some 0%Z).
Definition backdate_conversation (r : ChatConversations.row) : ChatConversations.row :=
  ChatConversations.with_updated_at r (Some 0%Z).
Definition backdate_progress (r : UserProgress.row) : UserProgress.row :=
  UserProgress.with_updated_at r None.

(** No message is an orphan: the foreign key of chat_messages holds. *)
Definition no_orphan_messages (db : DB) : Prop :=
  refers ChatMessages.conversation_id (chat_messages db)
    (List.map ChatConversations.id (chat_conversations db)).

(** An update that withdraws a scholarship. *)
Definition deactivate (r : Scholarships.row) : Scholarships.row :=
  Scholarships.Row (Scholarships.id r) (Scholarships.title r) (Scholarships.description r)
    (Scholarships.amount r) (Scholarships.eligibility_criteria r) (Scholarships.deadline r)
    (Scholarships.application_link r) (Scholarships.category r) (Some false)
    (Scholarships.created_at r).

(** An update that hands a conversation to Bob. *)
Definition give_to_bob (r : ChatConversations.row) : ChatConversations.row :=
  ChatConversations.Row (ChatConversations.id r) bob (ChatConversations.title r)
    (ChatConversations.language r) (ChatConversations.created_at r)
    (ChatConversations.updated_at r).

(** Alice's conversation and bookmark, as stored. *)
Definition alice_conversation_row : ChatConversations.row :=
  ChatConversations.defaults (Env 30 0) alice_conversation.
Definition alice_saved_item_row : UserSavedItems.row :=
  UserSavedItems.defaults (Env 36 5001) alice_saved_item.

(** A second conversation of Alice. *)
Definition alice_second_conversation : ChatConversations.Insert.t :=
  ChatConversations.Insert.Make (Given 2003%N) alice Omitted Omitted Omitted Omitted.

(** [busy] after Alice has opened her second conversation. *)
Definition busier : DB :=
  commit busy (insert_chat_conversations as_alice (Env 60 0) busy alice_second_conversation).

(** [busy] after Alice has deleted her college bookmarks. *)
Definition is_college_bookmark (r : UserSavedItems.row) : bool :=
  bool_decide (UserSavedItems.item_type r = "college").
Definition tidied : DB :=
  commit busy (delete_user_saved_items as_alice busy is_college_bookmark).

(** No row at all. *)
Definition nothing_owned : owned := Owned [] [] [] [] [].

(** The WHERE condition that selects the principal [u] in auth.users. *)
Definition is_principal (u : UUID) (r : Users.row) : bool :=
  bool_decide (Users.id r = u).

(** The ids the migration draws for a table: [len] draws from the [n]-th
    on. *)
Definition drawn (uuid : nat -> UUID) (n len : nat) : list UUID :=
  List.map uuid (seq n len).

(** Two statements of Alice on [busy]. *)
Definition alice_session_log : list (session * env * op) :=
  [ (as_alice, Env 60 0, InsertChatConversations alice_second_conversation);
    (as_alice, Env 61 0, DeleteChatConversations (fun _ => true)) ].

(** An update of the status and points of a quest. *)
Definition complete_quest (r : UserProgress.row) : UserProgress.row :=
  UserProgress.Row (UserProgress.id r) (UserProgress.user_id r) (UserProgress.quest_type r)
    (Some "completed") (Some 100%Z) (UserProgress.metadata r) (Some 90%Z)
    (UserProgress.created_at r) (UserProgress.updated_at r).

(** A session without a principal. *)
Definition as_guest : session := Session anon None.

(** The principals a DELETE on auth.users removes. *)
Definition deleted_principal (db : DB) (cond : Users.row -> bool) (u : UUID) : Prop :=
  exists r, r ∈ auth_users db /\ cond r = true /\ Users.id r = u.

(** The INSERT statements on the five user-scoped tables. *)
Definition inserts_user_rows (o : op) : bool :=
  match o with
  | InsertProfiles _ | InsertChatConversations _ | InsertChatMessages _
  | InsertUserProgress _ | InsertUserSavedItems _ => true
  | _ => false
  end.

(** The INSERT statements of a session. *)
Definition is_insert (o : op) : bool :=
  match o with
  | InsertProfiles _ | InsertColleges _ | InsertScholarships _ | InsertCareerPaths _
  | InsertChatConversations _ | InsertChatMessages _ | InsertUserProgress _
  | InsertUserSavedItems _ => true
  | _ => false
  end.

(** The UPDATE and DELETE statements on user-scoped tables for which the
    migration declares no policy. *)
Definition lacks_policy (o : op) : bool :=
  match o with
  | DeleteProfiles _ | DeleteUserProgress _ | UpdateUserSavedItems _ _
  | UpdateChatMessages _ _ | DeleteChatMessages _ => true
  | _ => false
  end.

(** The statements on the three reference tables. *)
Definition writes_reference_rows (o : op) : bool :=
  match o with
  | InsertColleges _ | UpdateColleges _ _ | DeleteColleges _
  | InsertScholarships _ | UpdateScholarships _ _ | DeleteScholarships _
  | InsertCareerPaths _ | UpdateCareerPaths _ _ | DeleteCareerPaths _ => true
  | _ => false
  end.

(** The rows an INSERT of the migration adds: one per VALUES row, the
    [k]-th with the [k]-th draw of gen_random_uuid(). *)
Fixpoint inserted_rows {I R} (defaults : env -> I -> R) (now : timestamptz)
    (uuid : nat -> UUID) (n : nat) (rows : list I) : list R :=
  match rows with
  | [] => []
  | i :: rest => defaults (Env now (uuid n)) i :: inserted_rows defaults now uuid (S n) rest
  end.

(** ** The landing page (src/pages/Index.tsx)

    [useAuth] gives the signed-in user, if any, and whether the session is
    still loading. The component has an effect, which navigates, and a
    render. *)

Record auth_user := AuthUser { email : option string }.

Record auth_state := AuthState {
  user : option auth_user;
  loading : bool
}.

Inductive component := Hero | ChatBot | CareerNavigator | ScholarshipTracker | QuestSystem.

Inductive element :=
| Spinner                                   (* the loading indicator *)
| Null                                      (* return null *)
| Page (shown_email : option string) (content : list component).

(** useEffect: if (!loading && !user) navigate("/auth"). The list is the
    navigations the effect issues. *)
Definition Index_effect (a : auth_state) : list string :=
  if negb (loading a) && negb (bool_decide (is_Some (user a))) then ["/auth"] else [].

Definition Index (a : auth_state) : element :=
  if loading a then Spinner
  else match user a with
       | None => Null
       | Some u => Page (email u) [Hero; ChatBot; CareerNavigator; ScholarshipTracker; QuestSystem]
       end.

(** * Facts *)

(** ** Lists *)

Section ListFacts.
Context {A K : Type}.
Implicit Types (l : list A) (p q : A -> bool) (f : A -> K).

Lemma elem_of_map f l y : y ∈ List.map f l <-> exists x, y = f x /\ x ∈ l.
Proof. change (List.map f l) with (f <$> l). apply list_elem_of_fmap. Qed.

Lemma elem_of_map_2 f l x : x ∈ l -> f x ∈ List.map f l.
Proof. intros Hx. apply elem_of_map. eauto. Qed.

Lemma elem_of_filter_bool p l x : x ∈ List.filter p l <-> p x = true /\ x ∈ l.
Proof.
  rewrite !list_elem_of_In, filter_In. tauto.
Qed.

Lemma filter_ext_elem p q l :
  (forall x, x ∈ l -> p x = q x) -> List.filter p l = List.filter q l.
Proof.
  intros H. apply filter_ext_in. intros x Hx. apply H, list_elem_of_In, Hx.
Qed.

Lemma filter_filter_bool p q l :
  List.filter p (List.filter q l) = List.filter (fun x => q x && p x) l.
Proof.
  induction l as [|x l IH]; simpl; [done|].
  destruct (q x); simpl; [destruct (p x)|]; by rewrite IH.
Qed.

(** Rows a filter throws away that [p] does not select anyway. *)
Lemma filter_remaining p (target : A -> bool) l :
  (forall x, x ∈ l -> p x = true -> target x = false) ->
  List.filter p (remaining target l) = List.filter p l.
Proof.
  intros H. unfold remaining. rewrite filter_filter_bool.
  apply filter_ext_elem. intros x Hx.
  destruct (p x) eqn:Hp; [rewrite (H x Hx Hp)|]; destruct (target x); done.
Qed.

(** An update whose targets are outside [p], before and after. *)
Lemma filter_apply_update p (target : A -> bool) (new : A -> A) l :
  (forall x, x ∈ l -> target x = true -> p x = false /\ p (new x) = false) ->
  List.filter p (apply_update target new l) = List.filter p l.
Proof.
  unfold apply_update. induction l as [|x l IH]; intros H; simpl; [done|].
  rewrite IH by (intros y Hy; apply H; by right).
  destruct (target x) eqn:Ht; [|done].
  destruct (H x (list_elem_of_here _ _) Ht) as [-> ->]. done.
Qed.

Lemma apply_update_none (target : A -> bool) (new : A -> A) l :
  (forall x, x ∈ l -> target x = false) -> apply_update target new l = l.
Proof.
  unfold apply_update. induction l as [|x l IH]; intros H; simpl; [done|].
  rewrite (H x) by left. rewrite IH; [done|]. intros y Hy. apply H. by right.
Qed.

Lemma remaining_none (target : A -> bool) l :
  (forall x, x ∈ l -> target x = false) -> remaining target l = l.
Proof.
  unfold remaining. induction l as [|x l IH]; intros H; simpl; [done|].
  rewrite (H x) by left. simpl. rewrite IH; [done|]. intros y Hy. apply H. by right.
Qed.

Lemma NoDup_map_filter f p l : NoDup (List.map f l) -> NoDup (List.map f (List.filter p l)).
Proof.
  induction l as [|x l IH]; simpl; [done|].
  intros Hnd. pose proof (NoDup_cons_1_1 _ _ Hnd) as Hx.
  pose proof (NoDup_cons_1_2 _ _ Hnd) as Hl.
  destruct (p x); simpl; [|by apply IH].
  apply NoDup_cons_2; [|by apply IH].
  intros Hin. apply Hx. apply elem_of_map in Hin as (y & Hy & Hyl).
  apply elem_of_filter_bool in Hyl as [_ Hyl]. rewrite Hy. by apply elem_of_map_2.
Qed.

Lemma NoDup_map_snoc f l x :
  NoDup (List.map f l) -> f x ∉ List.map f l -> NoDup (List.map f (l ++ [x])).
Proof.
  intros Hl Hx. rewrite List.map_app. simpl. apply list.NoDup_app. split; [done|].
  split; [|apply NoDup_singleton].
  intros y Hy Hy'. apply list_elem_of_singleton in Hy'. by subst.
Qed.

Lemma NoDup_map_inj f l x y :
  NoDup (List.map f l) -> x ∈ l -> y ∈ l -> f x = f y -> x = y.
Proof.
  induction l as [|z l IH]; simpl; [by intros _ ?%elem_of_nil|].
  intros Hnd Hx Hy Hxy. pose proof (NoDup_cons_1_1 _ _ Hnd) as Hz.
  pose proof (NoDup_cons_1_2 _ _ Hnd) as Hl.
  apply elem_of_cons in Hx as [->|Hx]; apply elem_of_cons in Hy as [->|Hy].
  - done.
  - exfalso. apply Hz. rewrite Hxy. by apply elem_of_map_2.
  - exfalso. apply Hz. rewrite <- Hxy. by apply elem_of_map_2.
  - by apply IH.
Qed.

Lemma existsb_elem p l : existsb p l = true <-> exists x, x ∈ l /\ p x = true.
Proof.
  rewrite existsb_exists. split; intros (x & Hx & Hp); exists x; split; try done;
    by apply list_elem_of_In.
Qed.

Lemma forallb_elem p l : forallb p l = true <-> forall x, x ∈ l -> p x = true.
Proof.
  rewrite forallb_forall. split; intros H x Hx; apply H; by apply list_elem_of_In.
Qed.

Lemma existsb_ext_elem p q l :
  (forall x, x ∈ l -> p x = q x) -> existsb p l = existsb q l.
Proof.
  induction l as [|x l IH]; intros H; simpl; [done|].
  rewrite (H x) by left. rewrite IH; [done|]. intros y Hy. apply H. by right.
Qed.

Lemma fresh_true `{EqDecision K} (k : K) keys : fresh k keys = true <-> k ∉ keys.
Proof. unfold fresh. apply bool_decide_eq_true. Qed.

Lemma references_true `{EqDecision K} (k : K) keys : references k keys = true <-> k ∈ keys.
Proof. unfold references. apply bool_decide_eq_true. Qed.

Lemma distinct_true `{EqDecision K} (keys : list K) : distinct keys = true <-> NoDup keys.
Proof. unfold distinct. apply bool_decide_eq_true. Qed.
End ListFacts.

(** ** Referential integrity under the statements *)

Section RefersFacts.
Context {A K : Type} `{EqDecision K}.
Implicit Types (g : A -> K) (t : list A) (keys : list K).

Lemma refers_elem g t keys r : refers g t keys -> r ∈ t -> g r ∈ keys.
Proof. unfold refers. rewrite list.Forall_forall. auto. Qed.

Lemma refers_snoc g t keys r :
  refers g t keys -> references (g r) keys = true -> refers g (t ++ [r]) keys.
Proof.
  intros Ht Hr. apply list.Forall_app. split; [done|].
  apply list.Forall_singleton. by apply references_true.
Qed.

Lemma refers_weaken g t keys keys' :
  refers g t keys -> (forall k, k ∈ keys -> k ∈ keys') -> refers g t keys'.
Proof. intros Ht Hk. eapply list.Forall_impl; [exact Ht|]. simpl. auto. Qed.

Lemma refers_filter g t keys (p : A -> bool) :
  refers g t keys -> refers g (List.filter p t) keys.
Proof.
  unfold refers. rewrite !list.Forall_forall. intros H r Hr.
  apply elem_of_filter_bool in Hr as [_ Hr]. auto.
Qed.

Lemma refers_apply_update g t keys (target : A -> bool) (new : A -> A) :
  refers g t keys ->
  forallb (fun r => negb (target r) || references (g (new r)) keys) t = true ->
  refers g (apply_update target new t) keys.
Proof.
  unfold refers, apply_update. intros Ht Hnew.
  rewrite forallb_elem in Hnew. rewrite list.Forall_forall in Ht.
  apply list.Forall_forall. intros r' Hr'.
  apply elem_of_map in Hr' as (r & -> & Hr).
  specialize (Hnew r Hr). destruct (target r); simpl in Hnew; [|by apply Ht].
  by apply references_true.
Qed.

(** ON DELETE CASCADE: the referencing rows that stay reference keys that
    stay. *)
Lemma refers_cascade {B} g (t : list A) (h : B -> K) (parents : list B) (gone : B -> bool) :
  refers g t (List.map h parents) ->
  refers g
    (List.filter (fun r => negb (references (g r) (List.map h (List.filter gone parents)))) t)
    (List.map h (remaining gone parents)).
Proof.
  unfold refers. rewrite !list.Forall_forall. intros H r Hr.
  apply elem_of_filter_bool in Hr as [Hkeep Hr].
  apply negb_true_iff, bool_decide_eq_false in Hkeep.
  pose proof (H r Hr) as Hk. apply elem_of_map in Hk as (b & Hb & Hbin).
  apply elem_of_map. exists b. split; [done|].
  apply elem_of_filter_bool. split; [|done].
  destruct (gone b) eqn:Hg; [|done]. exfalso. apply Hkeep.
  rewrite Hb. apply elem_of_map_2, elem_of_filter_bool. done.
Qed.
End RefersFacts.

(** ** What the policies decide *)

Lemma sql_true_eq_uid (s : session) (u : UUID) :
  sql_true (sql_eq (auth_uid s) (Some u)) = requester_is s u.
Proof.
  unfold requester_is, sql_eq.
  destruct (auth_uid s) as [a|]; simpl; repeat case_bool_decide; congruence.
Qed.

Lemma sql_true_Some (b : bool) : sql_true (Some b) = b.
Proof. by destruct b. Qed.

Lemma requester_is_true (s : session) (u : UUID) :
  requester_is s u = true <-> auth_uid s = Some u.
Proof. unfold requester_is. apply bool_decide_eq_true. Qed.

Ltac policy_eval :=
  unfold visible, admissible, rls_using, rls_check,
    has_policy, profiles_policies, chat_conversations_policies, chat_messages_policies,
    user_progress_policies, user_saved_items_policies;
  cbn [List.filter existsb applies polcmd polroles polqual polwithcheck command_eqb
       andb orb];
  rewrite ?sql_true_eq_uid, ?orb_false_r.

Lemma using_profiles s db c r :
  rls_using profiles_policies s db c r =
  has_policy profiles_policies c && negb (command_eqb c INSERT) &&
  requester_is s (Profiles.id r).
Proof. destruct c; policy_eval; reflexivity. Qed.

Lemma check_profiles s db c r :
  rls_check profiles_policies s db c r =
  has_policy profiles_policies c && requester_is s (Profiles.id r).
Proof. destruct c; policy_eval; reflexivity. Qed.

Lemma using_chat_conversations s db c r :
  rls_using chat_conversations_policies s db c r =
  negb (command_eqb c INSERT) && requester_is s (ChatConversations.user_id r).
Proof. destruct c; policy_eval; reflexivity. Qed.

Lemma check_chat_conversations s db c r :
  rls_check chat_conversations_policies s db c r =
  requester_is s (ChatConversations.user_id r).
Proof. destruct c; policy_eval; reflexivity. Qed.

Lemma using_user_progress s db c r :
  rls_using user_progress_policies s db c r =
  has_policy user_progress_policies c && negb (command_eqb c INSERT) &&
  requester_is s (UserProgress.user_id r).
Proof. destruct c; policy_eval; reflexivity. Qed.

Lemma check_user_progress s db c r :
  rls_check user_progress_policies s db c r =
  has_policy user_progress_policies c && requester_is s (UserProgress.user_id r).
Proof. destruct c; policy_eval; reflexivity. Qed.

Lemma using_user_saved_items s db c r :
  rls_using user_saved_items_policies s db c r =
  has_policy user_saved_items_policies c && negb (command_eqb c INSERT) &&
  requester_is s (UserSavedItems.user_id r).
Proof. destruct c; policy_eval; reflexivity. Qed.

Lemma check_user_saved_items s db c r :
  rls_check user_saved_items_policies s db c r =
  has_policy user_saved_items_policies c && requester_is s (UserSavedItems.user_id r).
Proof. destruct c; policy_eval; reflexivity. Qed.

(** The conversations a session sees that are its own are the
    conversations that are its own. *)
Lemma visible_own_conversation s db c :
  requester_is s (ChatConversations.user_id c) = true ->
  visible chat_conversations_policies s db SELECT c = true.
Proof.
  intros H. unfold visible. rewrite using_chat_conversations. simpl.
  rewrite H. apply orb_true_r.
Qed.

(** The EXISTS subquery of the chat_messages policies. *)
Lemma owns_parent_conversation_spec s db m :
  sql_true (owns_parent_conversation s db m) = requester_owns_parent s db m.
Proof.
  unfold owns_parent_conversation, requester_owns_parent, parent_owned_by,
    select_chat_conversations.
  set (P := fun c : ChatConversations.row => sql_true _).
  assert (HP : forall c, P c =
            bool_decide (ChatConversations.id c = ChatMessages.conversation_id m) &&
            requester_is s (ChatConversations.user_id c)).
  { intros c. unfold P, requester_is, sql_eq.
    destruct (auth_uid s) as [a|]; simpl; repeat case_bool_decide; simpl; congruence. }
  assert (Hex : existsb P (List.filter (visible chat_conversations_policies s db SELECT)
                                        (chat_conversations db)) =
                existsb P (chat_conversations db)).
  { apply eq_true_iff_eq. rewrite !existsb_elem. split.
    - intros (c & Hc & Hp). apply elem_of_filter_bool in Hc as [_ Hc]. eauto.
    - intros (c & Hc & Hp). exists c. split; [|done].
      apply elem_of_filter_bool. split; [|done].
      apply visible_own_conversation. rewrite HP in Hp.
      by apply andb_true_iff in Hp as [_ Hp]. }
  rewrite sql_true_Some, Hex. clear Hex.
  destruct (auth_uid s) as [a|] eqn:Ha.
  - apply existsb_ext_elem. intros c _. rewrite HP. unfold requester_is. rewrite Ha.
    repeat case_bool_decide; simpl; congruence.
  - apply not_true_is_false. rewrite existsb_elem. intros (c & Hc & Hp).
    rewrite HP in Hp. unfold requester_is in Hp. rewrite Ha in Hp.
    apply andb_true_iff in Hp as [_ Hp]. by apply bool_decide_eq_true in Hp.
Qed.

Lemma using_chat_messages s db c m :
  rls_using chat_messages_policies s db c m =
  command_eqb c SELECT && requester_owns_parent s db m.
Proof.
  destruct c; policy_eval; rewrite ?owns_parent_conversation_spec, ?orb_false_r;
    reflexivity.
Qed.

Lemma check_chat_messages s db c m :
  rls_check chat_messages_policies s db c m =
  has_policy chat_messages_policies c && requester_owns_parent s db m.
Proof.
  destruct c; policy_eval; rewrite ?owns_parent_conversation_spec, ?orb_false_r;
    reflexivity.
Qed.

Lemma requester_owns_parent_true s db m :
  requester_owns_parent s db m = true <->
  exists c, c ∈ chat_conversations db /\
            ChatConversations.id c = ChatMessages.conversation_id m /\
            auth_uid s = Some (ChatConversations.user_id c).
Proof.
  unfold requester_owns_parent, parent_owned_by.
  destruct (auth_uid s) as [a|].
  - rewrite existsb_elem. split.
    + intros (c & Hc & Hp). apply andb_true_iff in Hp as [H1 H2].
      apply bool_decide_eq_true in H1, H2. exists c. by subst.
    + intros (c & Hc & H1 & H2). exists c. split; [done|].
      apply andb_true_iff. split; apply bool_decide_eq_true; congruence.
  - split; [done|]. by intros (c & _ & _ & ?).
Qed.

(** * Properties of the specification *)

(** ** Access control *)

(** C5: for a session of the role authenticated, SELECT over scholarships
    returns exactly the rows whose is_active is true; a row whose is_active
    is false or NULL is never returned. *)
Theorem C5_select_scholarships_active_only (s : session) (db : DB) :
  current_role s = authenticated ->
  select_scholarships s db =
    List.filter (fun r => bool_decide (Scholarships.is_active r = Some true))
      (scholarships db) /\
  (forall r, r ∈ select_scholarships s db <->
             r ∈ scholarships db /\ Scholarships.is_active r = Some true) /\
  (forall r, Scholarships.is_active r = Some false \/ Scholarships.is_active r = None ->
             r ∉ select_scholarships s db).
Proof.
  intros Hrole.
  assert (Hvis : forall r, visible scholarships_policies s db SELECT r =
                           bool_decide (Scholarships.is_active r = Some true)).
  { intros r. unfold visible, bypasses_rls, rls_using, scholarships_policies.
    cbn [List.filter applies polcmd polroles command_eqb andb]. rewrite Hrole.
    cbn [role_eqb existsb polqual orb].
    destruct (Scholarships.is_active r) as [[]|]; reflexivity. }
  assert (Heq : select_scholarships s db =
                List.filter (fun r => bool_decide (Scholarships.is_active r = Some true))
                  (scholarships db)).
  { unfold select_scholarships, select_rows. apply filter_ext_elem. auto. }
  split; [exact Heq|]. split.
  - intros r. rewrite Heq, elem_of_filter_bool, bool_decide_eq_true. tauto.
  - intros r Hr Hin. rewrite Heq in Hin.
    apply elem_of_filter_bool in Hin as [Hin _]. apply bool_decide_eq_true in Hin.
    destruct Hr; congruence.
Qed.

Lemma C5_select_scholarships_active_only_witness :
  current_role as_alice = authenticated /\
  List.map Scholarships.id (scholarships with_inactive) = [5; 6; 7; 8; 6001; 6002]%N /\
  List.map Scholarships.id (select_scholarships as_alice with_inactive) = [5; 6; 7; 8]%N /\
  select_scholarships as_alice with_inactive =
    List.filter (fun r => bool_decide (Scholarships.is_active r = Some true))
      (scholarships with_inactive).
Proof.
  split; [reflexivity|]. split; [vm_compute; reflexivity|].
  split; [vm_compute; reflexivity|].
  apply (C5_select_scholarships_active_only as_alice with_inactive). reflexivity.
Defined.

(** C3: for a session under row security, an INSERT into chat_messages is
    aborted with an authorization error exactly when no conversation with
    the message's conversation_id is owned by the requester; when there is
    one the insert passes the check, and goes through (it can then only
    fail on a duplicate id). *)
Theorem C3_chat_message_insert_needs_own_conversation
    (s : session) (e : env) (db : DB) (i : ChatMessages.Insert.t) :
  bypasses_rls s = false ->
  (insert_chat_messages s e db i = Err AuthorizationDenied <->
   ~ conversation_of_requester s db (ChatMessages.Insert.conversation_id i)) /\
  (admissible chat_messages_policies s db INSERT (ChatMessages.defaults e i) = true <->
   conversation_of_requester s db (ChatMessages.Insert.conversation_id i)) /\
  (conversation_of_requester s db (ChatMessages.Insert.conversation_id i) ->
   ChatMessages.id (ChatMessages.defaults e i) ∉ List.map ChatMessages.id (chat_messages db) ->
   insert_chat_messages s e db i =
     Ok (set_chat_messages db (chat_messages db ++ [ChatMessages.defaults e i]))) /\
  (conversation_of_requester s db (ChatMessages.Insert.conversation_id i) ->
   ChatMessages.id (ChatMessages.defaults e i) ∈ List.map ChatMessages.id (chat_messages db) ->
   insert_chat_messages s e db i = Err UniquenessViolation).
Proof.
  intros Hs.
  set (new := ChatMessages.defaults e i).
  set (own_parent := conversation_of_requester s db (ChatMessages.Insert.conversation_id i)).
  assert (Hadm : admissible chat_messages_policies s db INSERT new = true <-> own_parent).
  { unfold admissible. rewrite Hs, check_chat_messages. simpl.
    rewrite requester_owns_parent_true. reflexivity. }
  assert (Hfk : own_parent ->
                references (ChatMessages.conversation_id new)
                  (List.map ChatConversations.id (chat_conversations db)) = true).
  { intros (v & Hv & Hid & _). apply references_true. simpl. rewrite <- Hid.
    by apply elem_of_map_2. }
  clearbody own_parent.
  unfold insert_chat_messages. fold new.
  destruct (admissible chat_messages_policies s db INSERT new) eqn:Ha;
    cbn [bind require].
  - assert (Hown : own_parent) by (by apply Hadm).
    rewrite (Hfk Hown).
    destruct (fresh (ChatMessages.id new) _) eqn:Hf; cbn [bind require].
    + apply fresh_true in Hf. repeat split; intros; first [done | tauto].
    + apply not_true_iff_false in Hf. rewrite fresh_true in Hf.
      repeat split; intros; first [done | tauto].
  - assert (Hnot : ~ own_parent) by (intros H; apply Hadm in H; discriminate).
    repeat split; intros; first [done | tauto].
Qed.

Lemma C3_chat_message_insert_needs_own_conversation_witness :
  bypasses_rls as_bob = false /\
  (insert_chat_messages as_bob (Env 60 7001) busy alice_message = Err AuthorizationDenied <->
   ~ conversation_of_requester as_bob busy 2001).
Proof.
  split; [reflexivity|].
  apply (C3_chat_message_insert_needs_own_conversation as_bob (Env 60 7001) busy
           alice_message).
  reflexivity.
Defined.

(** ** Uniqueness *)

Lemma admissible_user_progress s db r :
  admissible user_progress_policies s db INSERT r = true <->
  may_insert_for s (UserProgress.user_id r).
Proof.
  unfold admissible, may_insert_for. rewrite check_user_progress. simpl.
  rewrite orb_true_iff, requester_is_true. reflexivity.
Qed.

Lemma admissible_user_saved_items s db r :
  admissible user_saved_items_policies s db INSERT r = true <->
  may_insert_for s (UserSavedItems.user_id r).
Proof.
  unfold admissible, may_insert_for. rewrite check_user_saved_items. simpl.
  rewrite orb_true_iff, requester_is_true. reflexivity.
Qed.

(** C4: an INSERT into user_progress whose (user_id, quest_type) is already
    there, and an INSERT into user_saved_items whose (user_id, item_type,
    item_id) is already there, are aborted: with UniquenessViolation when
    the requester may insert the row, and in any case without a second row,
    the table staying as it was. *)
Theorem C4_duplicate_keys_rejected (s : session) (e : env) (db : DB) :
  (forall i : UserProgress.Insert.t,
     progress_exists db (UserProgress.Insert.user_id i) (UserProgress.Insert.quest_type i) ->
     (may_insert_for s (UserProgress.Insert.user_id i) ->
      insert_user_progress s e db i = Err UniquenessViolation) /\
     (exists err, insert_user_progress s e db i = Err err) /\
     commit db (insert_user_progress s e db i) = db) /\
  (forall i : UserSavedItems.Insert.t,
     saved_item_exists db (UserSavedItems.Insert.user_id i)
       (UserSavedItems.Insert.item_type i) (UserSavedItems.Insert.item_id i) ->
     (may_insert_for s (UserSavedItems.Insert.user_id i) ->
      insert_user_saved_items s e db i = Err UniquenessViolation) /\
     (exists err, insert_user_saved_items s e db i = Err err) /\
     commit db (insert_user_saved_items s e db i) = db).
Proof.
  split.
  - intros i (r & Hr & Hu & Hq).
    set (new := UserProgress.defaults e i).
    assert (Hdup : fresh (UserProgress.unique_key new)
                     (List.map UserProgress.unique_key (user_progress db)) = false).
    { apply not_true_iff_false. rewrite fresh_true. intros Hf. apply Hf.
      replace (UserProgress.unique_key new) with (UserProgress.unique_key r)
        by (unfold UserProgress.unique_key; simpl; congruence).
      by apply elem_of_map_2. }
    pose proof (admissible_user_progress s db new) as Hadm.
    unfold insert_user_progress. fold new. rewrite Hdup.
    destruct (admissible user_progress_policies s db INSERT new);
      cbn [bind require commit];
      [destruct (fresh (UserProgress.id new) _); cbn [bind require commit]|].
    all: repeat split; eauto.
    intros Hmay. apply Hadm in Hmay. discriminate.
  - intros i (r & Hr & Hu & Ht & Hi).
    set (new := UserSavedItems.defaults e i).
    assert (Hdup : fresh (UserSavedItems.unique_key new)
                     (List.map UserSavedItems.unique_key (user_saved_items db)) = false).
    { apply not_true_iff_false. rewrite fresh_true. intros Hf. apply Hf.
      replace (UserSavedItems.unique_key new) with (UserSavedItems.unique_key r)
        by (unfold UserSavedItems.unique_key; simpl; congruence).
      by apply elem_of_map_2. }
    pose proof (admissible_user_saved_items s db new) as Hadm.
    unfold insert_user_saved_items. fold new. rewrite Hdup.
    destruct (admissible user_saved_items_policies s db INSERT new);
      cbn [bind require commit];
      [destruct (fresh (UserSavedItems.id new) _); cbn [bind require commit]|].
    all: repeat split; eauto.
    intros Hmay. apply Hadm in Hmay. discriminate.
Qed.

Lemma C4_duplicate_keys_rejected_witness :
  insert_user_progress as_alice (Env 70 8001) busy alice_progress = Err UniquenessViolation /\
  insert_user_saved_items as_alice (Env 70 8001) busy alice_saved_item =
    Err UniquenessViolation.
Proof.
  destruct (C4_duplicate_keys_rejected as_alice (Env 70 8001) busy) as [Hp Hs]. split.
  - apply Hp.
    + exists (UserProgress.defaults (Env 34 4001) alice_progress).
      split; [vm_compute; left|]. split; reflexivity.
    + right. reflexivity.
  - apply Hs.
    + exists (UserSavedItems.defaults (Env 36 5001) alice_saved_item).
      split; [vm_compute; left|]. repeat split; reflexivity.
    + right. reflexivity.
Defined.

(** ** The updated_at triggers *)

Lemma rewritten_apply_update {R} (target : R -> bool) (new : R -> R) (t : list R) :
  rewritten target (fun r r' => r' = new r) t (apply_update target new t).
Proof.
  unfold rewritten, apply_update.
  induction t as [|r t IH]; simpl; constructor; [by destruct (target r)|exact IH].
Qed.

Lemma rewritten_impl {R} (changed : R -> bool) (P Q : R -> R -> Prop) (old new : list R) :
  (forall r r', P r r' -> Q r r') -> rewritten changed P old new -> rewritten changed Q old new.
Proof.
  intros HPQ. unfold rewritten. apply Forall2_impl. intros r r'.
  destruct (changed r); auto.
Qed.

(** Opening a statement: each [ensure] either holds or aborts it. *)
Ltac open_statement H :=
  repeat match type of H with
         | bind (require ?b _) _ = Ok _ =>
             let E := fresh "Hcheck" in
             destruct b eqn:E; cbn [bind require] in H; [|discriminate H]
         end.

(** ** The signup trigger *)

Lemma handle_new_user_unfold (e : env) (db : DB) (u : Users.row) :
  exists p,
    Profiles.id p = Users.id u /\
    Profiles.full_name p =
      Some (COALESCE (jsonb_get_text (Users.raw_user_meta_data u) "full_name") "") /\
    Profiles.preferred_language p = Some "en" /\
    Profiles.created_at p = Some (NOW e) /\
    Profiles.updated_at p = Some (NOW e) /\
    handle_new_user e db u =
      (ensure fresh (Users.id u) (List.map Profiles.id (profiles db))
         otherwise UniquenessViolation ;;
       ensure references (Users.id u) (List.map Users.id (auth_users db))
         otherwise ForeignKeyViolation ;;
       Ok (set_profiles db (profiles db ++ [p]))).
Proof. eexists. split_and!; cycle 5; [reflexivity|..]; reflexivity. Qed.

Lemma profiles_of_snoc (u : UUID) (db : DB) (p : Profiles.row) :
  Profiles.id p = u ->
  u ∉ List.map Profiles.id (profiles db) ->
  length (List.filter (fun r => bool_decide (Profiles.id r = u)) (profiles db ++ [p])) = 1.
Proof.
  intros Hp Hu. rewrite List.filter_app, length_app. simpl.
  rewrite (bool_decide_eq_true_2 _ Hp). simpl.
  replace (List.filter _ (profiles db)) with (@nil Profiles.row); [done|].
  symmetry. induction (profiles db) as [|r t IH]; simpl; [done|].
  rewrite bool_decide_eq_false_2.
  - apply IH. intros Hin. apply Hu. simpl. by right.
  - intros Hr. apply Hu. simpl. rewrite Hr. left.
Qed.

(** C7: creating a principal whose id is new, in a database where every
    profile belongs to a principal, goes through and appends exactly one
    row to profiles, by the trigger alone: its id is the id of the
    principal, its full_name the text under the key full_name of the signup
    metadata, and the empty string when there is no such key (or no
    metadata). No other profile of that principal exists. *)
Theorem C7_signup_creates_one_profile (e : env) (db : DB) (u : Users.row) :
  refers Profiles.id (profiles db) (List.map Users.id (auth_users db)) ->
  Users.id u ∉ List.map Users.id (auth_users db) ->
  exists p,
    create_auth_user e db u =
      Ok (set_profiles (set_auth_users db (auth_users db ++ [u])) (profiles db ++ [p])) /\
    Profiles.id p = Users.id u /\
    Profiles.full_name p =
      Some (COALESCE (jsonb_get_text (Users.raw_user_meta_data u) "full_name") "") /\
    (forall fields name,
       Users.raw_user_meta_data u = Some (JObject fields) ->
       jsonb_field "full_name" fields = Some (JString name) ->
       Profiles.full_name p = Some name) /\
    (forall fields,
       Users.raw_user_meta_data u = Some (JObject fields) ->
       jsonb_field "full_name" fields = None ->
       Profiles.full_name p = Some "") /\
    (Users.raw_user_meta_data u = None -> Profiles.full_name p = Some "") /\
    profiles_of (Users.id u)
      (set_profiles (set_auth_users db (auth_users db ++ [u])) (profiles db ++ [p])) = 1.
Proof.
  intros Hfk Hnew.
  assert (Hnone : Users.id u ∉ List.map Profiles.id (profiles db)).
  { intros Hin. apply elem_of_map in Hin as (r & Hr & Hrin).
    apply Hnew. rewrite Hr. eapply refers_elem; eauto. }
  destruct (handle_new_user_unfold e (set_auth_users db (auth_users db ++ [u])) u)
    as (p & Hid & Hname & _ & _ & _ & Hrun).
  exists p. unfold create_auth_user.
  rewrite (proj2 (fresh_true _ _) Hnew). cbn [bind require].
  rewrite Hrun. cbn [profiles auth_users set_auth_users].
  rewrite (proj2 (fresh_true _ _) Hnone). cbn [bind require].
  rewrite (proj2 (references_true (Users.id u) (List.map Users.id (auth_users db ++ [u])))).
  2:{ rewrite List.map_app. apply elem_of_app. right. simpl. left. }
  cbn [bind require]. split; [reflexivity|]. split; [exact Hid|]. split; [exact Hname|].
  rewrite Hname. repeat split.
  - intros fields name -> Hf. simpl. by rewrite Hf.
  - intros fields -> Hf. simpl. by rewrite Hf.
  - intros ->. reflexivity.
  - unfold profiles_of. cbn [profiles set_profiles]. by apply profiles_of_snoc.
Qed.

Lemma C7_signup_creates_one_profile_witness :
  exists p,
    create_auth_user (Env 10 0) (commit empty_db (migration 0 N.of_nat)) alice_signup =
      Ok (set_profiles
            (set_auth_users (commit empty_db (migration 0 N.of_nat)) [alice_signup])
            [p]) /\
    Profiles.id p = alice /\ Profiles.full_name p = Some "Alice".
Proof.
  destruct (C7_signup_creates_one_profile (Env 10 0)
              (commit empty_db (migration 0 N.of_nat)) alice_signup)
    as (p & Hrun & Hid & Hname & _).
  - vm_compute. constructor.
  - vm_compute. intros H. inversion H.
  - exists p. split; [exact Hrun|]. split; [exact Hid|exact Hname].
Defined.

Lemma fresh_false {K} `{EqDecision K} (k : K) (keys : list K) :
  k ∈ keys -> fresh k keys = false.
Proof. intros Hk. apply not_true_iff_false. rewrite fresh_true. auto. Qed.

(** C8: the on-signup action is idempotent. Executed a second time for the
    same principal id (whatever NOW() and the metadata are then),
    handle_new_user leaves the database as the first execution left it,
    from every database; so does signing up twice. After a first
    execution that went through there is one profile of the principal, and
    the second execution ends in a uniqueness violation of the primary key,
    the statement being undone: no second row. *)
Theorem C8_handle_new_user_is_idempotent (e e' : env) (db : DB) (u u' : Users.row) :
  Users.id u' = Users.id u ->
  executed (fun d => handle_new_user e' d u') (executed (fun d => handle_new_user e d u) db)
    = executed (fun d => handle_new_user e d u) db /\
  executed (fun d => create_auth_user e' d u') (executed (fun d => create_auth_user e d u) db)
    = executed (fun d => create_auth_user e d u) db /\
  (forall db1,
     handle_new_user e db u = Ok db1 ->
     profiles_of (Users.id u) db1 = 1 /\
     handle_new_user e' db1 u' = Err UniquenessViolation /\
     executed (fun d => handle_new_user e' d u') db1 = db1 /\
     profiles_of (Users.id u) (executed (fun d => handle_new_user e' d u') db1) = 1).
Proof.
  intros Hsame.
  assert (Hagain : forall d p,
            Profiles.id p = Users.id u ->
            handle_new_user e' (set_profiles d (profiles d ++ [p])) u'
            = Err UniquenessViolation).
  { intros d p Hid.
    destruct (handle_new_user_unfold e' (set_profiles d (profiles d ++ [p])) u')
      as (p' & _ & _ & _ & _ & _ & ->).
    cbn [profiles set_profiles].
    rewrite fresh_false; [reflexivity|].
    rewrite Hsame, <- Hid. apply elem_of_map_2, elem_of_app. right. left. }
  assert (Hstep : forall d,
            executed (fun d => handle_new_user e' d u')
              (executed (fun d => handle_new_user e d u) d)
            = executed (fun d => handle_new_user e d u) d).
  { intros d. unfold executed.
    destruct (handle_new_user_unfold e d u) as (p & Hid & _ & _ & _ & _ & Hrun).
    destruct (handle_new_user_unfold e' d u') as (p' & _ & _ & _ & _ & _ & Hrun').
    rewrite Hrun.
    destruct (fresh (Users.id u) (List.map Profiles.id (profiles d))) eqn:Hf;
      cbn [bind require commit].
    - destruct (references (Users.id u) (List.map Users.id (auth_users d))) eqn:Hr;
        cbn [bind require commit].
      + by rewrite (Hagain d p Hid).
      + rewrite Hrun', Hsame, Hf. cbn [bind require commit]. by rewrite Hr.
    - by rewrite Hrun', Hsame, Hf. }
  split_and!.
  - apply Hstep.
  - unfold executed at 2 3. unfold create_auth_user at 2 3.
    destruct (fresh (Users.id u) (List.map Users.id (auth_users db))) eqn:Hf;
      cbn [bind require commit].
    + destruct (handle_new_user e (set_auth_users db (auth_users db ++ [u])) u)
        as [db1|err] eqn:Hfirst; cbn [commit].
      * destruct (handle_new_user_unfold e (set_auth_users db (auth_users db ++ [u])) u)
          as (p & _ & _ & _ & _ & _ & Hrun).
        rewrite Hrun in Hfirst. open_statement Hfirst. injection Hfirst as <-.
        unfold executed, create_auth_user. cbn [auth_users set_profiles set_auth_users].
        rewrite fresh_false; [reflexivity|].
        rewrite Hsame, List.map_app. apply elem_of_app. right. left.
      * unfold executed, create_auth_user. rewrite Hsame, Hf. cbn [bind require].
        destruct (handle_new_user_unfold e (set_auth_users db (auth_users db ++ [u])) u)
          as (p & _ & _ & _ & _ & _ & Hrun).
        destruct (handle_new_user_unfold e' (set_auth_users db (auth_users db ++ [u'])) u')
          as (p' & _ & _ & _ & _ & _ & Hrun').
        rewrite Hrun in Hfirst. rewrite Hrun'. revert Hfirst.
        cbn [profiles auth_users set_auth_users]. rewrite Hsame.
        destruct (fresh (Users.id u) (List.map Profiles.id (profiles db)));
          cbn [bind require commit]; [|done].
        rewrite !(proj2 (references_true _ _)); [done| |].
        all: rewrite List.map_app; apply elem_of_app; right; simpl; rewrite ?Hsame; left.
    + unfold executed, create_auth_user. by rewrite Hsame, Hf.
  - intros db1 Hfirst.
    destruct (handle_new_user_unfold e db u) as (p & Hid & _ & _ & _ & _ & Hrun).
    rewrite Hrun in Hfirst. open_statement Hfirst. injection Hfirst as <-.
    apply fresh_true in Hcheck.
    assert (Hone : profiles_of (Users.id u) (set_profiles db (profiles db ++ [p])) = 1).
    { unfold profiles_of. cbn [profiles set_profiles]. by apply profiles_of_snoc. }
    unfold executed. rewrite (Hagain db p Hid). cbn [commit]. done.
Qed.

Lemma C8_handle_new_user_is_idempotent_witness :
  Users.id (Users.Row alice None) = Users.id alice_signup /\
  executed (fun d => handle_new_user (Env 10 0) d alice_signup) alice_registered
    = set_profiles alice_registered [alice_profile] /\
  executed (fun d => handle_new_user (Env 99 0) d (Users.Row alice None))
    (executed (fun d => handle_new_user (Env 10 0) d alice_signup) alice_registered)
    = executed (fun d => handle_new_user (Env 10 0) d alice_signup) alice_registered /\
  profiles_of alice (set_profiles alice_registered [alice_profile]) = 1.
Proof.
  destruct (C8_handle_new_user_is_idempotent (Env 10 0) (Env 99 0) alice_registered
              alice_signup (Users.Row alice None) eq_refl) as (Htwice & _ & Hone).
  assert (Hfirst : handle_new_user (Env 10 0) alice_registered alice_signup
                   = Ok (set_profiles alice_registered [alice_profile]))
    by (vm_compute; reflexivity).
  split; [reflexivity|]. split; [unfold executed; by rewrite Hfirst|].
  split; [exact Htwice|]. exact (proj1 (Hone _ Hfirst)).
Defined.

(** ** Bookmarks *)

(** C10: user_saved_items.item_id references nothing. Alice's insert of a
    bookmark whose item_id is the id of no college, no scholarship and no
    career path goes through, and the row is in the table. *)
Theorem C10_saved_item_needs_no_referent :
  exists (s : session) (e : env) (db db' : DB) (i : UserSavedItems.Insert.t),
    auth_uid s = Some (UserSavedItems.Insert.user_id i) /\
    current_role s = authenticated /\
    (UserSavedItems.Insert.item_id i ∉ List.map Colleges.id (colleges db)) /\
    (UserSavedItems.Insert.item_id i ∉ List.map Scholarships.id (scholarships db)) /\
    (UserSavedItems.Insert.item_id i ∉ List.map CareerPaths.id (career_paths db)) /\
    insert_user_saved_items s e db i = Ok db' /\
    UserSavedItems.defaults e i ∈ user_saved_items db'.
Proof.
  exists as_alice, (Env 90 5003), busy,
    (commit busy (insert_user_saved_items as_alice (Env 90 5003) busy dangling_item)),
    dangling_item.
  split; [reflexivity|]. split; [reflexivity|].
  split; [apply (bool_decide_unpack _); vm_compute; exact I|].
  split; [apply (bool_decide_unpack _); vm_compute; exact I|].
  split; [apply (bool_decide_unpack _); vm_compute; exact I|].
  split; [vm_compute; reflexivity|].
  vm_compute. do 2 right. left.
Qed.

(** ** The cascade from conversations to messages *)

Lemma elem_of_apply_update_untouched {R} (target : R -> bool) (new : R -> R) t r :
  r ∈ t -> target r = false -> r ∈ apply_update target new t.
Proof.
  intros Hr Ht. unfold apply_update. apply elem_of_map. exists r.
  by rewrite Ht.
Qed.

(** The check of update_chat_conversations for the foreign key of
    chat_messages keeps every message with a parent. *)
Lemma refers_parents_updated (msgs : list ChatMessages.row)
    (convs : list ChatConversations.row) target new :
  refers ChatMessages.conversation_id msgs (List.map ChatConversations.id convs) ->
  forallb (fun r => negb (target r) ||
             negb (references (ChatConversations.id r)
                     (List.map ChatMessages.conversation_id msgs)) ||
             references (ChatConversations.id r)
               (List.map ChatConversations.id (apply_update target new convs)))
          convs = true ->
  refers ChatMessages.conversation_id msgs
    (List.map ChatConversations.id (apply_update target new convs)).
Proof.
  intros Hfk Hchk. rewrite forallb_elem in Hchk.
  unfold refers in *. rewrite list.Forall_forall in *. intros m Hm.
  pose proof (Hfk m Hm) as Hp. apply elem_of_map in Hp as (c & Hid & Hc).
  specialize (Hchk c Hc).
  destruct (target c) eqn:Ht; simpl in Hchk.
  - rewrite Hid.
    assert (Href : references (ChatConversations.id c)
                     (List.map ChatMessages.conversation_id msgs) = true).
    { apply references_true. rewrite <- Hid. by apply elem_of_map_2. }
    rewrite Href in Hchk. simpl in Hchk. by apply references_true in Hchk.
  - rewrite Hid. apply elem_of_map_2. by apply elem_of_apply_update_untouched.
Qed.

Ltac frame_fields :=
  cbn [auth_users profiles colleges scholarships career_paths chat_conversations
       chat_messages user_progress user_saved_items
       set_auth_users set_profiles set_colleges set_scholarships set_career_paths
       set_chat_conversations set_chat_messages set_user_progress set_user_saved_items].

(** Every statement keeps the foreign key of chat_messages. *)
Lemma exec_no_orphan_messages (s : session) (e : env) (o : op) (db db' : DB) :
  no_orphan_messages db -> exec s e o db = Ok db' -> no_orphan_messages db'.
Proof.
  intros Hinv H. unfold no_orphan_messages in *.
  destruct o; cbn [exec] in H;
    unfold create_auth_user, handle_new_user, insert_profiles, update_profiles,
      delete_profiles, insert_colleges, update_colleges, delete_colleges,
      insert_scholarships, update_scholarships, delete_scholarships,
      insert_career_paths, update_career_paths, delete_career_paths,
      insert_chat_conversations, update_chat_conversations, delete_chat_conversations,
      insert_chat_messages, update_chat_messages, delete_chat_messages,
      insert_user_progress, update_user_progress, delete_user_progress,
      insert_user_saved_items, update_user_saved_items, delete_user_saved_items,
      delete_auth_users in H;
    open_statement H; injection H as <-; frame_fields; try exact Hinv.
  - (* DELETE FROM auth.users *)
    unfold cascade_chat_messages. by apply refers_cascade.
  - (* INSERT INTO chat_conversations *)
    eapply refers_weaken; [exact Hinv|]. intros k Hk.
    rewrite List.map_app. apply elem_of_app. by left.
  - (* UPDATE chat_conversations *)
    by apply refers_parents_updated.
  - (* DELETE FROM chat_conversations *)
    unfold cascade_chat_messages. by apply refers_cascade.
  - (* INSERT INTO chat_messages *)
    by apply refers_snoc.
  - (* UPDATE chat_messages *)
    by apply refers_apply_update.
  - (* DELETE FROM chat_messages *)
    by apply refers_filter.
Qed.

Lemma run_no_orphan_messages (stmts : list (session * env * op)) (db : DB) :
  no_orphan_messages db -> no_orphan_messages (run stmts db).
Proof.
  revert db. induction stmts as [|[[s e] o] rest IH]; intros db Hinv; simpl; [done|].
  apply IH. destruct (exec s e o db) as [db'|err] eqn:Hex; simpl; [|done].
  by eapply exec_no_orphan_messages.
Qed.

Lemma insert_values_no_orphan_messages {I} (ins : session -> env -> DB -> I -> result DB)
    (now : timestamptz) (uuid : nat -> UUID) (rows : list I) :
  (forall s e db i db', no_orphan_messages db -> ins s e db i = Ok db' ->
                        no_orphan_messages db') ->
  forall n db db', no_orphan_messages db ->
                   insert_values ins now uuid n rows db = Ok db' ->
                   no_orphan_messages db'.
Proof.
  intros Hins. induction rows as [|i rest IH]; intros n db db' Hinv H; simpl in H.
  - by injection H as <-.
  - destruct (ins migrator (Env now (uuid n)) db i) as [db1|] eqn:H1; simpl in H; [|done].
    eapply IH; [|exact H]. by eapply Hins.
Qed.

Lemma migration_no_orphan_messages (now : timestamptz) (uuid : nat -> UUID) (db0 : DB) :
  migration now uuid = Ok db0 -> no_orphan_messages db0.
Proof.
  unfold migration. intros H.
  destruct (insert_values insert_colleges now uuid 0 sample_colleges empty_db)
    as [db1|] eqn:H1; cbn [bind] in H; [|done].
  destruct (insert_values insert_scholarships now uuid 5 sample_scholarships db1)
    as [db2|] eqn:H2; cbn [bind] in H; [|done].
  eapply insert_values_no_orphan_messages; [| |exact H].
  { intros s e db i db'. apply (exec_no_orphan_messages s e (InsertCareerPaths i)). }
  eapply insert_values_no_orphan_messages; [| |exact H2].
  { intros s e db i db'. apply (exec_no_orphan_messages s e (InsertScholarships i)). }
  eapply insert_values_no_orphan_messages; [| |exact H1].
  { intros s e db i db'. apply (exec_no_orphan_messages s e (InsertColleges i)). }
  constructor.
Qed.

(** C9: a DELETE on chat_conversations removes the conversations it
    targets and, with them, exactly the messages whose conversation_id is
    the id of one of them; and every statement keeps the foreign key, so
    after any run of statements, from a state without orphans and so from
    the state the migration leaves, every message references a conversation
    that exists. *)
Theorem C9_no_orphaned_messages :
  (forall s db cond db',
     delete_chat_conversations s db cond = Ok db' ->
     (forall v, v ∈ chat_conversations db' <->
                v ∈ chat_conversations db /\
                targets chat_conversations_policies DELETE s db cond v = false) /\
     (forall m, m ∈ chat_messages db' <->
                m ∈ chat_messages db /\
                ~ exists v, v ∈ chat_conversations db /\
                            targets chat_conversations_policies DELETE s db cond v = true /\
                            ChatConversations.id v = ChatMessages.conversation_id m)) /\
  (forall stmts db m,
     no_orphan_messages db ->
     m ∈ chat_messages (run stmts db) ->
     exists v, v ∈ chat_conversations (run stmts db) /\
               ChatConversations.id v = ChatMessages.conversation_id m) /\
  (forall now uuid db0 stmts,
     migration now uuid = Ok db0 -> no_orphan_messages (run stmts db0)).
Proof.
  split_and!.
  - intros s db cond db' H. unfold delete_chat_conversations in H. injection H as <-.
    frame_fields. split.
    + intros v. unfold remaining. rewrite elem_of_filter_bool, negb_true_iff. tauto.
    + intros m. unfold cascade_chat_messages.
      rewrite elem_of_filter_bool, negb_true_iff. unfold references.
      rewrite bool_decide_eq_false, elem_of_map.
      split.
      * intros [H1 H2]. split; [done|].
        intros (v & Hv & Ht & Hid). apply H1. exists v. split; [done|].
        by apply elem_of_filter_bool.
      * intros [H1 H2]. split; [|done].
        intros (v & Hid & Hv). apply elem_of_filter_bool in Hv as [Ht Hv].
        apply H2. exists v. done.
  - intros stmts db m Hinv Hm.
    pose proof (run_no_orphan_messages stmts db Hinv) as Hrun.
    pose proof (refers_elem _ _ _ _ Hrun Hm) as Hk.
    apply elem_of_map in Hk as (v & Hid & Hv). eauto.
  - intros now uuid db0 stmts H.
    by apply run_no_orphan_messages, (migration_no_orphan_messages now uuid).
Qed.

Lemma C9_no_orphaned_messages_witness :
  no_orphan_messages busy /\
  List.map ChatMessages.id
    (chat_messages (commit busy (delete_chat_conversations as_alice busy (fun _ => true))))
    = [3002%N] /\
  forall m,
    m ∈ chat_messages (run [(as_alice, Env 95 0, DeleteChatConversations (fun _ => true))] busy) ->
    exists v,
      v ∈ chat_conversations
            (run [(as_alice, Env 95 0, DeleteChatConversations (fun _ => true))] busy) /\
      ChatConversations.id v = ChatMessages.conversation_id m.
Proof.
  assert (Hbusy : no_orphan_messages busy) by (vm_compute; repeat constructor).
  split; [exact Hbusy|]. split; [vm_compute; reflexivity|].
  intros m.
  apply (proj1 (proj2 C9_no_orphaned_messages)
           [(as_alice, Env 95 0, DeleteChatConversations (fun _ => true))] busy m Hbusy).
Defined.

(** ** Isolation between principals *)

Section Isolation.
Context {R : Type}.
Variables (pols : list (policy R)) (own : R -> UUID).
Variables (s : session) (db : DB) (A B : UUID).
Hypothesis under_rls : bypasses_rls s = false.
Hypothesis uid_A : auth_uid s = Some A.
Hypothesis A_not_B : A <> B.

Lemma visible_only_own (c : command) (r : R) :
  (rls_using pols s db c r = true -> auth_uid s = Some (own r)) ->
  visible pols s db c r = true -> bool_decide (own r = B) = false.
Proof.
  intros Hpol Hvis. unfold visible in Hvis. rewrite under_rls in Hvis. simpl in Hvis.
  apply Hpol in Hvis. apply bool_decide_eq_false. congruence.
Qed.

Lemma admissible_only_own (c : command) (r : R) :
  (rls_check pols s db c r = true -> auth_uid s = Some (own r)) ->
  admissible pols s db c r = true -> bool_decide (own r = B) = false.
Proof.
  intros Hpol Hadm. unfold admissible in Hadm. rewrite under_rls in Hadm. simpl in Hadm.
  apply Hpol in Hadm. apply bool_decide_eq_false. congruence.
Qed.

(** SELECT returns none of B's rows. *)
Lemma foreign_rows_not_selected (t : list R) (r : R) :
  (forall r, rls_using pols s db SELECT r = true -> auth_uid s = Some (own r)) ->
  r ∈ List.filter (fun r => bool_decide (own r = B)) t -> r ∉ select_rows pols s db t.
Proof.
  intros Hpol Hr Hsel. apply elem_of_filter_bool in Hr as [HB _].
  apply elem_of_filter_bool in Hsel as [Hvis _].
  apply (visible_only_own SELECT r (Hpol r)) in Hvis. congruence.
Qed.

(** UPDATE leaves B's rows as they are, and makes no row B's. *)
Lemma foreign_rows_kept_by_update (cond : R -> bool) (new : R -> R) (t : list R) :
  (forall r, rls_using pols s db UPDATE r = true -> auth_uid s = Some (own r)) ->
  (forall r, rls_check pols s db UPDATE r = true -> auth_uid s = Some (own r)) ->
  update_admissible pols s db (targets pols UPDATE s db cond) new t = true ->
  List.filter (fun r => bool_decide (own r = B))
    (apply_update (targets pols UPDATE s db cond) new t)
  = List.filter (fun r => bool_decide (own r = B)) t.
Proof.
  intros Husing Hchk Hadm. apply filter_apply_update. intros r Hr Ht.
  unfold update_admissible in Hadm. rewrite forallb_elem in Hadm.
  specialize (Hadm r Hr). rewrite Ht in Hadm. simpl in Hadm.
  unfold targets in Ht. apply andb_true_iff in Ht as [_ Hvis]. split.
  - by apply (visible_only_own UPDATE r (Husing r)).
  - by apply (admissible_only_own UPDATE (new r) (Hchk (new r))).
Qed.

(** DELETE leaves B's rows as they are. *)
Lemma foreign_rows_kept_by_delete (cond : R -> bool) (t : list R) :
  (forall r, rls_using pols s db DELETE r = true -> auth_uid s = Some (own r)) ->
  List.filter (fun r => bool_decide (own r = B)) (remaining (targets pols DELETE s db cond) t)
  = List.filter (fun r => bool_decide (own r = B)) t.
Proof.
  intros Husing. apply filter_remaining. intros r Hr HB.
  destruct (targets pols DELETE s db cond r) eqn:Ht; [|done].
  unfold targets in Ht. apply andb_true_iff in Ht as [_ Hvis].
  apply (visible_only_own DELETE r (Husing r)) in Hvis. congruence.
Qed.
End Isolation.

Lemma using_profiles_own s db c r :
  rls_using profiles_policies s db c r = true -> auth_uid s = Some (Profiles.id r).
Proof. rewrite using_profiles. intros H. apply andb_true_iff in H as [_ H]. by apply requester_is_true. Qed.

Lemma check_profiles_own s db c r :
  rls_check profiles_policies s db c r = true -> auth_uid s = Some (Profiles.id r).
Proof. rewrite check_profiles. intros H. apply andb_true_iff in H as [_ H]. by apply requester_is_true. Qed.

Lemma using_chat_conversations_own s db c r :
  rls_using chat_conversations_policies s db c r = true ->
  auth_uid s = Some (ChatConversations.user_id r).
Proof. rewrite using_chat_conversations. intros H. apply andb_true_iff in H as [_ H]. by apply requester_is_true. Qed.

Lemma check_chat_conversations_own s db c r :
  rls_check chat_conversations_policies s db c r = true ->
  auth_uid s = Some (ChatConversations.user_id r).
Proof. rewrite check_chat_conversations. apply requester_is_true. Qed.

Lemma using_user_progress_own s db c r :
  rls_using user_progress_policies s db c r = true ->
  auth_uid s = Some (UserProgress.user_id r).
Proof. rewrite using_user_progress. intros H. apply andb_true_iff in H as [_ H]. by apply requester_is_true. Qed.

Lemma check_user_progress_own s db c r :
  rls_check user_progress_policies s db c r = true ->
  auth_uid s = Some (UserProgress.user_id r).
Proof. rewrite check_user_progress. intros H. apply andb_true_iff in H as [_ H]. by apply requester_is_true. Qed.

Lemma using_user_saved_items_own s db c r :
  rls_using user_saved_items_policies s db c r = true ->
  auth_uid s = Some (UserSavedItems.user_id r).
Proof. rewrite using_user_saved_items. intros H. apply andb_true_iff in H as [_ H]. by apply requester_is_true. Qed.

Lemma check_user_saved_items_own s db c r :
  rls_check user_saved_items_policies s db c r = true ->
  auth_uid s = Some (UserSavedItems.user_id r).
Proof. rewrite check_user_saved_items. intros H. apply andb_true_iff in H as [_ H]. by apply requester_is_true. Qed.

(** Under row security no UPDATE and no DELETE reaches a message. *)
Lemma no_target_in_chat_messages s db c cond m :
  bypasses_rls s = false -> c = UPDATE \/ c = DELETE ->
  targets chat_messages_policies c s db cond m = false.
Proof.
  intros Hs Hc. unfold targets, visible. rewrite Hs, using_chat_messages.
  destruct Hc as [-> | ->]; simpl; apply andb_false_r.
Qed.

(** Whether a message belongs to [u] depends on the conversations of [u]
    only. *)
Lemma parent_owned_by_own_conversations db db' u m :
  List.filter (fun v => bool_decide (ChatConversations.user_id v = u)) (chat_conversations db')
  = List.filter (fun v => bool_decide (ChatConversations.user_id v = u)) (chat_conversations db) ->
  parent_owned_by db' u m = parent_owned_by db u m.
Proof.
  intros Heq. unfold parent_owned_by. apply eq_true_iff_eq. rewrite !existsb_elem.
  split; intros (v & Hv & Hp); exists v; (split; [|done]);
    pose proof Hp as Hp'; apply andb_true_iff in Hp' as [_ Hu].
  - assert (Hin : v ∈ List.filter (fun v => bool_decide (ChatConversations.user_id v = u))
                        (chat_conversations db')) by (by apply elem_of_filter_bool).
    rewrite Heq in Hin. by apply elem_of_filter_bool in Hin as [_ Hin].
  - assert (Hin : v ∈ List.filter (fun v => bool_decide (ChatConversations.user_id v = u))
                        (chat_conversations db)) by (by apply elem_of_filter_bool).
    rewrite <- Heq in Hin. by apply elem_of_filter_bool in Hin as [_ Hin].
Qed.

(** The messages of B's conversations are not cascaded away when A deletes
    conversations: ids are unique, so a conversation A may delete is not
    the parent of a message of B. *)
Lemma foreign_messages_survive_cascade s db A B cond :
  bypasses_rls s = false -> auth_uid s = Some A -> A <> B ->
  NoDup (List.map ChatConversations.id (chat_conversations db)) ->
  List.filter (parent_owned_by db B)
    (cascade_chat_messages
       (List.filter (targets chat_conversations_policies DELETE s db cond)
          (chat_conversations db))
       (chat_messages db))
  = List.filter (parent_owned_by db B) (chat_messages db).
Proof.
  intros Hs HA HAB Hnd. unfold cascade_chat_messages.
  rewrite filter_filter_bool. apply filter_ext_elem. intros m Hm.
  destruct (parent_owned_by db B m) eqn:HB; [|apply andb_false_r].
  rewrite andb_true_r. apply negb_true_iff. unfold references.
  apply bool_decide_eq_false. intros Hin.
  apply elem_of_map in Hin as (v & Hid & Hv).
  apply elem_of_filter_bool in Hv as [Ht Hv].
  unfold targets in Ht. apply andb_true_iff in Ht as [_ Hvis].
  unfold visible in Hvis. rewrite Hs in Hvis. simpl in Hvis.
  apply using_chat_conversations_own in Hvis.
  unfold parent_owned_by in HB. apply existsb_elem in HB as (w & Hw & Hp).
  apply andb_true_iff in Hp as [Hwid Hwu].
  apply bool_decide_eq_true in Hwid, Hwu.
  assert (v = w) by (eapply NoDup_map_inj; eauto; congruence).
  subst w. congruence.
Qed.

Lemma parent_unique (db : DB) (A B : UUID) (m : ChatMessages.row) :
  NoDup (List.map ChatConversations.id (chat_conversations db)) ->
  parent_owned_by db A m = true -> parent_owned_by db B m = true -> A = B.
Proof.
  unfold parent_owned_by. rewrite !existsb_elem.
  intros Hnd (v & Hv & Hpv) (w & Hw & Hpw).
  apply andb_true_iff in Hpv as [Hvid Hvu]. apply andb_true_iff in Hpw as [Hwid Hwu].
  apply bool_decide_eq_true in Hvid, Hvu, Hwid, Hwu.
  assert (v = w) by (eapply NoDup_map_inj; eauto; congruence).
  subst w. congruence.
Qed.

(** C2: a session under row security whose principal is A, and any other
    principal B. No SELECT of the session returns a row of B in profiles,
    chat_conversations, chat_messages, user_progress or user_saved_items,
    and after any UPDATE or DELETE of the session on these tables the rows
    of B are the rows of B from before, none modified, none removed. *)
Theorem C2_no_access_to_foreign_rows (s : session) (A B : UUID) (db : DB) :
  bypasses_rls s = false ->
  auth_uid s = Some A ->
  A <> B ->
  NoDup (List.map ChatConversations.id (chat_conversations db)) ->
  (forall r, r ∈ own_profiles (rows_of B db) -> r ∉ select_profiles s db) /\
  (forall r, r ∈ own_chat_conversations (rows_of B db) ->
             r ∉ select_chat_conversations s db) /\
  (forall r, r ∈ own_chat_messages (rows_of B db) -> r ∉ select_chat_messages s db) /\
  (forall r, r ∈ own_user_progress (rows_of B db) -> r ∉ select_user_progress s db) /\
  (forall r, r ∈ own_user_saved_items (rows_of B db) ->
             r ∉ select_user_saved_items s db) /\
  (forall e o db',
     updates_or_deletes_user_rows o = true ->
     exec s e o db = Ok db' ->
     rows_of B db' = rows_of B db).
Proof.
  intros Hs HA HAB Hnd. split_and!.
  - intros r. apply (foreign_rows_not_selected _ _ s db A B Hs HA HAB).
    intros r'. apply using_profiles_own.
  - intros r. apply (foreign_rows_not_selected _ _ s db A B Hs HA HAB).
    intros r'. apply using_chat_conversations_own.
  - intros m Hm Hsel. simpl in Hm.
    apply elem_of_filter_bool in Hm as [HB _].
    apply elem_of_filter_bool in Hsel as [Hvis _].
    unfold visible in Hvis. rewrite Hs, using_chat_messages in Hvis. simpl in Hvis.
    unfold requester_owns_parent in Hvis. rewrite HA in Hvis.
    apply HAB. by eapply parent_unique.
  - intros r. apply (foreign_rows_not_selected _ _ s db A B Hs HA HAB).
    intros r'. apply using_user_progress_own.
  - intros r. apply (foreign_rows_not_selected _ _ s db A B Hs HA HAB).
    intros r'. apply using_user_saved_items_own.
  - intros e o db' Ho H.
    destruct o; try discriminate Ho; cbn [exec] in H;
      unfold update_profiles, delete_profiles, update_chat_conversations,
        delete_chat_conversations, update_chat_messages, delete_chat_messages,
        update_user_progress, delete_user_progress, update_user_saved_items,
        delete_user_saved_items in H;
      open_statement H; injection H as <-; unfold rows_of; frame_fields.
    + (* UPDATE profiles *)
      f_equal. apply (foreign_rows_kept_by_update _ _ s db A B Hs HA HAB); [| |done].
      * intros r. apply using_profiles_own.
      * intros r. apply check_profiles_own.
    + (* DELETE FROM profiles *)
      f_equal. apply (foreign_rows_kept_by_delete _ _ s db A B Hs HA HAB).
      intros r. apply using_profiles_own.
    + (* UPDATE chat_conversations *)
      assert (Hconv : forall new,
                update_admissible chat_conversations_policies s db
                  (targets chat_conversations_policies UPDATE s db cond) new
                  (chat_conversations db) = true ->
                List.filter (fun r => bool_decide (ChatConversations.user_id r = B))
                  (apply_update (targets chat_conversations_policies UPDATE s db cond) new
                     (chat_conversations db))
                = List.filter (fun r => bool_decide (ChatConversations.user_id r = B))
                    (chat_conversations db)).
      { intros new Hadm.
        apply (foreign_rows_kept_by_update _ _ s db A B Hs HA HAB); [| |done].
        - intros r. apply using_chat_conversations_own.
        - intros r. apply check_chat_conversations_own. }
      f_equal; [by apply Hconv|].
      apply filter_ext_elem. intros m _.
      apply parent_owned_by_own_conversations. frame_fields. by apply Hconv.
    + (* DELETE FROM chat_conversations *)
      assert (Hconv : List.filter (fun r => bool_decide (ChatConversations.user_id r = B))
                        (remaining (targets chat_conversations_policies DELETE s db cond)
                           (chat_conversations db))
                      = List.filter (fun r => bool_decide (ChatConversations.user_id r = B))
                          (chat_conversations db)).
      { apply (foreign_rows_kept_by_delete _ _ s db A B Hs HA HAB).
        intros r. apply using_chat_conversations_own. }
      f_equal; [exact Hconv|].
      rewrite <- (foreign_messages_survive_cascade s db A B cond Hs HA HAB Hnd).
      apply filter_ext_elem. intros m _.
      apply parent_owned_by_own_conversations. frame_fields. exact Hconv.
    + (* UPDATE chat_messages *)
      rewrite apply_update_none; [reflexivity|].
      intros m _. apply no_target_in_chat_messages; auto.
    + (* DELETE FROM chat_messages *)
      rewrite remaining_none; [reflexivity|].
      intros m _. apply no_target_in_chat_messages; auto.
    + (* UPDATE user_progress *)
      f_equal. apply (foreign_rows_kept_by_update _ _ s db A B Hs HA HAB); [| |done].
      * intros r. apply using_user_progress_own.
      * intros r. apply check_user_progress_own.
    + (* DELETE FROM user_progress *)
      f_equal. apply (foreign_rows_kept_by_delete _ _ s db A B Hs HA HAB).
      intros r. apply using_user_progress_own.
    + (* UPDATE user_saved_items *)
      f_equal. apply (foreign_rows_kept_by_update _ _ s db A B Hs HA HAB); [| |done].
      * intros r. apply using_user_saved_items_own.
      * intros r. apply check_user_saved_items_own.
    + (* DELETE FROM user_saved_items *)
      f_equal. apply (foreign_rows_kept_by_delete _ _ s db A B Hs HA HAB).
      intros r. apply using_user_saved_items_own.
Qed.

Lemma C2_no_access_to_foreign_rows_witness :
  bypasses_rls as_alice = false /\
  auth_uid as_alice = Some alice /\
  alice <> bob /\
  List.map ChatMessages.id (own_chat_messages (rows_of bob busy)) = [3002%N] /\
  (forall r, r ∈ own_chat_messages (rows_of bob busy) -> r ∉ select_chat_messages as_alice busy) /\
  (forall e o db',
     updates_or_deletes_user_rows o = true ->
     exec as_alice e o busy = Ok db' ->
     rows_of bob db' = rows_of bob busy).
Proof.
  assert (Hnd : NoDup (List.map ChatConversations.id (chat_conversations busy)))
    by (apply (bool_decide_unpack _); vm_compute; exact I).
  assert (Hne : alice <> bob) by discriminate.
  split; [reflexivity|]. split; [reflexivity|]. split; [exact Hne|].
  split; [vm_compute; reflexivity|].
  split;
    apply (C2_no_access_to_foreign_rows as_alice alice bob busy eq_refl eq_refl Hne Hnd).
Defined.

(** ** Every statement keeps the constraints of the schema *)

Lemma refers_more_keys {A K} (g : A -> K) (t : list A) (keys : list K) (k : K) :
  refers g t keys -> refers g t (keys ++ [k]).
Proof. intros H. eapply refers_weaken; [exact H|]. intros x Hx. apply elem_of_app. by left. Qed.

Ltac keep_constraint :=
  unfold cascade_chat_messages, remaining;
  rewrite ?List.map_app;
  first
    [ assumption
    | apply NoDup_map_filter; assumption
    | rewrite <- List.map_app; apply NoDup_map_snoc; [assumption|by apply fresh_true]
    | by apply distinct_true
    | apply refers_more_keys; assumption
    | rewrite <- ?List.map_app; apply refers_snoc; [assumption|assumption]
    | apply refers_snoc;
        [eapply refers_weaken; [eassumption|intros ? ?; apply elem_of_app; by left]|
         apply references_true; apply elem_of_app; right; left]
    | apply refers_apply_update; assumption
    | apply refers_filter; assumption
    | apply refers_parents_updated; assumption
    | apply (refers_cascade _ _ _ _ _); assumption
    | rewrite <- ?List.map_app;
      eapply refers_weaken; [eassumption|];
      intros ? ?; rewrite List.map_app; apply elem_of_app; by left ].

Theorem exec_consistent (s : session) (e : env) (o : op) (db db' : DB) :
  consistent db -> exec s e o db = Ok db' -> consistent db'.
Proof.
  intros [] H.
  destruct o; cbn [exec] in H;
    unfold create_auth_user, handle_new_user, insert_profiles, update_profiles,
      delete_profiles, insert_colleges, update_colleges, delete_colleges,
      insert_scholarships, update_scholarships, delete_scholarships,
      insert_career_paths, update_career_paths, delete_career_paths,
      insert_chat_conversations, update_chat_conversations, delete_chat_conversations,
      insert_chat_messages, update_chat_messages, delete_chat_messages,
      insert_user_progress, update_user_progress, delete_user_progress,
      insert_user_saved_items, update_user_saved_items, delete_user_saved_items,
      delete_auth_users in H;
    open_statement H; injection H as <-;
    constructor; frame_fields; keep_constraint.
Qed.

Lemma consistent_empty_db : consistent empty_db.
Proof. constructor; simpl; constructor. Qed.

Lemma run_consistent (stmts : list (session * env * op)) (db : DB) :
  consistent db -> consistent (run stmts db).
Proof.
  revert db. induction stmts as [|[[s e] o] rest IH]; intros db Hinv; simpl; [done|].
  apply IH. destruct (exec s e o db) as [db'|err] eqn:Hex; simpl; [|done].
  by eapply exec_consistent.
Qed.

Lemma insert_values_consistent {I} (ins : session -> env -> DB -> I -> result DB)
    (now : timestamptz) (uuid : nat -> UUID) (rows : list I) :
  (forall s e db i db', consistent db -> ins s e db i = Ok db' -> consistent db') ->
  forall n db db', consistent db -> insert_values ins now uuid n rows db = Ok db' ->
                   consistent db'.
Proof.
  intros Hins. induction rows as [|i rest IH]; intros n db db' Hinv H; simpl in H.
  - by injection H as <-.
  - destruct (ins migrator (Env now (uuid n)) db i) as [db1|] eqn:H1; simpl in H; [|done].
    eapply IH; [|exact H]. by eapply Hins.
Qed.

(** The state the migration leaves satisfies the constraints, and so does
    every state a run of statements reaches from it. *)
Theorem reachable_consistent (now : timestamptz) (uuid : nat -> UUID) (db0 : DB)
    (stmts : list (session * env * op)) :
  migration now uuid = Ok db0 -> consistent (run stmts db0).
Proof.
  intros H. apply run_consistent. unfold migration in H.
  destruct (insert_values insert_colleges now uuid 0 sample_colleges empty_db)
    as [db1|] eqn:H1; cbn [bind] in H; [|done].
  destruct (insert_values insert_scholarships now uuid 5 sample_scholarships db1)
    as [db2|] eqn:H2; cbn [bind] in H; [|done].
  eapply insert_values_consistent; [| |exact H].
  { intros s e db i db'. apply (exec_consistent s e (InsertCareerPaths i)). }
  eapply insert_values_consistent; [| |exact H2].
  { intros s e db i db'. apply (exec_consistent s e (InsertScholarships i)). }
  eapply insert_values_consistent; [| |exact H1].
  { intros s e db i db'. apply (exec_consistent s e (InsertColleges i)). }
  apply consistent_empty_db.
Qed.

(** The migration goes through when the ids drawn are distinct. *)
Example migration_goes_through :
  exists db0, migration 0 N.of_nat = Ok db0.
Proof. eexists. vm_compute. reflexivity. Qed.

Example busy_is_consistent : consistent busy.
Proof.
  unfold busy, two_users. apply run_consistent, run_consistent.
  destruct (migration 0 N.of_nat) as [db0|err] eqn:H; cbn [commit].
  - apply (reachable_consistent 0 N.of_nat db0 [] H).
  - apply consistent_empty_db.
Qed.

(** * Further properties of the schema *)

(** ** Statements that reach no row *)

Lemma set_same (db : DB) :
  set_profiles db (profiles db) = db /\
  set_colleges db (colleges db) = db /\
  set_scholarships db (scholarships db) = db /\
  set_career_paths db (career_paths db) = db /\
  set_chat_conversations db (chat_conversations db) = db /\
  set_chat_messages db (chat_messages db) = db /\
  set_user_progress db (user_progress db) = db /\
  set_user_saved_items db (user_saved_items db) = db.
Proof. by destruct db. Qed.

Lemma filter_nothing {A} (p : A -> bool) (l : list A) :
  (forall x, x ∈ l -> p x = false) -> List.filter p l = [].
Proof.
  induction l as [|x l IH]; intros H; simpl; [done|].
  rewrite (H x) by left. apply IH. intros y Hy. apply H. by right.
Qed.

Lemma filter_everything {A} (p : A -> bool) (l : list A) :
  (forall x, x ∈ l -> p x = true) -> List.filter p l = l.
Proof.
  induction l as [|x l IH]; intros H; simpl; [done|].
  rewrite (H x) by left. f_equal. apply IH. intros y Hy. apply H. by right.
Qed.

Section NoPolicy.
Context {R : Type}.
Variables (pols : list (policy R)) (s : session) (db : DB) (c : command).
Hypothesis under_rls : bypasses_rls s = false.
Hypothesis no_policy : has_policy pols c = false.

Lemma no_policy_applies : List.filter (applies s c) pols = [].
Proof.
  apply filter_nothing. intros p Hp. unfold applies.
  destruct (command_eqb (polcmd p) c) eqn:Hc; [|done]. exfalso.
  unfold has_policy in no_policy. apply not_true_iff_false in no_policy.
  apply no_policy, existsb_elem. eauto.
Qed.

Lemma no_policy_not_visible (r : R) : visible pols s db c r = false.
Proof. unfold visible, rls_using. by rewrite under_rls, no_policy_applies. Qed.

Lemma no_policy_not_admissible (r : R) : admissible pols s db c r = false.
Proof. unfold admissible, rls_check. by rewrite under_rls, no_policy_applies. Qed.

Lemma no_policy_no_target (cond : R -> bool) (r : R) : targets pols c s db cond r = false.
Proof. unfold targets. rewrite no_policy_not_visible. apply andb_false_r. Qed.

Lemma no_policy_remaining (cond : R -> bool) (t : list R) :
  remaining (targets pols c s db cond) t = t.
Proof. apply remaining_none. intros r _. apply no_policy_no_target. Qed.

Lemma no_policy_apply_update (cond : R -> bool) (new : R -> R) (t : list R) :
  apply_update (targets pols c s db cond) new t = t.
Proof. apply apply_update_none. intros r _. apply no_policy_no_target. Qed.
End NoPolicy.

(** A statement that targets no row is admissible. *)
Lemma update_admissible_no_target {R} (pols : list (policy R)) s db target new (t : list R) :
  (forall r, target r = false) -> update_admissible pols s db target new t = true.
Proof.
  intros H. unfold update_admissible. apply forallb_elem. intros r _. by rewrite H.
Qed.

Ltac no_policy_insert Hs :=
  match goal with
  | |- context [admissible ?pols ?s ?db INSERT _] =>
      rewrite (no_policy_not_admissible pols s db INSERT Hs eq_refl)
  end;
  cbn [bind require commit].

Ltac no_policy_delete Hs :=
  match goal with
  | |- context [targets ?pols DELETE ?s ?db _] =>
      rewrite (no_policy_remaining pols s db DELETE Hs eq_refl)
  end;
  cbn [commit].

Ltac no_policy_update Hs :=
  match goal with
  | |- context [targets ?pols UPDATE ?s ?db ?cond] =>
      rewrite (no_policy_apply_update pols s db UPDATE Hs eq_refl);
      rewrite (update_admissible_no_target pols s db (targets pols UPDATE s db cond))
        by (intros; apply (no_policy_no_target pols s db UPDATE Hs eq_refl))
  end;
  cbn [bind require];
  repeat match goal with
         | |- context [require ?b ?e] => destruct b; cbn [bind require commit]
         end;
  try reflexivity; try apply set_same.

(** X1: the reference tables are read-only to every session under row
    security: an INSERT into colleges, scholarships or career_paths is
    aborted with AuthorizationDenied, and an UPDATE or DELETE changes
    nothing. *)
Theorem X1_reference_tables_read_only (s : session) (e : env) (db : DB) (o : op) :
  bypasses_rls s = false ->
  writes_reference_rows o = true ->
  commit db (exec s e o db) = db /\
  (is_insert o = true -> exec s e o db = Err AuthorizationDenied).
Proof.
  intros Hs Ho.
  destruct o; try discriminate Ho; cbn [exec is_insert];
    unfold insert_colleges, update_colleges, delete_colleges, insert_scholarships,
      update_scholarships, delete_scholarships, insert_career_paths, update_career_paths,
      delete_career_paths.
  all: try (no_policy_insert Hs; by split).
  all: try (no_policy_delete Hs; split; [apply set_same|discriminate]).
  all: split; [|discriminate]; no_policy_update Hs.
Qed.

Lemma X1_reference_tables_read_only_witness :
  bypasses_rls as_alice = false /\
  insert_scholarships as_alice (Env 50 9001) busy closed_scholarship = Err AuthorizationDenied /\
  commit busy (update_scholarships as_alice busy (fun _ => true) deactivate) = busy.
Proof.
  destruct (X1_reference_tables_read_only as_alice (Env 50 9001) busy
              (InsertScholarships closed_scholarship) eq_refl eq_refl) as [_ Hins].
  destruct (X1_reference_tables_read_only as_alice (Env 50 9001) busy
              (UpdateScholarships (fun _ => true) deactivate) eq_refl eq_refl) as [Hupd _].
  split; [reflexivity|]. split; [exact (Hins eq_refl)|exact Hupd].
Defined.

(** X2: a session of the role authenticated sees every college and every
    career path; a session of the role anon sees no row of a reference
    table, the policies being TO authenticated. *)
Theorem X2_reference_rows_visibility (s : session) (db : DB) :
  (current_role s = authenticated ->
   select_colleges s db = colleges db /\ select_career_paths s db = career_paths db) /\
  (current_role s = anon ->
   select_colleges s db = [] /\ select_scholarships s db = [] /\
   select_career_paths s db = []).
Proof.
  split; intros Hrole; split_and!;
    unfold select_colleges, select_scholarships, select_career_paths, select_rows;
    first [apply filter_everything | apply filter_nothing]; intros r _;
    unfold visible, bypasses_rls, rls_using, colleges_policies, scholarships_policies,
      career_paths_policies;
    cbn [List.filter applies polcmd polroles command_eqb andb]; rewrite Hrole; reflexivity.
Qed.

Lemma X2_reference_rows_visibility_witness :
  current_role as_alice = authenticated /\ current_role as_guest = anon /\
  select_colleges as_alice busy = colleges busy /\
  select_scholarships as_guest busy = [].
Proof.
  destruct (X2_reference_rows_visibility as_alice busy) as [Hauth _].
  destruct (X2_reference_rows_visibility as_guest busy) as [_ Hanon].
  split; [reflexivity|]. split; [reflexivity|].
  split; [exact (proj1 (Hauth eq_refl))|exact (proj1 (proj2 (Hanon eq_refl)))].
Defined.

Section Unreachable.
Context {R : Type}.
Variables (pols : list (policy R)) (s : session) (db : DB) (c : command).
Hypothesis unreachable : forall r, visible pols s db c r = false.

Lemma unreachable_no_target (cond : R -> bool) (r : R) : targets pols c s db cond r = false.
Proof. unfold targets. rewrite unreachable. apply andb_false_r. Qed.

Lemma unreachable_remaining (cond : R -> bool) (t : list R) :
  remaining (targets pols c s db cond) t = t.
Proof. apply remaining_none. intros r _. apply unreachable_no_target. Qed.

Lemma unreachable_apply_update (cond : R -> bool) (new : R -> R) (t : list R) :
  apply_update (targets pols c s db cond) new t = t.
Proof. apply apply_update_none. intros r _. apply unreachable_no_target. Qed.

Lemma unreachable_update_admissible (cond : R -> bool) (new : R -> R) (t : list R) :
  update_admissible pols s db (targets pols c s db cond) new t = true.
Proof. apply update_admissible_no_target. intros r. apply unreachable_no_target. Qed.

Lemma unreachable_nothing_deleted (cond : R -> bool) (t : list R) :
  List.filter (targets pols c s db cond) t = [].
Proof. apply filter_nothing. intros r _. apply unreachable_no_target. Qed.
End Unreachable.

Lemma cascade_nothing (t : list ChatMessages.row) : cascade_chat_messages [] t = t.
Proof.
  unfold cascade_chat_messages. apply filter_everything. intros m _.
  apply negb_true_iff, not_true_iff_false. rewrite references_true. apply not_elem_of_nil.
Qed.

Lemma set_same_cascade (db : DB) :
  set_chat_messages (set_chat_conversations db (chat_conversations db)) (chat_messages db) = db.
Proof. by destruct db. Qed.

(** A statement whose command reaches no row: [prove] shows that no row
    is visible to it. *)
Ltac settle_unreachable prove :=
  match goal with
  | |- context [targets ?pols ?c ?s ?db ?cond] =>
      let Hun := fresh "Hun" in
      assert (Hun : forall r, visible pols s db c r = false) by prove;
      rewrite ?(unreachable_apply_update pols s db c Hun),
              ?(unreachable_update_admissible pols s db c Hun),
              ?(unreachable_remaining pols s db c Hun),
              ?(unreachable_nothing_deleted pols s db c Hun),
              ?cascade_nothing
  end;
  cbn [bind require commit];
  repeat match goal with
         | |- context [require ?b ?e] => destruct b; cbn [bind require commit]
         end;
  first [reflexivity | apply set_same | apply set_same_cascade].

Ltac unfold_statements :=
  unfold insert_profiles, update_profiles, delete_profiles,
    insert_chat_conversations, update_chat_conversations, delete_chat_conversations,
    insert_chat_messages, update_chat_messages, delete_chat_messages,
    insert_user_progress, update_user_progress, delete_user_progress,
    insert_user_saved_items, update_user_saved_items, delete_user_saved_items.

Lemma requester_owns_parent_some s db m :
  requester_owns_parent s db m = true -> auth_uid s <> None.
Proof. unfold requester_owns_parent. by destruct (auth_uid s). Qed.

Lemma using_some (s : session) (db : DB) (c : command) :
  auth_uid s = None ->
  (forall r, rls_using profiles_policies s db c r = false) /\
  (forall r, rls_using chat_conversations_policies s db c r = false) /\
  (forall r, rls_using chat_messages_policies s db c r = false) /\
  (forall r, rls_using user_progress_policies s db c r = false) /\
  (forall r, rls_using user_saved_items_policies s db c r = false).
Proof.
  intros Hnone. split_and!; intros r; apply not_true_iff_false; intros H.
  - apply using_profiles_own in H. congruence.
  - apply using_chat_conversations_own in H. congruence.
  - rewrite using_chat_messages in H. apply andb_true_iff in H as [_ H].
    by apply requester_owns_parent_some in H.
  - apply using_user_progress_own in H. congruence.
  - apply using_user_saved_items_own in H. congruence.
Qed.

Lemma check_some (s : session) (db : DB) (c : command) :
  auth_uid s = None ->
  (forall r, rls_check profiles_policies s db c r = false) /\
  (forall r, rls_check chat_conversations_policies s db c r = false) /\
  (forall r, rls_check chat_messages_policies s db c r = false) /\
  (forall r, rls_check user_progress_policies s db c r = false) /\
  (forall r, rls_check user_saved_items_policies s db c r = false).
Proof.
  intros Hnone. split_and!; intros r; apply not_true_iff_false; intros H.
  - apply check_profiles_own in H. congruence.
  - apply check_chat_conversations_own in H. congruence.
  - rewrite check_chat_messages in H. apply andb_true_iff in H as [_ H].
    by apply requester_owns_parent_some in H.
  - apply check_user_progress_own in H. congruence.
  - apply check_user_saved_items_own in H. congruence.
Qed.

(** X3: a session under row security without a principal (auth.uid() is
    NULL) sees no row of the five user-scoped tables, every INSERT it
    issues on them is aborted with AuthorizationDenied, and its UPDATEs and
    DELETEs change nothing. *)
Theorem X3_no_principal_no_rows (s : session) (db : DB) :
  bypasses_rls s = false ->
  auth_uid s = None ->
  select_profiles s db = [] /\
  select_chat_conversations s db = [] /\
  select_chat_messages s db = [] /\
  select_user_progress s db = [] /\
  select_user_saved_items s db = [] /\
  (forall e o, inserts_user_rows o = true -> exec s e o db = Err AuthorizationDenied) /\
  (forall e o, updates_or_deletes_user_rows o = true -> commit db (exec s e o db) = db).
Proof.
  intros Hs Hnone.
  assert (Hvis : forall c,
            (forall r, visible profiles_policies s db c r = false) /\
            (forall r, visible chat_conversations_policies s db c r = false) /\
            (forall r, visible chat_messages_policies s db c r = false) /\
            (forall r, visible user_progress_policies s db c r = false) /\
            (forall r, visible user_saved_items_policies s db c r = false)).
  { intros c. destruct (using_some s db c Hnone) as (H1 & H2 & H3 & H4 & H5).
    unfold visible. rewrite Hs. split_and!; intros r; simpl; auto. }
  assert (Hadm : forall c,
            (forall r, admissible profiles_policies s db c r = false) /\
            (forall r, admissible chat_conversations_policies s db c r = false) /\
            (forall r, admissible chat_messages_policies s db c r = false) /\
            (forall r, admissible user_progress_policies s db c r = false) /\
            (forall r, admissible user_saved_items_policies s db c r = false)).
  { intros c. destruct (check_some s db c Hnone) as (H1 & H2 & H3 & H4 & H5).
    unfold admissible. rewrite Hs. split_and!; intros r; simpl; auto. }
  destruct (Hvis SELECT) as (V1 & V2 & V3 & V4 & V5).
  split_and!.
  - apply filter_nothing. auto.
  - apply filter_nothing. auto.
  - apply filter_nothing. auto.
  - apply filter_nothing. auto.
  - apply filter_nothing. auto.
  - intros e o Ho. destruct (Hadm INSERT) as (A1 & A2 & A3 & A4 & A5).
    destruct o; try discriminate Ho; cbn [exec]; unfold_statements;
      rewrite ?A1, ?A2, ?A3, ?A4, ?A5; reflexivity.
  - intros e o Ho.
    destruct o; try discriminate Ho; cbn [exec]; unfold_statements;
      settle_unreachable ltac:(apply Hvis).
Qed.

Lemma X3_no_principal_no_rows_witness :
  bypasses_rls as_guest = false /\ auth_uid as_guest = None /\
  select_chat_messages as_guest busy = [] /\
  insert_user_progress as_guest (Env 50 9001) busy alice_progress = Err AuthorizationDenied.
Proof.
  destruct (X3_no_principal_no_rows as_guest busy eq_refl eq_refl)
    as (_ & _ & Hmsg & _ & _ & Hins & _).
  split; [reflexivity|]. split; [reflexivity|]. split; [exact Hmsg|].
  exact (Hins (Env 50 9001) (InsertUserProgress alice_progress) eq_refl).
Defined.

(** A message that a cascade takes away had its conversation among the
    deleted ones. *)
Lemma cascade_takes_conversation (target : ChatConversations.row -> bool)
    (convs : list ChatConversations.row) (msgs : list ChatMessages.row)
    (m : ChatMessages.row) :
  m ∈ msgs ->
  m ∉ cascade_chat_messages (List.filter target convs) msgs ->
  exists v, v ∈ convs /\ ChatConversations.id v = ChatMessages.conversation_id m /\
            v ∉ remaining target convs.
Proof.
  intros Hm Hgone. unfold cascade_chat_messages in Hgone.
  rewrite elem_of_filter_bool in Hgone.
  destruct (references (ChatMessages.conversation_id m)
              (List.map ChatConversations.id (List.filter target convs))) eqn:Href.
  - apply references_true, elem_of_map in Href as (v & Hid & Hv).
    apply elem_of_filter_bool in Hv as [Ht Hv]. exists v. split_and!; [done|done|].
    unfold remaining. rewrite elem_of_filter_bool, Ht. by intros [? _].
  - exfalso. by apply Hgone.
Qed.

(** Under row security a message goes away only with its conversation. *)
Lemma message_leaves_with_conversation (s : session) (e : env) (o : op) (db db' : DB)
    (m : ChatMessages.row) :
  bypasses_rls s = false ->
  exec s e o db = Ok db' ->
  m ∈ chat_messages db -> m ∉ chat_messages db' ->
  exists v, v ∈ chat_conversations db /\
            ChatConversations.id v = ChatMessages.conversation_id m /\
            v ∉ chat_conversations db'.
Proof.
  intros Hs H Hm Hgone.
  destruct o; cbn [exec] in H;
    unfold create_auth_user, handle_new_user, insert_profiles, update_profiles,
      delete_profiles, insert_colleges, update_colleges, delete_colleges,
      insert_scholarships, update_scholarships, delete_scholarships,
      insert_career_paths, update_career_paths, delete_career_paths,
      insert_chat_conversations, update_chat_conversations, delete_chat_conversations,
      insert_chat_messages, update_chat_messages, delete_chat_messages,
      insert_user_progress, update_user_progress, delete_user_progress,
      insert_user_saved_items, update_user_saved_items, delete_user_saved_items,
      delete_auth_users in H;
    open_statement H; injection H as <-;
    cbn [auth_users profiles colleges scholarships career_paths chat_conversations
         chat_messages user_progress user_saved_items
         set_auth_users set_profiles set_colleges set_scholarships set_career_paths
         set_chat_conversations set_chat_messages set_user_progress set_user_saved_items]
      in Hgone;
    frame_fields; try (by destruct Hgone).
  - (* DELETE FROM auth.users *)
    exact (cascade_takes_conversation _ _ _ m Hm Hgone).
  - (* DELETE FROM chat_conversations *)
    exact (cascade_takes_conversation _ _ _ m Hm Hgone).
  - (* INSERT INTO chat_messages *)
    exfalso. apply Hgone, elem_of_app. by left.
  - (* UPDATE chat_messages *)
    rewrite (no_policy_apply_update chat_messages_policies s db UPDATE Hs eq_refl) in Hgone.
    by destruct Hgone.
  - (* DELETE FROM chat_messages *)
    rewrite (no_policy_remaining chat_messages_policies s db DELETE Hs eq_refl) in Hgone.
    by destruct Hgone.
Qed.

(** X6: what no policy allows, nobody under row security can do, the owner
    included: a DELETE on profiles or user_progress, an UPDATE on
    user_saved_items, and an UPDATE or DELETE on chat_messages change
    nothing. A message, once inserted, goes away only with its
    conversation: whatever the statement, a message that is no longer
    there afterwards had a conversation that is no longer there either. *)
Theorem X6_statements_without_policy_change_nothing
    (s : session) (e : env) (db : DB) (o : op) :
  bypasses_rls s = false ->
  (lacks_policy o = true -> commit db (exec s e o db) = db) /\
  (forall db' m,
     exec s e o db = Ok db' ->
     m ∈ chat_messages db -> m ∉ chat_messages db' ->
     exists v, v ∈ chat_conversations db /\
               ChatConversations.id v = ChatMessages.conversation_id m /\
               v ∉ chat_conversations db').
Proof.
  intros Hs. split.
  - intros Ho.
    destruct o; try discriminate Ho; cbn [exec]; unfold_statements;
      settle_unreachable ltac:(intros r; by apply no_policy_not_visible).
  - intros db' m. by apply message_leaves_with_conversation.
Qed.

Lemma X6_statements_without_policy_change_nothing_witness :
  bypasses_rls as_alice = false /\
  commit busy (delete_chat_messages as_alice busy (fun _ => true)) = busy /\
  commit busy (delete_profiles as_alice busy (fun _ => true)) = busy /\
  List.map ChatMessages.id
    (chat_messages (executed (fun d => delete_chat_conversations as_alice d (fun _ => true))
                      busy)) = [3002%N] /\
  exists v, v ∈ chat_conversations busy /\ ChatConversations.id v = 2001%N /\
            v ∉ chat_conversations
                  (executed (fun d => delete_chat_conversations as_alice d (fun _ => true))
                     busy).
Proof.
  split; [reflexivity|]. split_and!.
  - exact (proj1 (X6_statements_without_policy_change_nothing as_alice (Env 0 0) busy
                    (DeleteChatMessages (fun _ => true)) eq_refl) eq_refl).
  - exact (proj1 (X6_statements_without_policy_change_nothing as_alice (Env 0 0) busy
                    (DeleteProfiles (fun _ => true)) eq_refl) eq_refl).
  - vm_compute. reflexivity.
  - destruct (List.filter (fun m => bool_decide (ChatMessages.id m = 3001%N))
                (chat_messages busy)) as [|m ?] eqn:Hfilter;
      [vm_compute in Hfilter; discriminate Hfilter|].
    assert (Hm : m ∈ List.filter (fun m => bool_decide (ChatMessages.id m = 3001%N))
                       (chat_messages busy)) by (rewrite Hfilter; left).
    apply elem_of_filter_bool in Hm as [Hid Hm].
    assert (Hconv : ChatMessages.conversation_id m = 2001%N).
    { vm_compute in Hfilter. by injection Hfilter as <- _. }
    rewrite <- Hconv.
    apply (proj2 (X6_statements_without_policy_change_nothing as_alice (Env 0 0) busy
                    (DeleteChatConversations (fun _ => true)) eq_refl)
             _ m eq_refl Hm).
    intros Hin. apply list_elem_of_In in Hin. vm_compute in Hfilter.
    injection Hfilter as <- _. vm_compute in Hin.
    destruct Hin as [Hin|[]]. discriminate Hin.
Defined.

(** ** Writing rows *)

Lemma admissible_insert_own (s : session) (db : DB) :
  bypasses_rls s = false ->
  (forall r, admissible profiles_policies s db INSERT r = requester_is s (Profiles.id r)) /\
  (forall r, admissible chat_conversations_policies s db INSERT r =
             requester_is s (ChatConversations.user_id r)) /\
  (forall r, admissible user_progress_policies s db INSERT r =
             requester_is s (UserProgress.user_id r)) /\
  (forall r, admissible user_saved_items_policies s db INSERT r =
             requester_is s (UserSavedItems.user_id r)) /\
  (forall r, admissible chat_messages_policies s db INSERT r = requester_owns_parent s db r).
Proof.
  intros Hs. unfold admissible. rewrite Hs. split_and!; intros r; simpl.
  - by rewrite check_profiles.
  - by rewrite check_chat_conversations.
  - by rewrite check_user_progress.
  - by rewrite check_user_saved_items.
  - by rewrite check_chat_messages.
Qed.

Lemma visible_select_own (s : session) (db : DB) :
  bypasses_rls s = false ->
  (forall r, visible profiles_policies s db SELECT r = requester_is s (Profiles.id r)) /\
  (forall r, visible chat_conversations_policies s db SELECT r =
             requester_is s (ChatConversations.user_id r)) /\
  (forall r, visible user_progress_policies s db SELECT r =
             requester_is s (UserProgress.user_id r)) /\
  (forall r, visible user_saved_items_policies s db SELECT r =
             requester_is s (UserSavedItems.user_id r)) /\
  (forall r, visible chat_messages_policies s db SELECT r = requester_owns_parent s db r).
Proof.
  intros Hs. unfold visible. rewrite Hs. split_and!; intros r; simpl.
  - by rewrite using_profiles.
  - by rewrite using_chat_conversations.
  - by rewrite using_user_progress.
  - by rewrite using_user_saved_items.
  - by rewrite using_chat_messages.
Qed.

Ltac settle_insert :=
  cbn [bind require];
  repeat match goal with
         | |- context [require ?b ?e] => destruct b; cbn [bind require]
         end;
  try discriminate; try reflexivity.

(** X4: under row security a session inserts rows for itself only: an
    INSERT into profiles, chat_conversations, user_progress or
    user_saved_items is aborted with AuthorizationDenied exactly when the
    owner column of the new row is not auth.uid(). *)
Theorem X4_insert_only_for_oneself (s : session) (e : env) (db : DB) :
  bypasses_rls s = false ->
  (forall i, insert_profiles s e db i = Err AuthorizationDenied <->
             auth_uid s <> Some (Profiles.Insert.id i)) /\
  (forall i, insert_chat_conversations s e db i = Err AuthorizationDenied <->
             auth_uid s <> Some (ChatConversations.Insert.user_id i)) /\
  (forall i, insert_user_progress s e db i = Err AuthorizationDenied <->
             auth_uid s <> Some (UserProgress.Insert.user_id i)) /\
  (forall i, insert_user_saved_items s e db i = Err AuthorizationDenied <->
             auth_uid s <> Some (UserSavedItems.Insert.user_id i)).
Proof.
  intros Hs. destruct (admissible_insert_own s db Hs) as (A1 & A2 & A3 & A4 & _).
  split_and!; intros i; unfold_statements; rewrite ?A1, ?A2, ?A3, ?A4;
    cbn [Profiles.id Profiles.defaults ChatConversations.user_id ChatConversations.defaults
         UserProgress.user_id UserProgress.defaults UserSavedItems.user_id
         UserSavedItems.defaults];
    rewrite <- requester_is_true;
    match goal with |- context [requester_is ?s ?u] => destruct (requester_is s u) end;
    split; intros H; try done; exfalso; revert H; settle_insert.
Qed.

Lemma X4_insert_only_for_oneself_witness :
  bypasses_rls as_alice = false /\
  insert_user_saved_items as_alice (Env 50 9001) busy bob_saved_item = Err AuthorizationDenied.
Proof.
  destruct (X4_insert_only_for_oneself as_alice (Env 50 9001) busy eq_refl)
    as (_ & _ & _ & Hsaved).
  split; [reflexivity|]. apply (proj2 (Hsaved bob_saved_item)). discriminate.
Defined.

Lemma update_admissible_refused {R} (pols : list (policy R)) s db target new (t : list R) r :
  r ∈ t -> target r = true -> admissible pols s db UPDATE (new r) = false ->
  update_admissible pols s db target new t = false.
Proof.
  intros Hr Ht Ha. apply not_true_iff_false. unfold update_admissible.
  rewrite forallb_elem. intros H. specialize (H r Hr). rewrite Ht, Ha in H. discriminate.
Qed.

(** X5: a row cannot be given away. Under row security an UPDATE on
    profiles, chat_conversations or user_progress that reaches a row and
    assigns it an owner other than auth.uid() is aborted and changes
    nothing: the USING expression of the UPDATE policy is also the check
    of the new row. When that row is the only one the UPDATE reaches, the
    error is AuthorizationDenied (with several rows, which of their errors
    is reported depends on the order in which they are visited). *)
Theorem X5_rows_cannot_be_given_away (s : session) (e : env) (db : DB) :
  bypasses_rls s = false ->
  (forall cond assign r,
     r ∈ profiles db -> targets profiles_policies UPDATE s db cond r = true ->
     auth_uid s <> Some (Profiles.id (assign r)) ->
     (exists err, update_profiles s e db cond assign = Err err) /\
     executed (fun d => update_profiles s e d cond assign) db = db /\
     ((forall r', r' ∈ profiles db ->
                  targets profiles_policies UPDATE s db cond r' = true -> r' = r) ->
      update_profiles s e db cond assign = Err AuthorizationDenied)) /\
  (forall cond assign r,
     r ∈ chat_conversations db ->
     targets chat_conversations_policies UPDATE s db cond r = true ->
     auth_uid s <> Some (ChatConversations.user_id (assign r)) ->
     (exists err, update_chat_conversations s e db cond assign = Err err) /\
     executed (fun d => update_chat_conversations s e d cond assign) db = db /\
     ((forall r', r' ∈ chat_conversations db ->
                  targets chat_conversations_policies UPDATE s db cond r' = true -> r' = r) ->
      update_chat_conversations s e db cond assign = Err AuthorizationDenied)) /\
  (forall cond assign r,
     r ∈ user_progress db -> targets user_progress_policies UPDATE s db cond r = true ->
     auth_uid s <> Some (UserProgress.user_id (assign r)) ->
     (exists err, update_user_progress s e db cond assign = Err err) /\
     executed (fun d => update_user_progress s e d cond assign) db = db /\
     ((forall r', r' ∈ user_progress db ->
                  targets user_progress_policies UPDATE s db cond r' = true -> r' = r) ->
      update_user_progress s e db cond assign = Err AuthorizationDenied)).
Proof.
  intros Hs. split_and!; intros cond assign r Hr Ht Hown; unfold executed; unfold_statements.
  - rewrite (update_admissible_refused _ _ _ _ _ _ r Hr Ht); [cbn; eauto|].
    unfold admissible. rewrite Hs, check_profiles. simpl.
    apply not_true_iff_false. by rewrite requester_is_true.
  - rewrite (update_admissible_refused _ _ _ _ _ _ r Hr Ht); [cbn; eauto|].
    unfold admissible. rewrite Hs, check_chat_conversations. simpl.
    apply not_true_iff_false. by rewrite requester_is_true.
  - rewrite (update_admissible_refused _ _ _ _ _ _ r Hr Ht); [cbn; eauto|].
    unfold admissible. rewrite Hs, check_user_progress. simpl.
    apply not_true_iff_false. by rewrite requester_is_true.
Qed.

Lemma X5_rows_cannot_be_given_away_witness :
  bypasses_rls as_alice = false /\
  (exists err,
     update_chat_conversations as_alice (Env 60 0) busy (fun _ => true) give_to_bob
     = Err err) /\
  executed (fun d => update_chat_conversations as_alice (Env 60 0) d (fun _ => true)
                       give_to_bob) busy = busy /\
  update_chat_conversations as_alice (Env 60 0) busy (fun _ => true) give_to_bob
    = Err AuthorizationDenied.
Proof.
  destruct (X5_rows_cannot_be_given_away as_alice (Env 60 0) busy eq_refl)
    as (_ & Hconv & _).
  assert (Hin : alice_conversation_row ∈ chat_conversations busy) by (vm_compute; left).
  assert (Hown : auth_uid as_alice
                 <> Some (ChatConversations.user_id (give_to_bob alice_conversation_row)))
    by (vm_compute; discriminate).
  destruct (Hconv (fun _ => true) give_to_bob alice_conversation_row Hin eq_refl Hown)
    as (Herr & Hsame & Honly).
  split_and!; [reflexivity|exact Herr|exact Hsame|].
  apply Honly. intros r' Hr' Ht'.
  apply list_elem_of_In in Hr'. vm_compute in Hr'.
  repeat (destruct Hr' as [<-|Hr']; [first [reflexivity|vm_compute in Ht'; discriminate]|]).
  destruct Hr'.
Defined.

Ltac unfold_statements_in H :=
  unfold insert_profiles, update_profiles, delete_profiles,
    insert_chat_conversations, update_chat_conversations, delete_chat_conversations,
    insert_chat_messages, update_chat_messages, delete_chat_messages,
    insert_user_progress, update_user_progress, delete_user_progress,
    insert_user_saved_items, update_user_saved_items, delete_user_saved_items in H.

(** X7: what a session under row security inserts, it reads back: after an
    INSERT that goes through, the SELECT of the session on that table
    returns the rows it returned before and the new row after them. *)
Theorem X7_inserted_row_is_selected (s : session) (e : env) (db db' : DB) :
  bypasses_rls s = false ->
  (forall i, insert_profiles s e db i = Ok db' ->
             select_profiles s db' = select_profiles s db ++ [Profiles.defaults e i]) /\
  (forall i, insert_chat_conversations s e db i = Ok db' ->
             select_chat_conversations s db' =
               select_chat_conversations s db ++ [ChatConversations.defaults e i]) /\
  (forall i, insert_chat_messages s e db i = Ok db' ->
             select_chat_messages s db' =
               select_chat_messages s db ++ [ChatMessages.defaults e i]) /\
  (forall i, insert_user_progress s e db i = Ok db' ->
             select_user_progress s db' =
               select_user_progress s db ++ [UserProgress.defaults e i]) /\
  (forall i, insert_user_saved_items s e db i = Ok db' ->
             select_user_saved_items s db' =
               select_user_saved_items s db ++ [UserSavedItems.defaults e i]).
Proof.
  intros Hs.
  destruct (admissible_insert_own s db Hs) as (A1 & A2 & A3 & A4 & A5).
  destruct (visible_select_own s db Hs) as (V1 & V2 & V3 & V4 & V5).
  destruct (visible_select_own s db' Hs) as (W1 & W2 & W3 & W4 & W5).
  split_and!; intros i H; unfold_statements_in H; open_statement H; injection H as H;
    unfold select_profiles, select_chat_conversations, select_chat_messages,
      select_user_progress, select_user_saved_items, select_rows;
    rewrite <- H at 2; frame_fields; rewrite List.filter_app; f_equal.
  all: try (apply filter_ext_elem; intros r _; rewrite W5, V5; by rewrite <- H).
  all: cbn [List.filter].
  - rewrite A1 in Hcheck. by rewrite W1, Hcheck.
  - rewrite A2 in Hcheck. by rewrite W2, Hcheck.
  - rewrite A5 in Hcheck. rewrite W5.
    replace (requester_owns_parent s db' (ChatMessages.defaults e i)) with true; [done|].
    rewrite <- Hcheck. by rewrite <- H.
  - rewrite A3 in Hcheck. by rewrite W3, Hcheck.
  - rewrite A4 in Hcheck. by rewrite W4, Hcheck.
Qed.

Lemma X7_inserted_row_is_selected_witness :
  bypasses_rls as_alice = false /\
  insert_chat_conversations as_alice (Env 60 0) busy alice_second_conversation = Ok busier /\
  List.map ChatConversations.id (select_chat_conversations as_alice busier)
    = [2001; 2003]%N.
Proof.
  assert (Hins : insert_chat_conversations as_alice (Env 60 0) busy alice_second_conversation
                 = Ok busier) by (vm_compute; reflexivity).
  destruct (X7_inserted_row_is_selected as_alice (Env 60 0) busy busier eq_refl)
    as (_ & Hconv & _).
  split; [reflexivity|]. split; [exact Hins|].
  rewrite (Hconv alice_second_conversation Hins). vm_compute. reflexivity.
Defined.

Lemma visible_delete_own (s : session) (db : DB) :
  bypasses_rls s = false ->
  (forall r, visible chat_conversations_policies s db DELETE r =
             requester_is s (ChatConversations.user_id r)) /\
  (forall r, visible user_saved_items_policies s db DELETE r =
             requester_is s (UserSavedItems.user_id r)).
Proof.
  intros Hs. unfold visible. rewrite Hs. split; intros r; simpl.
  - by rewrite using_chat_conversations.
  - by rewrite using_user_saved_items.
Qed.

(** X8: what a session under row security deletes is gone from what it
    reads. After a DELETE on user_saved_items or chat_conversations the
    SELECT of the session returns its former rows without those of the
    WHERE condition; rows the session does not see stay in the table; and
    every message the session still reads belongs to a conversation it
    still reads, one the condition did not select. *)
Theorem X8_deleted_rows_are_gone (s : session) (db db' : DB) :
  bypasses_rls s = false ->
  (forall cond,
     delete_user_saved_items s db cond = Ok db' ->
     select_user_saved_items s db' =
       List.filter (fun r => negb (cond r)) (select_user_saved_items s db) /\
     (forall r, r ∈ user_saved_items db ->
                visible user_saved_items_policies s db SELECT r = false ->
                r ∈ user_saved_items db')) /\
  (forall cond,
     delete_chat_conversations s db cond = Ok db' ->
     select_chat_conversations s db' =
       List.filter (fun r => negb (cond r)) (select_chat_conversations s db) /\
     (forall r, r ∈ chat_conversations db ->
                visible chat_conversations_policies s db SELECT r = false ->
                r ∈ chat_conversations db') /\
     (forall m, m ∈ select_chat_messages s db' ->
                exists v, v ∈ select_chat_conversations s db' /\
                          ChatConversations.id v = ChatMessages.conversation_id m /\
                          cond v = false)).
Proof.
  intros Hs.
  destruct (visible_delete_own s db Hs) as (D1 & D2).
  destruct (visible_select_own s db Hs) as (_ & V2 & _ & V4 & _).
  destruct (visible_select_own s db' Hs) as (_ & W2 & _ & W4 & W5).
  split; intros cond H; unfold_statements_in H; injection H as H.
  - split.
    + unfold select_user_saved_items, select_rows. rewrite <- H at 2. frame_fields.
      unfold remaining. rewrite !filter_filter_bool. apply filter_ext_elem. intros r _.
      unfold targets. rewrite W4, V4, D2.
      by destruct (cond r), (requester_is s (UserSavedItems.user_id r)).
    + intros r Hr Hvis. rewrite <- H. frame_fields.
      apply elem_of_filter_bool. split; [|done].
      unfold targets. rewrite D2. rewrite V4 in Hvis. rewrite Hvis. by rewrite andb_false_r.
  - assert (Hsel : select_chat_conversations s db' =
                   List.filter (fun r => negb (cond r)) (select_chat_conversations s db)).
    { unfold select_chat_conversations. rewrite <- H at 2. frame_fields.
      unfold remaining. rewrite !filter_filter_bool. apply filter_ext_elem. intros r _.
      unfold targets. rewrite W2, V2, D1.
      by destruct (cond r), (requester_is s (ChatConversations.user_id r)). }
    split_and!; [exact Hsel| |].
    + intros r Hr Hvis. rewrite <- H. frame_fields.
      apply elem_of_filter_bool. split; [|done].
      unfold targets. rewrite D1. rewrite V2 in Hvis. rewrite Hvis. by rewrite andb_false_r.
    + intros m Hm. apply elem_of_filter_bool in Hm as [Hvis _].
      rewrite W5 in Hvis. apply requester_owns_parent_true in Hvis as (v & Hv & Hid & Hu).
      exists v. split_and!; [|exact Hid|].
      * apply elem_of_filter_bool. split; [|done].
        rewrite W2. by apply requester_is_true.
      * rewrite <- H in Hv. revert Hv. frame_fields. intros Hv.
        apply elem_of_filter_bool in Hv as [Ht _]. apply negb_true_iff in Ht.
        unfold targets in Ht. rewrite D1 in Ht.
        rewrite (proj2 (requester_is_true _ _) Hu) in Ht. by rewrite andb_true_r in Ht.
Qed.

Lemma X8_deleted_rows_are_gone_witness :
  bypasses_rls as_alice = false /\
  delete_user_saved_items as_alice busy is_college_bookmark = Ok tidied /\
  select_user_saved_items as_alice tidied = [] /\
  List.map UserSavedItems.id (user_saved_items tidied) = [5002%N].
Proof.
  assert (Hdel : delete_user_saved_items as_alice busy is_college_bookmark = Ok tidied)
    by (vm_compute; reflexivity).
  destruct (X8_deleted_rows_are_gone as_alice busy tidied eq_refl) as (Hsaved & _).
  split; [reflexivity|]. split; [exact Hdel|]. split; [|vm_compute; reflexivity].
  rewrite (proj1 (Hsaved is_college_bookmark Hdel)). vm_compute. reflexivity.
Defined.

(** ** Deleting principals *)

Lemma deleted_principal_gone (db : DB) (cond : Users.row -> bool) (u : UUID) :
  u ∈ List.map Users.id (List.filter cond (auth_users db)) <-> deleted_principal db cond u.
Proof.
  unfold deleted_principal. rewrite elem_of_map. split.
  - intros (r & -> & Hr). apply elem_of_filter_bool in Hr as [Hc Hr]. eauto.
  - intros (r & Hr & Hc & <-). exists r. split; [done|]. by apply elem_of_filter_bool.
Qed.

Lemma references_gone (db : DB) (cond : Users.row -> bool) (u : UUID) :
  references u (List.map Users.id (List.filter cond (auth_users db))) = true <->
  deleted_principal db cond u.
Proof. rewrite references_true. apply deleted_principal_gone. Qed.

(** The messages of [u] survive a cascade from conversations that are not
    of [u]. *)
Lemma owned_messages_survive (db : DB) (u : UUID) (deleted : list ChatConversations.row)
    (msgs : list ChatMessages.row) :
  NoDup (List.map ChatConversations.id (chat_conversations db)) ->
  (forall v, v ∈ deleted -> v ∈ chat_conversations db /\ ChatConversations.user_id v <> u) ->
  List.filter (parent_owned_by db u) (cascade_chat_messages deleted msgs)
  = List.filter (parent_owned_by db u) msgs.
Proof.
  intros Hnd Hdel. unfold cascade_chat_messages.
  rewrite filter_filter_bool. apply filter_ext_elem. intros m Hm.
  destruct (parent_owned_by db u m) eqn:Hu; [|apply andb_false_r].
  rewrite andb_true_r. apply negb_true_iff, not_true_iff_false.
  rewrite references_true. intros Hin.
  apply elem_of_map in Hin as (v & Hid & Hv). destruct (Hdel v Hv) as [Hvin Hvu].
  unfold parent_owned_by in Hu. apply existsb_elem in Hu as (w & Hw & Hp).
  apply andb_true_iff in Hp as [Hwid Hwu]. apply bool_decide_eq_true in Hwid, Hwu.
  assert (v = w) by (eapply NoDup_map_inj; eauto; congruence).
  subst w. congruence.
Qed.

(** X9: deleting principals from auth.users cascades through every
    REFERENCES auth.users(id) ON DELETE CASCADE, and from the
    conversations on to their messages: nothing in the five user-scoped
    tables belongs to a deleted principal afterwards; the rows of every
    other principal, and the reference tables, are as they were. Table by
    table: the profiles, conversations, progress rows and saved items that
    are left are those whose principal was not deleted, and the messages
    that are left are those that are not in a conversation of a deleted
    principal. *)
Theorem X9_deleting_principals_cascades (db : DB) (cond : Users.row -> bool) (u : UUID) :
  (deleted_principal db cond u -> rows_of u (delete_auth_users db cond) = nothing_owned) /\
  (NoDup (List.map ChatConversations.id (chat_conversations db)) ->
   ~ deleted_principal db cond u ->
   rows_of u (delete_auth_users db cond) = rows_of u db) /\
  colleges (delete_auth_users db cond) = colleges db /\
  scholarships (delete_auth_users db cond) = scholarships db /\
  career_paths (delete_auth_users db cond) = career_paths db /\
  (forall r, r ∈ auth_users (delete_auth_users db cond) <->
             r ∈ auth_users db /\ cond r = false) /\
  (forall r, r ∈ profiles (delete_auth_users db cond) <->
             r ∈ profiles db /\ ~ deleted_principal db cond (Profiles.id r)) /\
  (forall r, r ∈ chat_conversations (delete_auth_users db cond) <->
             r ∈ chat_conversations db /\
             ~ deleted_principal db cond (ChatConversations.user_id r)) /\
  (forall m, m ∈ chat_messages (delete_auth_users db cond) <->
             m ∈ chat_messages db /\
             ~ exists v, v ∈ chat_conversations db /\
                         deleted_principal db cond (ChatConversations.user_id v) /\
                         ChatConversations.id v = ChatMessages.conversation_id m) /\
  (forall r, r ∈ user_progress (delete_auth_users db cond) <->
             r ∈ user_progress db /\ ~ deleted_principal db cond (UserProgress.user_id r)) /\
  (forall r, r ∈ user_saved_items (delete_auth_users db cond) <->
             r ∈ user_saved_items db /\
             ~ deleted_principal db cond (UserSavedItems.user_id r)).
Proof.
  split_and!; try reflexivity.
  - intros Hu. apply references_gone in Hu.
    assert (Hconv : List.filter (fun r => bool_decide (ChatConversations.user_id r = u))
                      (chat_conversations (delete_auth_users db cond)) = []).
    { unfold delete_auth_users. frame_fields. apply filter_nothing. intros r Hr.
      apply elem_of_filter_bool in Hr as [Hr _]. apply negb_true_iff in Hr.
      apply bool_decide_eq_false. intros Heq. rewrite Heq in Hr. congruence. }
    unfold rows_of, nothing_owned. rewrite Hconv. f_equal.
    + unfold delete_auth_users. frame_fields. apply filter_nothing. intros r Hr.
      apply elem_of_filter_bool in Hr as [Hr _]. apply negb_true_iff in Hr.
      apply bool_decide_eq_false. intros Heq. rewrite Heq in Hr. congruence.
    + apply filter_nothing. intros m _. unfold parent_owned_by.
      apply not_true_iff_false. rewrite existsb_elem. intros (v & Hv & Hp).
      apply andb_true_iff in Hp as [_ Hp].
      assert (Hin : v ∈ List.filter (fun r => bool_decide (ChatConversations.user_id r = u))
                          (chat_conversations (delete_auth_users db cond)))
        by (by apply elem_of_filter_bool).
      rewrite Hconv in Hin. by apply elem_of_nil in Hin.
    + unfold delete_auth_users. frame_fields. apply filter_nothing. intros r Hr.
      apply elem_of_filter_bool in Hr as [Hr _]. apply negb_true_iff in Hr.
      apply bool_decide_eq_false. intros Heq. rewrite Heq in Hr. congruence.
    + unfold delete_auth_users. frame_fields. apply filter_nothing. intros r Hr.
      apply elem_of_filter_bool in Hr as [Hr _]. apply negb_true_iff in Hr.
      apply bool_decide_eq_false. intros Heq. rewrite Heq in Hr. congruence.
  - intros Hnd Hu.
    assert (Hkept : references u (List.map Users.id (List.filter cond (auth_users db)))
                    = false).
    { apply not_true_iff_false. by rewrite references_gone. }
    assert (Hconv : List.filter (fun r => bool_decide (ChatConversations.user_id r = u))
                      (chat_conversations (delete_auth_users db cond))
                    = List.filter (fun r => bool_decide (ChatConversations.user_id r = u))
                        (chat_conversations db)).
    { unfold delete_auth_users. frame_fields. apply filter_remaining. intros r _ Hr.
      apply bool_decide_eq_true in Hr. by rewrite Hr. }
    unfold rows_of. rewrite Hconv. f_equal.
    + unfold delete_auth_users. frame_fields. apply filter_remaining. intros r _ Hr.
      apply bool_decide_eq_true in Hr. by rewrite Hr.
    + transitivity (List.filter (parent_owned_by db u)
                      (chat_messages (delete_auth_users db cond))).
      { apply filter_ext_elem. intros m _. by apply parent_owned_by_own_conversations. }
      unfold delete_auth_users. frame_fields. apply owned_messages_survive; [done|].
      intros v Hv. apply elem_of_filter_bool in Hv as [Hg Hv]. split; [done|].
      intros Hvu. congruence.
    + unfold delete_auth_users. frame_fields. apply filter_remaining. intros r _ Hr.
      apply bool_decide_eq_true in Hr. by rewrite Hr.
    + unfold delete_auth_users. frame_fields. apply filter_remaining. intros r _ Hr.
      apply bool_decide_eq_true in Hr. by rewrite Hr.
  - intros r. unfold delete_auth_users. frame_fields. unfold remaining.
    rewrite elem_of_filter_bool, negb_true_iff. tauto.
  - intros r. unfold delete_auth_users. frame_fields. unfold remaining.
    rewrite elem_of_filter_bool, negb_true_iff, <- not_true_iff_false, references_gone.
    tauto.
  - intros r. unfold delete_auth_users. frame_fields. unfold remaining.
    rewrite elem_of_filter_bool, negb_true_iff, <- not_true_iff_false, references_gone.
    tauto.
  - intros m. unfold delete_auth_users. frame_fields. unfold cascade_chat_messages.
    rewrite elem_of_filter_bool, negb_true_iff, <- not_true_iff_false, references_true.
    assert (Hgone : ChatMessages.conversation_id m
                      ∈ List.map ChatConversations.id
                          (List.filter
                             (fun c => references (ChatConversations.user_id c)
                                         (List.map Users.id
                                            (List.filter cond (auth_users db))))
                             (chat_conversations db))
                    <-> exists v, v ∈ chat_conversations db /\
                                  deleted_principal db cond (ChatConversations.user_id v) /\
                                  ChatConversations.id v = ChatMessages.conversation_id m).
    { rewrite elem_of_map. split.
      - intros (v & Hid & Hv). apply elem_of_filter_bool in Hv as [Hg Hv].
        apply references_gone in Hg. eauto.
      - intros (v & Hv & Hg & Hid). exists v. split; [done|].
        apply elem_of_filter_bool. split; [|done]. by apply references_gone. }
    rewrite Hgone. tauto.
  - intros r. unfold delete_auth_users. frame_fields. unfold remaining.
    rewrite elem_of_filter_bool, negb_true_iff, <- not_true_iff_false, references_gone.
    tauto.
  - intros r. unfold delete_auth_users. frame_fields. unfold remaining.
    rewrite elem_of_filter_bool, negb_true_iff, <- not_true_iff_false, references_gone.
    tauto.
Qed.

Lemma X9_deleting_principals_cascades_witness :
  deleted_principal busy (is_principal alice) alice /\
  ~ deleted_principal busy (is_principal alice) bob /\
  rows_of alice (delete_auth_users busy (is_principal alice)) = nothing_owned /\
  rows_of bob (delete_auth_users busy (is_principal alice)) = rows_of bob busy /\
  List.map ChatMessages.id (chat_messages busy) = [3001%N; 3002%N] /\
  List.map ChatMessages.id (chat_messages (delete_auth_users busy (is_principal alice)))
  = [3002%N] /\
  (forall m, m ∈ chat_messages (delete_auth_users busy (is_principal alice)) ->
             ChatMessages.conversation_id m <> 2001%N).
Proof.
  assert (Ha : deleted_principal busy (is_principal alice) alice).
  { exists alice_signup. split; [vm_compute; left|]. split; reflexivity. }
  assert (Hb : ~ deleted_principal busy (is_principal alice) bob).
  { intros (r & _ & Hc & Hid). unfold is_principal in Hc.
    apply bool_decide_eq_true in Hc. rewrite Hid in Hc. discriminate Hc. }
  assert (Hnd : NoDup (List.map ChatConversations.id (chat_conversations busy)))
    by (apply (bool_decide_unpack _); vm_compute; exact I).
  destruct (X9_deleting_principals_cascades busy (is_principal alice) alice)
    as (Hnone & _ & _ & _ & _ & _ & _ & _ & Hmsgs & _).
  split_and!; [exact Ha|exact Hb|exact (Hnone Ha)| |vm_compute; reflexivity
              |vm_compute; reflexivity|].
  - exact (proj1 (proj2 (X9_deleting_principals_cascades busy (is_principal alice) bob))
             Hnd Hb).
  - intros m Hm Hc. apply Hmsgs in Hm as [_ Hm]. apply Hm.
    exists alice_conversation_row. split_and!; [vm_compute; left|exact Ha|].
    rewrite Hc. reflexivity.
Defined.

(** ** Signing up *)

(** X12: the outcomes of a signup. Creating a principal fails only with
    UniquenessViolation: when its id is in auth.users already, or when a
    profile with that id is there, where the error of the trigger undoes
    the insert into auth.users too. Otherwise it goes through, and adds
    the principal and one profile; the insert of the trigger, running as
    the owner of the table, is never refused by row security. *)
Theorem X12_signup_outcomes (e : env) (db : DB) (u : Users.row) :
  (Users.id u ∈ List.map Users.id (auth_users db) \/
   Users.id u ∈ List.map Profiles.id (profiles db) ->
   create_auth_user e db u = Err UniquenessViolation /\
   commit db (create_auth_user e db u) = db) /\
  (Users.id u ∉ List.map Users.id (auth_users db) ->
   Users.id u ∉ List.map Profiles.id (profiles db) ->
   exists db' p,
     create_auth_user e db u = Ok db' /\
     auth_users db' = auth_users db ++ [u] /\
     profiles db' = profiles db ++ [p] /\
     Profiles.id p = Users.id u).
Proof.
  destruct (handle_new_user_unfold e (set_auth_users db (auth_users db ++ [u])) u)
    as (p & Hid & _ & _ & _ & _ & Hrun).
  unfold create_auth_user. rewrite Hrun. frame_fields.
  assert (Hfk : references (Users.id u) (List.map Users.id (auth_users db ++ [u])) = true).
  { apply references_true. rewrite List.map_app. apply elem_of_app. right. left. }
  rewrite Hfk. split.
  - intros Hdup.
    destruct (fresh (Users.id u) (List.map Users.id (auth_users db))) eqn:Hu;
      cbn [bind require commit]; [|done].
    destruct (fresh (Users.id u) (List.map Profiles.id (profiles db))) eqn:Hp;
      cbn [bind require commit]; [|done].
    apply fresh_true in Hu, Hp. tauto.
  - intros Hu Hp. apply fresh_true in Hu, Hp. rewrite Hu, Hp. cbn [bind require].
    exists (set_profiles (set_auth_users db (auth_users db ++ [u])) (profiles db ++ [p])), p.
    done.
Qed.

Lemma X12_signup_outcomes_witness :
  alice ∈ List.map Users.id (auth_users busy) /\
  create_auth_user (Env 70 0) busy alice_signup = Err UniquenessViolation.
Proof.
  assert (Hin : alice ∈ List.map Users.id (auth_users busy)) by (vm_compute; left).
  split; [exact Hin|].
  exact (proj1 (proj1 (X12_signup_outcomes (Env 70 0) busy alice_signup) (or_introl Hin))).
Defined.

(** X11: the profile the signup trigger writes. Its full_name is never
    NULL: it is the empty string when the metadata is NULL or not an
    object, when the object has no key full_name and when the key holds the
    JSON null; a JSON number is copied as its text. preferred_language is
    'en', created_at and updated_at are NOW(), phone, education_level,
    interests and location are NULL. The other tables are untouched. *)
Theorem X11_trigger_profile (e : env) (db db' : DB) (u : Users.row) :
  handle_new_user e db u = Ok db' ->
  exists p,
    db' = set_profiles db (profiles db ++ [p]) /\
    Profiles.id p = Users.id u /\
    Profiles.full_name p <> None /\
    (forall fields, Users.raw_user_meta_data u = Some (JObject fields) ->
                    jsonb_field "full_name" fields = Some JNull ->
                    Profiles.full_name p = Some "") /\
    (forall fields text, Users.raw_user_meta_data u = Some (JObject fields) ->
                         jsonb_field "full_name" fields = Some (JNumber text) ->
                         Profiles.full_name p = Some text) /\
    ((forall fields, Users.raw_user_meta_data u <> Some (JObject fields)) ->
     Profiles.full_name p = Some "") /\
    (forall fields, Users.raw_user_meta_data u = Some (JObject fields) ->
                    jsonb_field "full_name" fields = None ->
                    Profiles.full_name p = Some "") /\
    Profiles.preferred_language p = Some "en" /\
    Profiles.created_at p = Some (NOW e) /\
    Profiles.updated_at p = Some (NOW e) /\
    Profiles.phone p = None /\ Profiles.education_level p = None /\
    Profiles.interests p = None /\ Profiles.location p = None.
Proof.
  intros H. unfold handle_new_user, insert_profiles in H. open_statement H.
  injection H as <-. eexists. split; [reflexivity|].
  cbn [Profiles.defaults Profiles.id Profiles.full_name Profiles.preferred_language
       Profiles.created_at Profiles.updated_at Profiles.phone Profiles.education_level
       Profiles.interests Profiles.location Profiles.Insert.id Profiles.Insert.full_name
       Profiles.Insert.preferred_language Profiles.Insert.created_at
       Profiles.Insert.updated_at Profiles.Insert.phone Profiles.Insert.education_level
       Profiles.Insert.interests Profiles.Insert.location or_default].
  split_and!; try done.
  - intros fields -> Hf. simpl. by rewrite Hf.
  - intros fields text -> Hf. simpl. by rewrite Hf.
  - intros Hobj. unfold jsonb_get_text.
    destruct (Users.raw_user_meta_data u) as [[]|]; try done. by destruct (Hobj fields).
  - intros fields -> Hf. simpl. by rewrite Hf.
Qed.

Lemma X11_trigger_profile_witness :
  handle_new_user (Env 10 0) alice_registered (Users.Row alice (Some (JArray [])))
    = Ok (commit alice_registered
            (handle_new_user (Env 10 0) alice_registered (Users.Row alice (Some (JArray []))))) /\
  List.map Profiles.full_name
    (profiles (commit alice_registered
                 (handle_new_user (Env 10 0) alice_registered
                    (Users.Row alice (Some (JArray []))))))
    = [Some ""].
Proof.
  assert (Hrun : handle_new_user (Env 10 0) alice_registered (Users.Row alice (Some (JArray [])))
                 = Ok (commit alice_registered
                         (handle_new_user (Env 10 0) alice_registered
                            (Users.Row alice (Some (JArray []))))))
    by (vm_compute; reflexivity).
  split; [exact Hrun|].
  destruct (X11_trigger_profile _ _ _ _ Hrun) as (p & -> & _ & _ & _ & _ & Hname & _).
  cbn [profiles set_profiles]. vm_compute (profiles alice_registered).
  simpl. rewrite Hname; [reflexivity|]. intros fields Hf. discriminate Hf.
Defined.

Lemma not_references_singleton (k u : UUID) : k <> u -> negb (references k [u]) = true.
Proof.
  intros H. apply negb_true_iff, not_true_iff_false. rewrite references_true.
  intros Hin. apply list_elem_of_singleton in Hin. done.
Qed.

Lemma refers_not_new {A} (g : A -> UUID) (t : list A) (keys : list UUID) (u : UUID) :
  refers g t keys -> u ∉ keys -> forall r, r ∈ t -> g r <> u.
Proof.
  intros Hfk Hnew r Hr Heq. apply Hnew. rewrite <- Heq. eapply refers_elem; eauto.
Qed.

(** X10: signing up and deleting the account again is a round trip. From a
    database that satisfies its constraints, creating a principal with a
    new id and then deleting that principal from auth.users gives back the
    database as it was: the cascade removes the profile the trigger made
    and nothing else. *)
Theorem X10_signup_then_delete (e : env) (db : DB) (u : Users.row) :
  consistent db ->
  Users.id u ∉ List.map Users.id (auth_users db) ->
  exists db',
    create_auth_user e db u = Ok db' /\
    delete_auth_users db' (is_principal (Users.id u)) = db.
Proof.
  intros Hc Hnew.
  pose proof (refers_not_new _ _ _ _ (profiles_id_fkey db Hc) Hnew) as Hprof.
  pose proof (refers_not_new _ _ _ _ (chat_conversations_user_id_fkey db Hc) Hnew) as Hconv.
  pose proof (refers_not_new _ _ _ _ (user_progress_user_id_fkey db Hc) Hnew) as Hprog.
  pose proof (refers_not_new _ _ _ _ (user_saved_items_user_id_fkey db Hc) Hnew) as Hsaved.
  assert (Hnone : Users.id u ∉ List.map Profiles.id (profiles db)).
  { intros Hin. apply elem_of_map in Hin as (r & Hr & Hrin). by apply (Hprof r Hrin). }
  destruct (handle_new_user_unfold e (set_auth_users db (auth_users db ++ [u])) u)
    as (p & Hid & _ & _ & _ & _ & Hrun).
  eexists. split.
  { unfold create_auth_user. rewrite (proj2 (fresh_true _ _) Hnew). cbn [bind require].
    rewrite Hrun. frame_fields. rewrite (proj2 (fresh_true _ _) Hnone).
    rewrite (proj2 (references_true (Users.id u) (List.map Users.id (auth_users db ++ [u])))).
    2:{ rewrite List.map_app. apply elem_of_app. right. left. }
    cbn [bind require]. reflexivity. }
  assert (Hothers : forall r, r ∈ auth_users db -> is_principal (Users.id u) r = false).
  { intros r Hr. apply bool_decide_eq_false. intros Heq. apply Hnew.
    rewrite <- Heq. by apply elem_of_map_2. }
  assert (Hgone : List.map Users.id
                    (List.filter (is_principal (Users.id u)) (auth_users db ++ [u]))
                  = [Users.id u]).
  { rewrite List.filter_app, (filter_nothing _ _ Hothers). cbn [List.filter app].
    unfold is_principal at 1. by rewrite bool_decide_eq_true_2. }
  unfold delete_auth_users. frame_fields. rewrite Hgone. unfold remaining.
  rewrite !List.filter_app.
  rewrite (filter_everything _ (auth_users db))
    by (intros r Hr; by rewrite (Hothers r Hr)).
  rewrite (filter_everything _ (profiles db))
    by (intros r Hr; apply not_references_singleton; auto).
  rewrite (filter_everything _ (chat_conversations db))
    by (intros r Hr; apply not_references_singleton; auto).
  rewrite (filter_nothing _ (chat_conversations db))
    by (intros r Hr; apply negb_true_iff; apply not_references_singleton; auto).
  rewrite cascade_nothing.
  rewrite (filter_everything _ (user_progress db))
    by (intros r Hr; apply not_references_singleton; auto).
  rewrite (filter_everything _ (user_saved_items db))
    by (intros r Hr; apply not_references_singleton; auto).
  cbn [List.filter]. unfold is_principal at 1.
  rewrite bool_decide_eq_true_2 by done. rewrite Hid.
  unfold references at 1. rewrite bool_decide_eq_true_2 by left.
  cbn [negb]. rewrite !List.app_nil_r. by destruct db.
Qed.

Lemma X10_signup_then_delete_witness :
  exists db',
    create_auth_user (Env 70 0) busy (Users.Row 1003 None) = Ok db' /\
    delete_auth_users db' (is_principal 1003) = busy.
Proof.
  apply (X10_signup_then_delete (Env 70 0) busy (Users.Row 1003 None)).
  - exact busy_is_consistent.
  - apply (bool_decide_unpack _). vm_compute. exact I.
Defined.

(** ** The constraints, in every reachable state *)

(** X13: the constraints of the schema are invariants. Every statement
    that goes through, by any session, keeps all nine primary keys, the two
    UNIQUE constraints and the five foreign keys; so does every run of
    statements, and so every state reached from the one the migration
    leaves satisfies them. *)
Theorem X13_constraints_are_invariant :
  (forall s e o db db', consistent db -> exec s e o db = Ok db' -> consistent db') /\
  (forall stmts db, consistent db -> consistent (run stmts db)) /\
  (forall now uuid db0 stmts, migration now uuid = Ok db0 -> consistent (run stmts db0)).
Proof.
  split_and!.
  - intros s e o db db'. apply exec_consistent.
  - intros stmts db. apply run_consistent.
  - intros now uuid db0 stmts. apply reachable_consistent.
Qed.

Lemma X13_constraints_are_invariant_witness :
  consistent busy /\ consistent (run alice_session_log busy).
Proof.
  split; [exact busy_is_consistent|].
  exact (proj1 (proj2 X13_constraints_are_invariant) alice_session_log busy
           busy_is_consistent).
Defined.

(** ** The rows the migration inserts *)

Lemma insert_values_colleges now uuid rows : forall n db db',
  insert_values insert_colleges now uuid n rows db = Ok db' ->
  db' = set_colleges db (colleges db ++ inserted_rows Colleges.defaults now uuid n rows).
Proof.
  induction rows as [|i rest IH]; intros n db db' H; simpl in H.
  - injection H as <-. simpl. rewrite List.app_nil_r. by destruct db.
  - destruct (insert_colleges migrator (Env now (uuid n)) db i) as [db1|] eqn:H1;
      cbn [bind] in H; [|done].
    apply IH in H. unfold insert_colleges in H1. open_statement H1. injection H1 as <-.
    rewrite H. frame_fields. simpl. by rewrite <- List.app_assoc.
Qed.

Lemma insert_values_scholarships now uuid rows : forall n db db',
  insert_values insert_scholarships now uuid n rows db = Ok db' ->
  db' = set_scholarships db
          (scholarships db ++ inserted_rows Scholarships.defaults now uuid n rows).
Proof.
  induction rows as [|i rest IH]; intros n db db' H; simpl in H.
  - injection H as <-. simpl. rewrite List.app_nil_r. by destruct db.
  - destruct (insert_scholarships migrator (Env now (uuid n)) db i) as [db1|] eqn:H1;
      cbn [bind] in H; [|done].
    apply IH in H. unfold insert_scholarships in H1. open_statement H1. injection H1 as <-.
    rewrite H. frame_fields. simpl. by rewrite <- List.app_assoc.
Qed.

Lemma insert_values_career_paths now uuid rows : forall n db db',
  insert_values insert_career_paths now uuid n rows db = Ok db' ->
  db' = set_career_paths db
          (career_paths db ++ inserted_rows CareerPaths.defaults now uuid n rows).
Proof.
  induction rows as [|i rest IH]; intros n db db' H; simpl in H.
  - injection H as <-. simpl. rewrite List.app_nil_r. by destruct db.
  - destruct (insert_career_paths migrator (Env now (uuid n)) db i) as [db1|] eqn:H1;
      cbn [bind] in H; [|done].
    apply IH in H. unfold insert_career_paths in H1. open_statement H1. injection H1 as <-.
    rewrite H. frame_fields. simpl. by rewrite <- List.app_assoc.
Qed.

Lemma migration_result (now : timestamptz) (uuid : nat -> UUID) (db0 : DB) :
  migration now uuid = Ok db0 ->
  db0 = MkDB [] []
          (inserted_rows Colleges.defaults now uuid 0 sample_colleges)
          (inserted_rows Scholarships.defaults now uuid 5 sample_scholarships)
          (inserted_rows CareerPaths.defaults now uuid 9 sample_career_paths)
          [] [] [] [].
Proof.
  unfold migration. intros H.
  destruct (insert_values insert_colleges now uuid 0 sample_colleges empty_db)
    as [db1|] eqn:H1; cbn [bind] in H; [|done].
  destruct (insert_values insert_scholarships now uuid 5 sample_scholarships db1)
    as [db2|] eqn:H2; cbn [bind] in H; [|done].
  apply insert_values_colleges in H1. apply insert_values_scholarships in H2.
  apply insert_values_career_paths in H. subst. reflexivity.
Qed.

Lemma NoDup_app_cons_fresh (ids rest : list UUID) (k : UUID) :
  NoDup (ids ++ k :: rest) -> (k ∉ ids) /\ NoDup ((ids ++ [k]) ++ rest).
Proof.
  intros H. split.
  - apply list.NoDup_app in H as (_ & H & _). intros Hk. apply (H k Hk). left.
  - by rewrite <- List.app_assoc.
Qed.

Lemma insert_values_colleges_ok now uuid rows :
  Forall (fun i => Colleges.Insert.id i = Omitted) rows ->
  forall n db,
    NoDup (List.map Colleges.id (colleges db) ++ drawn uuid n (length rows)) ->
    exists db', insert_values insert_colleges now uuid n rows db = Ok db'.
Proof.
  induction 1 as [|i rest Hi _ IH]; intros n db Hnd; simpl; [eauto|].
  unfold drawn in Hnd. simpl in Hnd. apply NoDup_app_cons_fresh in Hnd as [Hk Hnd].
  unfold insert_colleges at 1. cbn [admissible bypasses_rls migrator current_role orb].
  cbn [bind require Colleges.defaults Colleges.id]. rewrite Hi. cbn [or_default gen_random_uuid].
  rewrite (proj2 (fresh_true _ _) Hk). cbn [bind require].
  apply IH. frame_fields. rewrite List.map_app. simpl. by rewrite Hi.
Qed.

Lemma insert_values_scholarships_ok now uuid rows :
  Forall (fun i => Scholarships.Insert.id i = Omitted) rows ->
  forall n db,
    NoDup (List.map Scholarships.id (scholarships db) ++ drawn uuid n (length rows)) ->
    exists db', insert_values insert_scholarships now uuid n rows db = Ok db'.
Proof.
  induction 1 as [|i rest Hi _ IH]; intros n db Hnd; simpl; [eauto|].
  unfold drawn in Hnd. simpl in Hnd. apply NoDup_app_cons_fresh in Hnd as [Hk Hnd].
  unfold insert_scholarships at 1. cbn [admissible bypasses_rls migrator current_role orb].
  cbn [bind require Scholarships.defaults Scholarships.id]. rewrite Hi.
  cbn [or_default gen_random_uuid].
  rewrite (proj2 (fresh_true _ _) Hk). cbn [bind require].
  apply IH. frame_fields. rewrite List.map_app. simpl. by rewrite Hi.
Qed.

Lemma insert_values_career_paths_ok now uuid rows :
  Forall (fun i => CareerPaths.Insert.id i = Omitted) rows ->
  forall n db,
    NoDup (List.map CareerPaths.id (career_paths db) ++ drawn uuid n (length rows)) ->
    exists db', insert_values insert_career_paths now uuid n rows db = Ok db'.
Proof.
  induction 1 as [|i rest Hi _ IH]; intros n db Hnd; simpl; [eauto|].
  unfold drawn in Hnd. simpl in Hnd. apply NoDup_app_cons_fresh in Hnd as [Hk Hnd].
  unfold insert_career_paths at 1. cbn [admissible bypasses_rls migrator current_role orb].
  cbn [bind require CareerPaths.defaults CareerPaths.id]. rewrite Hi.
  cbn [or_default gen_random_uuid].
  rewrite (proj2 (fresh_true _ _) Hk). cbn [bind require].
  apply IH. frame_fields. rewrite List.map_app. simpl. by rewrite Hi.
Qed.

(** X14: the migration goes through exactly when the ids gen_random_uuid()
    draws are distinct within each reference table. It then leaves
    auth.users and the five user-scoped tables empty and the sample rows in
    the reference tables, in the order of the VALUES lists, with the drawn
    ids; every sample scholarship has is_active = true (the column default)
    and created_at = NOW(), so a session of the role authenticated sees
    them all. *)
Theorem X14_migration_seeds (now : timestamptz) (uuid : nat -> UUID) :
  (NoDup (drawn uuid 0 5) -> NoDup (drawn uuid 5 4) -> NoDup (drawn uuid 9 4) ->
   exists db0, migration now uuid = Ok db0) /\
  (forall db0,
     migration now uuid = Ok db0 ->
     NoDup (drawn uuid 0 5) /\ NoDup (drawn uuid 5 4) /\ NoDup (drawn uuid 9 4) /\
     auth_users db0 = [] /\ profiles db0 = [] /\ chat_conversations db0 = [] /\
     chat_messages db0 = [] /\ user_progress db0 = [] /\ user_saved_items db0 = [] /\
     List.map Colleges.id (colleges db0) = drawn uuid 0 5 /\
     List.map Colleges.name (colleges db0) =
       ["IIT Delhi"; "AIIMS Delhi"; "NIT Trichy"; "JIPMER Puducherry"; "IIT Bombay"] /\
     List.map Scholarships.id (scholarships db0) = drawn uuid 5 4 /\
     List.map Scholarships.title (scholarships db0) =
       ["National Merit Scholarship"; "SC/ST Pre-Matric Scholarship";
        "Central Sector Scholarship Scheme"; "Begum Hazrat Mahal Scholarship"] /\
     List.map CareerPaths.id (career_paths db0) = drawn uuid 9 4 /\
     List.map CareerPaths.title (career_paths db0) =
       ["Software Engineer"; "Doctor"; "Civil Services Officer"; "Data Scientist"] /\
     (forall r, r ∈ scholarships db0 ->
                Scholarships.is_active r = Some true /\
                Scholarships.created_at r = Some now) /\
     (forall s, current_role s = authenticated ->
                select_scholarships s db0 = scholarships db0)).
Proof.
  split.
  - intros H1 H2 H3. unfold migration.
    destruct (insert_values_colleges_ok now uuid sample_colleges
                ltac:(repeat constructor) 0 empty_db H1) as (db1 & Hdb1).
    rewrite Hdb1. cbn [bind]. apply insert_values_colleges in Hdb1. subst db1.
    destruct (insert_values_scholarships_ok now uuid sample_scholarships
                ltac:(repeat constructor) 5
                (set_colleges empty_db
                   (colleges empty_db ++
                    inserted_rows Colleges.defaults now uuid 0 sample_colleges)) H2)
      as (db2 & Hdb2).
    rewrite Hdb2. cbn [bind]. apply insert_values_scholarships in Hdb2. subst db2.
    apply (insert_values_career_paths_ok now uuid sample_career_paths
             ltac:(repeat constructor) 9). exact H3.
  - intros db0 H.
    pose proof (reachable_consistent now uuid db0 [] H) as Hc. simpl in Hc.
    apply migration_result in H. subst db0.
    pose proof (colleges_pkey _ Hc) as Hk1. pose proof (scholarships_pkey _ Hc) as Hk2.
    pose proof (career_paths_pkey _ Hc) as Hk3.
    split_and!; try reflexivity; try assumption.
    + intros r Hr. cbn [scholarships inserted_rows sample_scholarships] in Hr.
      repeat (apply elem_of_cons in Hr as [->|Hr]; [by split|]).
      by apply elem_of_nil in Hr.
    + intros s Hrole. unfold select_scholarships, select_rows.
      apply filter_everything. intros r Hr.
      cbn [scholarships inserted_rows sample_scholarships] in Hr.
      unfold visible, bypasses_rls, rls_using, scholarships_policies.
      cbn [List.filter applies polcmd polroles command_eqb andb]. rewrite Hrole.
      cbn [role_eqb existsb polqual orb].
      repeat (apply elem_of_cons in Hr as [->|Hr]; [reflexivity|]).
      by apply elem_of_nil in Hr.
Qed.

Lemma X14_migration_seeds_witness :
  NoDup (drawn N.of_nat 0 5) /\ NoDup (drawn N.of_nat 5 4) /\ NoDup (drawn N.of_nat 9 4) /\
  exists db0, migration 0 N.of_nat = Ok db0.
Proof.
  assert (H1 : NoDup (drawn N.of_nat 0 5)) by (apply (bool_decide_unpack _); vm_compute; exact I).
  assert (H2 : NoDup (drawn N.of_nat 5 4)) by (apply (bool_decide_unpack _); vm_compute; exact I).
  assert (H3 : NoDup (drawn N.of_nat 9 4)) by (apply (bool_decide_unpack _); vm_compute; exact I).
  split; [exact H1|]. split; [exact H2|]. split; [exact H3|].
  exact (proj1 (X14_migration_seeds 0 N.of_nat) H1 H2 H3).
Defined.

(** ** The landing page *)

(** X15: the gate of the landing page. The page shows its content (the
    navigation bar with the address of the user, then Hero, ChatBot,
    CareerNavigator, ScholarshipTracker and QuestSystem) exactly when the
    session is loaded and has a user; while loading it shows the spinner and
    does not navigate; it renders nothing exactly when its effect sends the
    visitor to /auth, which is when the session is loaded without a user. *)
Theorem X15_index_gate (a : auth_state) :
  (forall shown content,
     Index a = Page shown content <->
     loading a = false /\
     (exists u, user a = Some u /\ email u = shown) /\
     content = [Hero; ChatBot; CareerNavigator; ScholarshipTracker; QuestSystem]) /\
  (Index a = Spinner <-> loading a = true) /\
  (loading a = true -> Index_effect a = []) /\
  (Index a = Null <-> Index_effect a = ["/auth"]) /\
  (Index_effect a = ["/auth"] <-> loading a = false /\ user a = None) /\
  (Index_effect a = [] \/ Index_effect a = ["/auth"]).
Proof.
  destruct a as [[u|] []]; unfold Index, Index_effect; simpl; split_and!;
    try tauto; try (intros shown content); try (split; intros H); try done.
  all: repeat match goal with
              | H : _ /\ _ |- _ => destruct H
              | H : ex _ |- _ => destruct H
              end;
       simplify_eq; split_and?; eauto.
Qed.

Lemma X15_index_gate_witness :
  loading (AuthState None false) = false /\ user (AuthState None false) = None /\
  Index (AuthState None false) = Null /\
  Index_effect (AuthState None false) = ["/auth"].
Proof.
  split; [reflexivity|]. split; [reflexivity|]. split; [reflexivity|].
  exact (proj2 (proj1 (proj2 (proj2 (proj2 (proj2 (X15_index_gate (AuthState None false)))))))
           (conj eq_refl eq_refl)).
Defined.

(** ** Updates that keep the keys *)

Lemma map_apply_update_kept {A K} (f : A -> K) (target : A -> bool) (new : A -> A)
    (t : list A) :
  (forall r, f (new r) = f r) -> List.map f (apply_update target new t) = List.map f t.
Proof.
  intros H. unfold apply_update. rewrite List.map_map. apply List.map_ext.
  intros r. by destruct (target r).
Qed.

Lemma forallb_targets {A} (target P : A -> bool) (t : list A) :
  (forall r, r ∈ t -> target r = true -> P r = true) ->
  forallb (fun r => negb (target r) || P r) t = true.
Proof.
  intros H. apply forallb_elem. intros r Hr.
  destruct (target r) eqn:Ht; [|done]. simpl. by apply H.
Qed.

Lemma visible_update_own (s : session) (db : DB) :
  bypasses_rls s = false ->
  (forall r, visible profiles_policies s db UPDATE r = requester_is s (Profiles.id r)) /\
  (forall r, visible chat_conversations_policies s db UPDATE r =
             requester_is s (ChatConversations.user_id r)) /\
  (forall r, visible user_progress_policies s db UPDATE r =
             requester_is s (UserProgress.user_id r)) /\
  (forall r, admissible profiles_policies s db UPDATE r = requester_is s (Profiles.id r)) /\
  (forall r, admissible chat_conversations_policies s db UPDATE r =
             requester_is s (ChatConversations.user_id r)) /\
  (forall r, admissible user_progress_policies s db UPDATE r =
             requester_is s (UserProgress.user_id r)).
Proof.
  intros Hs. unfold visible, admissible. rewrite Hs. split_and!; intros r; simpl.
  - by rewrite using_profiles.
  - by rewrite using_chat_conversations.
  - by rewrite using_user_progress.
  - by rewrite check_profiles.
  - by rewrite check_chat_conversations.
  - by rewrite check_user_progress.
Qed.

Lemma visible_then_admissible (s : session) (db : DB) :
  (forall r r', Profiles.id r' = Profiles.id r ->
     visible profiles_policies s db UPDATE r = true ->
     admissible profiles_policies s db UPDATE r' = true) /\
  (forall r r', ChatConversations.user_id r' = ChatConversations.user_id r ->
     visible chat_conversations_policies s db UPDATE r = true ->
     admissible chat_conversations_policies s db UPDATE r' = true) /\
  (forall r r', UserProgress.user_id r' = UserProgress.user_id r ->
     visible user_progress_policies s db UPDATE r = true ->
     admissible user_progress_policies s db UPDATE r' = true).
Proof.
  unfold visible, admissible. split_and!; intros r r' Hown;
    rewrite ?using_profiles, ?check_profiles, ?using_chat_conversations,
      ?check_chat_conversations, ?using_user_progress, ?check_user_progress, Hown;
    by destruct (bypasses_rls s).
Qed.

(** An UPDATE that keeps the key and owner columns goes through, for any
    session. *)
Lemma update_profiles_keeping_keys s e db cond assign :
  consistent db ->
  (forall r, Profiles.id (assign r) = Profiles.id r) ->
  update_profiles s e db cond assign =
    Ok (set_profiles db
          (apply_update (targets profiles_policies UPDATE s db cond)
             (fun r => Profiles.with_updated_at (assign r) (Some (NOW e)))
             (profiles db))).
Proof.
  intros Hc Hkeep. destruct (visible_then_admissible s db) as (A1 & _ & _).
  unfold update_profiles, handle_updated_at, update_admissible.
  rewrite (forallb_targets _ (fun r => admissible _ _ _ _ _)).
  2:{ intros r _ Ht. unfold targets in Ht. apply andb_true_iff in Ht as [_ Ht].
      apply (A1 r); [|done]. cbn [Profiles.with_updated_at Profiles.id]. apply Hkeep. }
  cbn [bind require].
  rewrite (map_apply_update_kept Profiles.id) by (intros r; apply Hkeep).
  rewrite (proj2 (distinct_true _) (profiles_pkey db Hc)). cbn [bind require].
  rewrite (forallb_targets _ (fun r => references _ _)).
  2:{ intros r Hr _. cbn [Profiles.with_updated_at Profiles.id]. rewrite Hkeep.
      apply references_true. exact (refers_elem _ _ _ _ (profiles_id_fkey db Hc) Hr). }
  reflexivity.
Qed.

Lemma update_chat_conversations_keeping_keys s e db cond assign :
  consistent db ->
  (forall r, ChatConversations.id (assign r) = ChatConversations.id r /\
             ChatConversations.user_id (assign r) = ChatConversations.user_id r) ->
  update_chat_conversations s e db cond assign =
    Ok (set_chat_conversations db
          (apply_update (targets chat_conversations_policies UPDATE s db cond)
             (fun r => ChatConversations.with_updated_at (assign r) (Some (NOW e)))
             (chat_conversations db))).
Proof.
  intros Hc Hkeep. destruct (visible_then_admissible s db) as (_ & A2 & _).
  unfold update_chat_conversations, handle_updated_at, update_admissible.
  rewrite (forallb_targets _ (fun r => admissible _ _ _ _ _)).
  2:{ intros r _ Ht. unfold targets in Ht. apply andb_true_iff in Ht as [_ Ht].
      apply (A2 r); [|done].
      cbn [ChatConversations.with_updated_at ChatConversations.user_id]. apply Hkeep. }
  cbn [bind require].
  rewrite (map_apply_update_kept ChatConversations.id) by (intros r; apply Hkeep).
  rewrite (proj2 (distinct_true _) (chat_conversations_pkey db Hc)). cbn [bind require].
  rewrite (forallb_targets _ (fun r => references (ChatConversations.user_id _) _)).
  2:{ intros r Hr _. cbn [ChatConversations.with_updated_at ChatConversations.user_id].
      rewrite (proj2 (Hkeep r)). apply references_true.
      exact (refers_elem _ _ _ _ (chat_conversations_user_id_fkey db Hc) Hr). }
  cbn [bind require].
  rewrite (proj2 (forallb_elem _ _)); [reflexivity|].
  intros r Hr. rewrite (proj2 (references_true (ChatConversations.id r)
                                 (List.map ChatConversations.id (chat_conversations db)))).
  - by rewrite !orb_true_r.
  - by apply elem_of_map_2.
Qed.

Lemma update_user_progress_keeping_keys s e db cond assign :
  consistent db ->
  (forall r, UserProgress.id (assign r) = UserProgress.id r /\
             UserProgress.user_id (assign r) = UserProgress.user_id r /\
             UserProgress.quest_type (assign r) = UserProgress.quest_type r) ->
  update_user_progress s e db cond assign =
    Ok (set_user_progress db
          (apply_update (targets user_progress_policies UPDATE s db cond)
             (fun r => UserProgress.with_updated_at (assign r) (Some (NOW e)))
             (user_progress db))).
Proof.
  intros Hc Hkeep. destruct (visible_then_admissible s db) as (_ & _ & A3).
  unfold update_user_progress, handle_updated_at, update_admissible.
  rewrite (forallb_targets _ (fun r => admissible _ _ _ _ _)).
  2:{ intros r _ Ht. unfold targets in Ht. apply andb_true_iff in Ht as [_ Ht].
      apply (A3 r); [|done].
      cbn [UserProgress.with_updated_at UserProgress.user_id]. apply Hkeep. }
  cbn [bind require].
  rewrite (map_apply_update_kept UserProgress.id) by (intros r; apply Hkeep).
  rewrite (proj2 (distinct_true _) (user_progress_pkey db Hc)). cbn [bind require].
  rewrite (map_apply_update_kept UserProgress.unique_key).
  2:{ intros r. unfold UserProgress.unique_key.
      cbn [UserProgress.with_updated_at UserProgress.user_id UserProgress.quest_type].
      destruct (Hkeep r) as (_ & -> & ->). reflexivity. }
  rewrite (proj2 (distinct_true _) (user_progress_user_id_quest_type_key db Hc)).
  cbn [bind require].
  rewrite (forallb_targets _ (fun r => references _ _)).
  2:{ intros r Hr _. cbn [UserProgress.with_updated_at UserProgress.user_id].
      rewrite (proj1 (proj2 (Hkeep r))). apply references_true.
      exact (refers_elem _ _ _ _ (user_progress_user_id_fkey db Hc) Hr). }
  reflexivity.
Qed.

(** X16: an UPDATE that leaves the key and owner columns alone always goes
    through. On a database that satisfies its constraints, for a session
    under row security, an UPDATE on profiles that keeps id, on
    chat_conversations that keeps id and user_id, or on user_progress that
    keeps id, user_id and quest_type is never aborted; it rewrites exactly
    the rows of the WHERE condition that the session owns. *)
Theorem X16_update_keeping_keys_goes_through (s : session) (e : env) (db : DB) :
  consistent db ->
  bypasses_rls s = false ->
  (forall cond assign,
     (forall r, Profiles.id (assign r) = Profiles.id r) ->
     update_profiles s e db cond assign =
       Ok (set_profiles db
             (apply_update (fun r => cond r && requester_is s (Profiles.id r))
                (fun r => Profiles.with_updated_at (assign r) (Some (NOW e)))
                (profiles db)))) /\
  (forall cond assign,
     (forall r, ChatConversations.id (assign r) = ChatConversations.id r /\
                ChatConversations.user_id (assign r) = ChatConversations.user_id r) ->
     update_chat_conversations s e db cond assign =
       Ok (set_chat_conversations db
             (apply_update (fun r => cond r && requester_is s (ChatConversations.user_id r))
                (fun r => ChatConversations.with_updated_at (assign r) (Some (NOW e)))
                (chat_conversations db)))) /\
  (forall cond assign,
     (forall r, UserProgress.id (assign r) = UserProgress.id r /\
                UserProgress.user_id (assign r) = UserProgress.user_id r /\
                UserProgress.quest_type (assign r) = UserProgress.quest_type r) ->
     update_user_progress s e db cond assign =
       Ok (set_user_progress db
             (apply_update (fun r => cond r && requester_is s (UserProgress.user_id r))
                (fun r => UserProgress.with_updated_at (assign r) (Some (NOW e)))
                (user_progress db)))).
Proof.
  intros Hc Hs.
  destruct (visible_update_own s db Hs) as (V1 & V2 & V3 & _).
  split_and!; intros cond assign Hkeep.
  - rewrite (update_profiles_keeping_keys s e db cond assign Hc Hkeep).
    do 2 f_equal. unfold apply_update. apply List.map_ext.
    intros r. unfold targets. by rewrite V1.
  - rewrite (update_chat_conversations_keeping_keys s e db cond assign Hc Hkeep).
    do 2 f_equal. unfold apply_update. apply List.map_ext.
    intros r. unfold targets. by rewrite V2.
  - rewrite (update_user_progress_keeping_keys s e db cond assign Hc Hkeep).
    do 2 f_equal. unfold apply_update. apply List.map_ext.
    intros r. unfold targets. by rewrite V3.
Qed.

Lemma X16_update_keeping_keys_goes_through_witness :
  consistent busy /\ bypasses_rls as_alice = false /\
  exists db',
    update_user_progress as_alice (Env 90 0) busy (fun _ => true) complete_quest = Ok db' /\
    List.map UserProgress.status (user_progress db') = [Some "completed"; Some "pending"] /\
    List.map UserProgress.updated_at (user_progress db') = [Some 90%Z; Some 35%Z].
Proof.
  destruct (X16_update_keeping_keys_goes_through as_alice (Env 90 0) busy
              busy_is_consistent eq_refl) as (_ & _ & Hprogress).
  split; [exact busy_is_consistent|]. split; [reflexivity|].
  eexists. split.
  - exact (Hprogress (fun _ => true) complete_quest
             (fun r => conj eq_refl (conj eq_refl eq_refl))).
  - split; vm_compute; reflexivity.
Defined.

(** ** The updated_at triggers, on the three tables *)

(** C6: the BEFORE UPDATE triggers of profiles, chat_conversations and
    user_progress stamp every updated row. An UPDATE on one of the three
    tables that goes through leaves each row it updates with updated_at =
    NOW() and the other columns as the statement assigned them, whatever
    the statement assigned to updated_at, and the other rows as they were.
    And such updates do go through: on a database that satisfies its
    constraints, an UPDATE by any session that keeps the key columns (id,
    and user_id and quest_type where the table has them), with any values
    for the other columns and for updated_at, ends with the rows stamped
    so. *)
Theorem C6_updated_at_is_now (s : session) (e : env) (db : DB) :
  (forall db' cond assign,
     update_profiles s e db cond assign = Ok db' ->
     rewritten (targets profiles_policies UPDATE s db cond)
       (fun r r' => Profiles.updated_at r' = Some (NOW e) /\
                    r' = Profiles.with_updated_at (assign r) (Some (NOW e)))
       (profiles db) (profiles db')) /\
  (forall db' cond assign,
     update_chat_conversations s e db cond assign = Ok db' ->
     rewritten (targets chat_conversations_policies UPDATE s db cond)
       (fun r r' => ChatConversations.updated_at r' = Some (NOW e) /\
                    r' = ChatConversations.with_updated_at (assign r) (Some (NOW e)))
       (chat_conversations db) (chat_conversations db')) /\
  (forall db' cond assign,
     update_user_progress s e db cond assign = Ok db' ->
     rewritten (targets user_progress_policies UPDATE s db cond)
       (fun r r' => UserProgress.updated_at r' = Some (NOW e) /\
                    r' = UserProgress.with_updated_at (assign r) (Some (NOW e)))
       (user_progress db) (user_progress db')) /\
  (consistent db ->
   (forall cond assign,
      (forall r, Profiles.id (assign r) = Profiles.id r) ->
      exists db',
        update_profiles s e db cond assign = Ok db' /\
        rewritten (targets profiles_policies UPDATE s db cond)
          (fun r r' => Profiles.updated_at r' = Some (NOW e) /\
                       r' = Profiles.with_updated_at (assign r) (Some (NOW e)))
          (profiles db) (profiles db')) /\
   (forall cond assign,
      (forall r, ChatConversations.id (assign r) = ChatConversations.id r /\
                 ChatConversations.user_id (assign r) = ChatConversations.user_id r) ->
      exists db',
        update_chat_conversations s e db cond assign = Ok db' /\
        rewritten (targets chat_conversations_policies UPDATE s db cond)
          (fun r r' => ChatConversations.updated_at r' = Some (NOW e) /\
                       r' = ChatConversations.with_updated_at (assign r) (Some (NOW e)))
          (chat_conversations db) (chat_conversations db')) /\
   (forall cond assign,
      (forall r, UserProgress.id (assign r) = UserProgress.id r /\
                 UserProgress.user_id (assign r) = UserProgress.user_id r /\
                 UserProgress.quest_type (assign r) = UserProgress.quest_type r) ->
      exists db',
        update_user_progress s e db cond assign = Ok db' /\
        rewritten (targets user_progress_policies UPDATE s db cond)
          (fun r r' => UserProgress.updated_at r' = Some (NOW e) /\
                       r' = UserProgress.with_updated_at (assign r) (Some (NOW e)))
          (user_progress db) (user_progress db'))).
Proof.
  assert (H1 : forall db' cond assign,
            update_profiles s e db cond assign = Ok db' ->
            rewritten (targets profiles_policies UPDATE s db cond)
              (fun r r' => Profiles.updated_at r' = Some (NOW e) /\
                           r' = Profiles.with_updated_at (assign r) (Some (NOW e)))
              (profiles db) (profiles db')).
  { intros db' cond assign H. unfold update_profiles in H. open_statement H.
    injection H as <-. cbn [profiles set_profiles].
    eapply rewritten_impl; [|apply rewritten_apply_update].
    intros r r' ->. split; reflexivity. }
  assert (H2 : forall db' cond assign,
            update_chat_conversations s e db cond assign = Ok db' ->
            rewritten (targets chat_conversations_policies UPDATE s db cond)
              (fun r r' => ChatConversations.updated_at r' = Some (NOW e) /\
                           r' = ChatConversations.with_updated_at (assign r) (Some (NOW e)))
              (chat_conversations db) (chat_conversations db')).
  { intros db' cond assign H. unfold update_chat_conversations in H. open_statement H.
    injection H as <-. cbn [chat_conversations set_chat_conversations].
    eapply rewritten_impl; [|apply rewritten_apply_update].
    intros r r' ->. split; reflexivity. }
  assert (H3 : forall db' cond assign,
            update_user_progress s e db cond assign = Ok db' ->
            rewritten (targets user_progress_policies UPDATE s db cond)
              (fun r r' => UserProgress.updated_at r' = Some (NOW e) /\
                           r' = UserProgress.with_updated_at (assign r) (Some (NOW e)))
              (user_progress db) (user_progress db')).
  { intros db' cond assign H. unfold update_user_progress in H. open_statement H.
    injection H as <-. cbn [user_progress set_user_progress].
    eapply rewritten_impl; [|apply rewritten_apply_update].
    intros r r' ->. split; reflexivity. }
  split_and!; try assumption; intros Hc; split_and!; intros cond assign Hkeep; eexists.
  - split; [apply (update_profiles_keeping_keys s e db cond assign Hc Hkeep)|].
    apply (H1 _ cond assign). apply (update_profiles_keeping_keys s e db cond assign Hc Hkeep).
  - split; [apply (update_chat_conversations_keeping_keys s e db cond assign Hc Hkeep)|].
    apply (H2 _ cond assign).
    apply (update_chat_conversations_keeping_keys s e db cond assign Hc Hkeep).
  - split; [apply (update_user_progress_keeping_keys s e db cond assign Hc Hkeep)|].
    apply (H3 _ cond assign).
    apply (update_user_progress_keeping_keys s e db cond assign Hc Hkeep).
Qed.

Lemma C6_updated_at_is_now_witness :
  consistent busy /\
  ((exists db',
      update_profiles as_alice (Env 80 0) busy (fun _ => true) backdate_profile = Ok db' /\
      rewritten (targets profiles_policies UPDATE as_alice busy (fun _ => true))
        (fun r r' => Profiles.updated_at r' = Some 80%Z /\
                     r' = Profiles.with_updated_at (backdate_profile r) (Some 80%Z))
        (profiles busy) (profiles db')) /\
   List.map Profiles.updated_at
     (profiles (executed (fun d => update_profiles as_alice (Env 80 0) d (fun _ => true)
                                     backdate_profile) busy))
     = [Some 80%Z; Some 20%Z]) /\
  ((exists db',
      update_chat_conversations as_alice (Env 80 0) busy (fun _ => true)
        backdate_conversation = Ok db' /\
      rewritten (targets chat_conversations_policies UPDATE as_alice busy (fun _ => true))
        (fun r r' => ChatConversations.updated_at r' = Some 80%Z /\
                     r' = ChatConversations.with_updated_at (backdate_conversation r)
                            (Some 80%Z))
        (chat_conversations busy) (chat_conversations db')) /\
   List.map ChatConversations.updated_at
     (chat_conversations
        (executed (fun d => update_chat_conversations as_alice (Env 80 0) d (fun _ => true)
                              backdate_conversation) busy))
     = [Some 80%Z; Some 31%Z]) /\
  ((exists db',
      update_user_progress as_alice (Env 80 0) busy (fun _ => true) backdate_progress
        = Ok db' /\
      rewritten (targets user_progress_policies UPDATE as_alice busy (fun _ => true))
        (fun r r' => UserProgress.updated_at r' = Some 80%Z /\
                     r' = UserProgress.with_updated_at (backdate_progress r) (Some 80%Z))
        (user_progress busy) (user_progress db')) /\
   List.map UserProgress.updated_at
     (user_progress
        (executed (fun d => update_user_progress as_alice (Env 80 0) d (fun _ => true)
                              backdate_progress) busy))
     = [Some 80%Z; Some 35%Z]).
Proof.
  destruct (C6_updated_at_is_now as_alice (Env 80 0) busy) as (_ & _ & _ & Hgo).
  destruct (Hgo busy_is_consistent) as (Hp & Hv & Hq).
  split; [exact busy_is_consistent|]. split_and!.
  - exact (Hp (fun _ => true) backdate_profile (fun r => eq_refl)).
  - vm_compute. reflexivity.
  - exact (Hv (fun _ => true) backdate_conversation (fun r => conj eq_refl eq_refl)).
  - vm_compute. reflexivity.
  - exact (Hq (fun _ => true) backdate_progress
             (fun r => conj eq_refl (conj eq_refl eq_refl))).
  - vm_compute. reflexivity.
Defined.

(** ** The access-control contract *)

Section Permits.
Context {R : Type}.
Variables (pols : list (policy R)) (s : session) (db : DB).

Lemma select_rows_permitted (t : list R) :
  select_rows pols s db t = List.filter (fun r => rls_permits pols s db (Selecting r)) t.
Proof. reflexivity. Qed.

Lemma remaining_not_permitted (cond : R -> bool) (t : list R) :
  remaining (targets pols DELETE s db cond) t =
  List.filter (fun r => negb (cond r && rls_permits pols s db (Deleting r))) t.
Proof. reflexivity. Qed.

(** An UPDATE that passes the check of its new rows rewrites the rows of
    its condition whose operation is permitted. *)
Lemma apply_update_permitted (cond : R -> bool) (new : R -> R) (t : list R) :
  update_admissible pols s db (targets pols UPDATE s db cond) new t = true ->
  apply_update (targets pols UPDATE s db cond) new t =
  apply_update (fun r => cond r && rls_permits pols s db (Updating r (new r))) new t.
Proof.
  intros Hadm. unfold update_admissible in Hadm. rewrite forallb_elem in Hadm.
  unfold apply_update. apply List.map_ext_in. intros r Hr.
  apply list_elem_of_In in Hr. specialize (Hadm r Hr).
  unfold targets in *. cbn [rls_permits].
  destruct (cond r), (visible pols s db UPDATE r); simpl in *; try done.
  by rewrite Hadm.
Qed.

(** An UPDATE that reaches a row whose operation is not permitted does
    not pass. *)
Lemma update_not_permitted (cond : R -> bool) (new : R -> R) (t : list R) (r : R) :
  r ∈ t -> targets pols UPDATE s db cond r = true ->
  rls_permits pols s db (Updating r (new r)) = false ->
  update_admissible pols s db (targets pols UPDATE s db cond) new t = false.
Proof.
  intros Hr Ht Hp. eapply update_admissible_refused; eauto.
  unfold targets in Ht. apply andb_true_iff in Ht as [_ Hv].
  cbn [rls_permits] in Hp. by rewrite Hv in Hp.
Qed.

(** And an UPDATE that does not pass has reached such a row. *)
Lemma update_refused_not_permitted (cond : R -> bool) (new : R -> R) (t : list R) :
  update_admissible pols s db (targets pols UPDATE s db cond) new t = false ->
  exists r, r ∈ t /\ targets pols UPDATE s db cond r = true /\
            rls_permits pols s db (Updating r (new r)) = false.
Proof.
  unfold update_admissible. induction t as [|r t IH]; simpl; [done|].
  destruct (targets pols UPDATE s db cond r) eqn:Ht; simpl.
  - destruct (admissible pols s db UPDATE (new r)) eqn:Ha; simpl.
    + intros H. destruct (IH H) as (r' & Hr' & H'). exists r'. split; [by right|done].
    + intros _. exists r. split; [left|]. split; [done|].
      cbn [rls_permits]. rewrite Ha. apply andb_false_r.
  - intros H. destruct (IH H) as (r' & Hr' & H'). exists r'. split; [by right|done].
Qed.
End Permits.

Ltac follow :=
  unfold statements_follow; split_and!;
  [ reflexivity
  | intros i; unfold_statements; cbn [rls_permits];
    match goal with |- context [admissible ?pols ?s ?db INSERT ?r] =>
      destruct (admissible pols s db INSERT r) end;
    cbn [bind require]; (split; [|done]); intros H; try done;
    exfalso; revert H; settle_insert
  | intros cond assign db' H; unfold_statements_in H; open_statement H;
    injection H as <-; frame_fields; by apply apply_update_permitted
  | intros cond assign r Hr Ht Hp; unfold executed; unfold_statements;
    rewrite (update_not_permitted _ _ _ cond _ _ r Hr Ht Hp);
    cbn [bind require commit]; eauto
  | intros cond assign H; unfold_statements_in H;
    match type of H with context [update_admissible ?pols ?s ?db ?tg ?new ?t] =>
      destruct (update_admissible pols s db tg new t) eqn:Ha end;
    [ exfalso; revert H; settle_insert
    | by apply update_refused_not_permitted ]
  | intros cond; eexists; split; reflexivity ].

(** C1, counterexample: Alice, a session under row security, is the owner
    of her profile row, and yet the layer does not permit her to delete
    it: profiles has no DELETE policy, and her DELETE leaves the row
    where it is. *)
Lemma C1_owner_cannot_delete_own_profile :
  alice_profile ∈ profiles busy /\
  bypasses_rls as_alice = false /\
  ~ (rls_permits profiles_policies as_alice busy (Deleting alice_profile) = true <->
     auth_uid as_alice = Some (Profiles.id alice_profile)) /\
  alice_profile ∈ profiles (executed (fun d => delete_profiles as_alice d (fun _ => true)) busy).
Proof.
  split_and!.
  - vm_compute. left.
  - reflexivity.
  - intros [_ H]. specialize (H eq_refl). vm_compute in H. discriminate.
  - vm_compute. left.
Qed.

(** C1, as amended. The access-control layer permits a row operation on
    profiles, chat_conversations, user_progress or user_saved_items if and
    only if row security does not apply to the session (the owner of the
    tables), or the table has a policy for the command and the
    owning-principal column of the row equals auth.uid(), for an UPDATE the
    column of the row before and of the row after. The commands with a
    policy are all but DELETE on profiles and user_progress, all four on
    chat_conversations, all but UPDATE on user_saved_items. On
    chat_messages, which has policies for SELECT and INSERT only, the
    owner of a message is the owner of a conversation with its
    conversation_id. And the statements of the five tables follow these
    decisions. *)
Theorem C1_access_control_contract (s : session) (e : env) (db : DB) :
  (forall o, rls_permits profiles_policies s db o =
             bypasses_rls s ||
             has_policy profiles_policies (command_of o) && requester_owns Profiles.id s o) /\
  (forall o, rls_permits chat_conversations_policies s db o =
             bypasses_rls s ||
             has_policy chat_conversations_policies (command_of o) &&
             requester_owns ChatConversations.user_id s o) /\
  (forall o, rls_permits user_progress_policies s db o =
             bypasses_rls s ||
             has_policy user_progress_policies (command_of o) &&
             requester_owns UserProgress.user_id s o) /\
  (forall o, rls_permits user_saved_items_policies s db o =
             bypasses_rls s ||
             has_policy user_saved_items_policies (command_of o) &&
             requester_owns UserSavedItems.user_id s o) /\
  (forall o, rls_permits chat_messages_policies s db o =
             bypasses_rls s ||
             has_policy chat_messages_policies (command_of o) &&
             requester_owns_parents s db o) /\
  (forall c, has_policy profiles_policies c = negb (command_eqb c DELETE)) /\
  (forall c, has_policy chat_conversations_policies c = true) /\
  (forall c, has_policy user_progress_policies c = negb (command_eqb c DELETE)) /\
  (forall c, has_policy user_saved_items_policies c = negb (command_eqb c UPDATE)) /\
  (forall c, has_policy chat_messages_policies c =
             command_eqb c SELECT || command_eqb c INSERT) /\
  (forall m, requester_owns_parent s db m = true <->
             conversation_of_requester s db (ChatMessages.conversation_id m)) /\
  statements_follow profiles_policies profiles select_profiles insert_profiles
    Profiles.defaults update_profiles (handle_updated_at Profiles.with_updated_at)
    delete_profiles s e db /\
  statements_follow chat_conversations_policies chat_conversations
    select_chat_conversations insert_chat_conversations ChatConversations.defaults
    update_chat_conversations (handle_updated_at ChatConversations.with_updated_at)
    delete_chat_conversations s e db /\
  statements_follow user_progress_policies user_progress select_user_progress
    insert_user_progress UserProgress.defaults update_user_progress
    (handle_updated_at UserProgress.with_updated_at) delete_user_progress s e db /\
  statements_follow user_saved_items_policies user_saved_items select_user_saved_items
    insert_user_saved_items UserSavedItems.defaults
    (fun s _ db cond assign => update_user_saved_items s db cond assign) (fun _ r => r)
    delete_user_saved_items s e db /\
  statements_follow chat_messages_policies chat_messages select_chat_messages
    insert_chat_messages ChatMessages.defaults
    (fun s _ db cond assign => update_chat_messages s db cond assign) (fun _ r => r)
    delete_chat_messages s e db.
Proof.
  split_and!.
  - intros o. destruct o; cbn [rls_permits command_of requester_owns];
      unfold visible, admissible; rewrite ?using_profiles, ?check_profiles;
      destruct (bypasses_rls s); simpl; reflexivity.
  - intros o. destruct o; cbn [rls_permits command_of requester_owns];
      unfold visible, admissible;
      rewrite ?using_chat_conversations, ?check_chat_conversations;
      destruct (bypasses_rls s); simpl; reflexivity.
  - intros o. destruct o; cbn [rls_permits command_of requester_owns];
      unfold visible, admissible; rewrite ?using_user_progress, ?check_user_progress;
      destruct (bypasses_rls s); simpl; reflexivity.
  - intros o. destruct o; cbn [rls_permits command_of requester_owns];
      unfold visible, admissible;
      rewrite ?using_user_saved_items, ?check_user_saved_items;
      destruct (bypasses_rls s); simpl; reflexivity.
  - intros o. destruct o; cbn [rls_permits command_of requester_owns_parents];
      unfold visible, admissible; rewrite ?using_chat_messages, ?check_chat_messages;
      destruct (bypasses_rls s); simpl; reflexivity.
  - intros c. by destruct c.
  - intros c. by destruct c.
  - intros c. by destruct c.
  - intros c. by destruct c.
  - intros c. by destruct c.
  - intros m. apply requester_owns_parent_true.
  - follow.
  - follow.
  - follow.
  - follow.
  - follow.
Qed.

Lemma C1_access_control_contract_witness :
  rls_permits chat_conversations_policies as_alice busy
    (Updating alice_conversation_row
       (handle_updated_at ChatConversations.with_updated_at (Env 60 0)
          (give_to_bob alice_conversation_row))) = false /\
  (exists err,
     update_chat_conversations as_alice (Env 60 0) busy (fun _ => true) give_to_bob
     = Err err) /\
  executed (fun d => update_chat_conversations as_alice (Env 60 0) d (fun _ => true)
                       give_to_bob) busy = busy /\
  rls_permits profiles_policies auth_service busy (Deleting alice_profile) = true /\
  exists db',
    delete_profiles auth_service busy (fun _ => true) = Ok db' /\
    profiles db' = [].
Proof.
  destruct (C1_access_control_contract as_alice (Env 60 0) busy)
    as (_ & Hconv & _ & _ & _ & _ & _ & _ & _ & _ & _ & _ & Hfollow & _).
  destruct Hfollow as (_ & _ & _ & Hrefused & _).
  destruct (C1_access_control_contract auth_service (Env 60 0) busy)
    as (Hprof & _ & _ & _ & _ & _ & _ & _ & _ & _ & _ & Hfollow & _).
  destruct Hfollow as (_ & _ & _ & _ & _ & Hdelete).
  assert (Hno : rls_permits chat_conversations_policies as_alice busy
                  (Updating alice_conversation_row
                     (handle_updated_at ChatConversations.with_updated_at (Env 60 0)
                        (give_to_bob alice_conversation_row))) = false)
    by (rewrite Hconv; vm_compute; reflexivity).
  assert (Hin : alice_conversation_row ∈ chat_conversations busy) by (vm_compute; left).
  destruct (Hrefused (fun _ => true) give_to_bob alice_conversation_row Hin eq_refl Hno)
    as [Herr Hsame].
  split_and!; [exact Hno|exact Herr|exact Hsame|rewrite Hprof; reflexivity|].
  destruct (Hdelete (fun _ => true)) as (db' & Hdb' & Hrows).
  exists db'. split; [exact Hdb'|]. rewrite Hrows. vm_compute. reflexivity.
Defined.
